(** * Inventory formatter (format.py): reconcile, correct, render

    A shallow embedding of the upload handler of [format.py]: the column
    reconciler (lines 26-38), the row corrector (lines 40-89) and the
    calls made on the worksheet (lines 94-149), with the properties of
    the written specification stated over it.

    Conventions.
    - A Python [str] is a [string]; each [ascii] stands for the code point
      of the same number (0-255).
    - A finite Python float is the rational it denotes, so that the
      [,.2f] rendering (which rounds the exact binary value) is exact.
      Similarity scores [2.0*M/T] are compared as rationals; for labels
      shorter than 2^25 characters the float comparisons of the source
      agree with the exact ones.
    - A dict whose insertion order is observed ([col_map]) is an
      association list; the worksheet cell table is a [gmap].
    - A cell of the uploaded sheet is a text or a number, an empty cell
      being the number NaN; booleans and dates are left out. [float] on
      a text is a parameter of the handler ([py_float]): the theorems
      hold whatever it returns.
    - [difflib] and the worksheet are library code: the first follows
      the standard library's [difflib.py], the second records, cell by
      cell, the call that wrote it last; a call that stores nothing (an
      empty text without format) leaves no cell.
    - The selection by label of line 41 is modelled for frames whose
      labels are distinct once stripped ([well_formed]). *)

From Stdlib Require Import String Ascii ZArith QArith Lia Bool.
From stdpp Require Import base option list gmap strings.

Local Open Scope string_scope.
Local Open Scope nat_scope.
Local Open Scope list_scope.
Local Open Scope stdpp_scope.

(** ** Python strings *)

Module PyStr.

(** [str.isspace] on one character, for the code points below 256:
    U+0009-U+000D, U+001C-U+0020, U+0085 and U+00A0. *)
Definition isspace (c : ascii) : bool :=
  let n := nat_of_ascii c in
  ((9 <=? n) && (n <=? 13)) || ((28 <=? n) && (n <=? 32))
  || (n =? 133) || (n =? 160).

(** [s.lstrip()] *)
Fixpoint lstrip (s : string) : string :=
  match s with
  | String c s' => if isspace c then lstrip s' else s
  | EmptyString => EmptyString
  end.

(** [s.rstrip()] *)
Fixpoint rstrip (s : string) : string :=
  match s with
  | String c s' =>
      match rstrip s' with
      | EmptyString => if isspace c then EmptyString else String c EmptyString
      | r => String c r
      end
  | EmptyString => EmptyString
  end.

(** [s.strip()] *)
Definition strip (s : string) : string := rstrip (lstrip s).

(** [s.replace(old, "")] for a one-character [old]. *)
Fixpoint remove_char (old : ascii) (s : string) : string :=
  match s with
  | String c s' =>
      if Ascii.eqb c old then remove_char old s' else String c (remove_char old s')
  | EmptyString => EmptyString
  end.

(** [str(n)] for a non-negative integer. *)
Fixpoint digits_fuel (fuel : nat) (n : N) (acc : string) : string :=
  match fuel with
  | O => acc
  | S fuel' =>
      let acc' := String (ascii_of_N (48 + n mod 10)) acc in
      if (n <? 10)%N then acc' else digits_fuel fuel' (n / 10)%N acc'
  end.

Definition str_of_N (n : N) : string := digits_fuel (S (N.to_nat (N.log2 n))) n "".

Definition str_of_nat (n : nat) : string := str_of_N (N.of_nat n).

(** [x in xs] for a list of strings. *)
Definition mem (x : string) (xs : list string) : bool :=
  existsb (String.eqb x) xs.

End PyStr.

(** ** difflib

    [get_close_matches] of the Python standard library, as line 32 calls
    it: [SequenceMatcher] with no junk predicate; the second sequence is
    the canonical name, shorter than 200 elements, so the automatic junk
    heuristic of [__chain_b] removes nothing and [bjunk] is empty. *)

Module difflib.

Definition sequence : Type := list ascii.

(** A [Match(a, b, size)] triple. *)
Definition Match : Type := nat * nat * nat.

Definition size_of (m : Match) : nat := m.2.

(** The entry [b2j[elt]]: the indices of [elt] in [b], increasing. *)
Fixpoint indices_from (j : nat) (b : sequence) (elt : ascii) : list nat :=
  match b with
  | [] => []
  | c :: b' =>
      if Ascii.eqb c elt then j :: indices_from (S j) b' elt
      else indices_from (S j) b' elt
  end.

Definition b2j (b : sequence) (elt : ascii) : list nat := indices_from 0 b elt.

(** [j2len.get(j-1, 0)]; the key [-1] is never present. *)
Definition j2lenget_pred (j2len : gmap nat nat) (j : nat) : nat :=
  match j with
  | O => 0
  | S j' => default 0 (j2len !! j')
  end.

(** State of the scan of [find_longest_match]. *)
Record scan := Scan { besti : nat; bestj : nat; bestsize : nat }.

(** [for j in b2j.get(a[i], nothing)]: the body, with its [continue]
    and [break]. *)
Fixpoint inner_loop (i blo bhi : nat) (j2len : gmap nat nat) (js : list nat)
    (newj2len : gmap nat nat) (best : scan) : gmap nat nat * scan :=
  match js with
  | [] => (newj2len, best)
  | j :: js' =>
      if j <? blo then inner_loop i blo bhi j2len js' newj2len best
      else if bhi <=? j then (newj2len, best)
      else
        let k := j2lenget_pred j2len j + 1 in
        let best' :=
          if bestsize best <? k then Scan (i + 1 - k) (j + 1 - k) k else best in
        inner_loop i blo bhi j2len js' (<[j := k]> newj2len) best'
  end.

(** [for i in range(alo, ahi)], over the list of the indices. *)
Fixpoint outer_loop (a b : sequence) (blo bhi : nat) (idxs : list nat)
    (j2len : gmap nat nat) (best : scan) : scan :=
  match idxs with
  | [] => best
  | i :: idxs' =>
      let js := match a !! i with Some elt => b2j b elt | None => [] end in
      let '(newj2len, best') := inner_loop i blo bhi j2len js ∅ best in
      outer_loop a b blo bhi idxs' newj2len best'
  end.

Definition same_elt (x y : option ascii) : bool :=
  match x, y with
  | Some c, Some d => Ascii.eqb c d
  | _, _ => false
  end.

(** First [while]: extend the match to the left. *)
Fixpoint extend_left (a b : sequence) (alo blo : nat) (bi bj bs : nat) : scan :=
  match bi, bj with
  | S i', S j' =>
      if (alo <? bi) && (blo <? bj) && same_elt (a !! i') (b !! j')
      then extend_left a b alo blo i' j' (S bs)
      else Scan bi bj bs
  | _, _ => Scan bi bj bs
  end.

(** Second [while]: extend the match to the right; [n] counts the
    elements of [a] left below [ahi]. *)
Fixpoint extend_right (a b : sequence) (ahi bhi : nat) (bi bj bs : nat) (n : nat) : scan :=
  match n with
  | O => Scan bi bj bs
  | S n' =>
      if (bi + bs <? ahi) && (bj + bs <? bhi) && same_elt (a !! (bi + bs)) (b !! (bj + bs))
      then extend_right a b ahi bhi bi bj (S bs) n'
      else Scan bi bj bs
  end.

(** [find_longest_match(alo, ahi, blo, bhi)]. The two last [while] loops
    of the source only step over junk elements and never run here. *)
Definition find_longest_match (a b : sequence) (alo ahi blo bhi : nat) : Match :=
  let s0 := outer_loop a b blo bhi (seq alo (ahi - alo)) ∅ (Scan alo blo 0) in
  let s1 := extend_left a b alo blo (besti s0) (bestj s0) (bestsize s0) in
  let s2 := extend_right a b ahi bhi (besti s1) (bestj s1) (bestsize s1)
              (ahi - (besti s1 + bestsize s1)) in
  (besti s2, bestj s2, bestsize s2).

(** A queued region [(alo, ahi, blo, bhi)]. *)
Definition region : Type := nat * nat * nat * nat.

(** The [while queue] loop of [get_matching_blocks]. The head of the list
    is the end of the Python list, where [pop] and [append] work. [None]
    when the fuel runs out before the queue is empty. *)
Fixpoint blocks_loop (fuel : nat) (a b : sequence) (queue : list region)
    (matching_blocks : list Match) : option (list Match) :=
  match queue with
  | [] => Some matching_blocks
  | (alo, ahi, blo, bhi) :: rest =>
      match fuel with
      | O => None
      | S fuel' =>
          let '(i, j, k) := find_longest_match a b alo ahi blo bhi in
          match k with
          | O => blocks_loop fuel' a b rest matching_blocks
          | S _ =>
              let q1 := if (alo <? i) && (blo <? j) then (alo, i, blo, j) :: rest else rest in
              let q2 := if (i + k <? ahi) && (j + k <? bhi) then (i + k, ahi, j + k, bhi) :: q1 else q1 in
              blocks_loop fuel' a b q2 (matching_blocks ++ [(i, j, k)])
          end
      end
  end.

(** The blocks found by the loop of [get_matching_blocks]. Sorting them,
    merging adjacent ones and appending the sentinel of size 0, as the
    source goes on to do, keep the sum of the sizes, the only thing
    [ratio] reads. *)
Definition get_matching_blocks (a b : sequence) : option (list Match) :=
  blocks_loop (2 * length a + 2) a b [(0, length a, 0, length b)] [].

(** [sum(triple[-1] for triple in self.get_matching_blocks())]. The loop
    always ends within its fuel ([get_matching_blocks_total] below), so
    the default is never used. *)
Definition matches (a b : sequence) : nat :=
  sum_list_with size_of (default [] (get_matching_blocks a b)).

Definition _calculate_ratio (matches length : nat) : Q :=
  match length with
  | O => 1%Q
  | S _ => (Z.of_nat (2 * matches) # Pos.of_nat length)%Q
  end.

Definition ratio (a b : sequence) : Q :=
  _calculate_ratio (matches a b) (length a + length b).

(** [fullbcount]: occurrences of [elt] in [b]. *)
Definition fullbcount (b : sequence) (elt : ascii) : nat :=
  length (filter (fun c => c = elt) b).

(** The loop of [quick_ratio]; [avail] maps an element seen in [a] to the
    (possibly negative) number of its occurrences in [b] still free. *)
Fixpoint quick_loop (b : sequence) (a : sequence) (avail : list (ascii * Z))
    (matches : nat) : nat :=
  match a with
  | [] => matches
  | elt :: a' =>
      let numb :=
        match find (fun p => Ascii.eqb p.1 elt) avail with
        | Some p => p.2
        | None => Z.of_nat (fullbcount b elt)
        end in
      let avail' := (elt, (numb - 1)%Z) :: filter (fun p => negb (Ascii.eqb p.1 elt)) avail in
      quick_loop b a' avail' (if (0 <? numb)%Z then S matches else matches)
  end.

Definition quick_ratio (a b : sequence) : Q :=
  _calculate_ratio (quick_loop b a [] 0) (length a + length b).

Definition real_quick_ratio (a b : sequence) : Q :=
  _calculate_ratio (min (length a) (length b)) (length a + length b).

(** Comparison of two [(score, x)] tuples: [p < q]. *)
Definition tuple_lt (p q : Q * string) : bool :=
  match (p.1 ?= q.1)%Q with
  | Lt => true
  | Gt => false
  | Eq => String.ltb p.2 q.2
  end.

(** [max(it)]: the first of the greatest items. *)
Fixpoint max_from (best : Q * string) (l : list (Q * string)) : Q * string :=
  match l with
  | [] => best
  | item :: l' => max_from (if tuple_lt best item then item else best) l'
  end.

(** [heapq.nlargest(1, result)] *)
Definition nlargest1 (result : list (Q * string)) : list (Q * string) :=
  match result with
  | [] => []
  | item :: l => [max_from item l]
  end.

Definition cutoff : Q := (6 # 10)%Q.

(** The test of the loop of [get_close_matches], [word] being the second
    sequence: all three ratios reach the cutoff. *)
Definition close_enough (word x : string) : bool :=
  let a := list_ascii_of_string x in
  let b := list_ascii_of_string word in
  Qle_bool cutoff (real_quick_ratio a b)
  && Qle_bool cutoff (quick_ratio a b)
  && Qle_bool cutoff (ratio a b).

Definition score (word x : string) : Q :=
  ratio (list_ascii_of_string x) (list_ascii_of_string word).

(** [result], the scored candidates that pass the test. *)
Definition scored (word : string) (possibilities : list string) : list (Q * string) :=
  (fun x => (score word x, x)) <$> filter (fun x => close_enough word x = true) possibilities.

(** [get_close_matches(word, possibilities, n=1, cutoff=0.6)] *)
Definition get_close_matches (word : string) (possibilities : list string) : list string :=
  snd <$> nlargest1 (scored word possibilities).

End difflib.

(** ** Cell values, exceptions *)

(** A Python float: a finite one is the rational it denotes. *)
Inductive pyfloat :=
  | Finite (q : Q)
  | Nan
  | Inf (negative : bool).

(** The value of a cell of the frame: a text or a number (an empty
    spreadsheet cell is read as [Num Nan]). *)
Inductive value :=
  | Str (s : string)
  | Num (x : pyfloat).

Inductive exception := KeyError | ValueError | TypeError.

Inductive result (A : Type) :=
  | Ok (a : A)
  | Raise (e : exception).

Arguments Ok {A} a.
Arguments Raise {A} e.

Definition bind {A B} (m : result A) (f : A -> result B) : result B :=
  match m with
  | Ok a => f a
  | Raise e => Raise e
  end.

Notation "x <- m ;; k" := (bind m (fun x => k))
  (at level 100, m at next level, right associativity).

(** ** The format specification [,.2f] *)

Module PyFmt.

(** [num/den] (not negative) rounded to the nearest integer, ties to the
    even one. *)
Definition round_half_even (num : Z) (den : positive) : Z :=
  let n := (num / Zpos den)%Z in
  let r := (num mod Zpos den)%Z in
  match (2 * r ?= Zpos den)%Z with
  | Lt => n
  | Gt => (n + 1)%Z
  | Eq => if Z.even n then n else (n + 1)%Z
  end.

(** The value in hundredths, sign dropped. *)
Definition cents (q : Q) : N :=
  Z.to_N (round_half_even (Z.abs (Qnum q) * 100) (Qden q)).

Definition digit (n : N) : ascii := ascii_of_N (48 + n mod 10).

Definition two_digits (n : N) : string :=
  String (digit (n / 10)) (String (digit n) "").

Definition three_digits (n : N) : string :=
  String (digit (n / 100)) (two_digits n).

(** The integer part with a comma before each group of three digits. *)
Fixpoint grouped (fuel : nat) (n : N) : string :=
  match fuel with
  | O => PyStr.str_of_N n
  | S fuel' =>
      if (n <? 1000)%N then PyStr.str_of_N n
      else grouped fuel' (n / 1000)%N +:+ "," +:+ three_digits (n mod 1000)
  end.

Definition comma_2f (x : pyfloat) : string :=
  match x with
  | Nan => "nan"
  | Inf false => "inf"
  | Inf true => "-inf"
  | Finite q =>
      let c := cents q in
      (if (Qnum q <? 0)%Z then "-" else "")
      +:+ grouped (N.to_nat (N.log2 c)) (c / 100)%N +:+ "." +:+ two_digits (c mod 100)
  end.

(** [f"${x:,.2f}"] *)
Definition money (x : pyfloat) : string := "$" +:+ comma_2f x.

(** The amount [money] displays for a finite float: the value rounded to
    hundredths, with its sign. *)
Definition rounded (q : Q) : Q :=
  ((if (Qnum q <? 0)%Z then -1 else 1) * (Z.of_N (cents q) # 100))%Q.

End PyFmt.

(** ** The frame *)

(** A [DataFrame] with the default index: its labels and its rows, each
    row holding one value per label. *)
Record DataFrame := { columns : list string; values : list (list value) }.

(** [columns.get_loc(label)] on unique labels. *)
Fixpoint get_loc (label : string) (labels : list string) : option nat :=
  match labels with
  | [] => None
  | l :: labels' => if String.eqb l label then Some 0 else S <$> get_loc label labels'
  end.

Definition at_col (row : list value) (i : nat) : value := default (Num Nan) (row !! i).

(** A row of the frame of lines 41-45: the five kept columns ([Cost]
    under its new label) and the backup of the cost. *)
Record record := {
  Warehouse : value;
  Code : value;
  Eng_Name : value;
  Quantity : value;
  USD_Each : value;
  Original_Cost : value
}.

(** A row of the frame of line 89. *)
Record formatted := {
  f_Warehouse : value;
  f_Code : value;
  f_Eng_Name : value;
  f_Quantity : value;
  f_USD_Each : value;
  f_Total_USD_Each : string;
  f_Notes : string
}.

(** ** Column reconciler (lines 26-38) *)

Definition expected_cols : list string :=
  ["Warehouse"; "Code"; "Eng Name"; "Quantity"; "Cost"].

Definition dict : Type := list (string * string).

(** [d.get(k)] *)
Definition dict_get (d : dict) (k : string) : option string :=
  snd <$> find (fun p => String.eqb p.1 k) d.

(** [d[k] = v]: a present key keeps its place, a new one goes last. *)
Definition dict_set (k v : string) (d : dict) : dict :=
  if existsb (fun p => String.eqb p.1 k) d
  then (fun p => if String.eqb p.1 k then (k, v) else p) <$> d
  else d ++ [(k, v)].

(** [list(d.values())] *)
Definition dict_values (d : dict) : list string := snd <$> d.

Definition dict_keys (d : dict) : list string := fst <$> d.

(** The loop of lines 31-34 over the names still to match. *)
Fixpoint match_columns (labels : list string) (cols : list string) (col_map : dict) : dict :=
  match cols with
  | [] => col_map
  | col :: cols' =>
      match difflib.get_close_matches col labels with
      | [] => match_columns labels cols' col_map
      | match0 :: _ => match_columns labels cols' (dict_set col match0 col_map)
      end
  end.

(** [col_map] after the loop, for the labels of the frame. *)
Definition col_map (labels : list string) : dict := match_columns labels expected_cols [].

(** [df.rename(columns=mapper)]: a label that is a key of [mapper] becomes
    the value stored under it. *)
Definition rename (mapper : dict) (labels : list string) : list string :=
  (fun l => default l (dict_get mapper l)) <$> labels.

(** Lines 41-45: [df[["Warehouse", "Code", "Eng Name", "Quantity", "Cost"]]]
    ([KeyError] when a label is absent), [Cost] relabelled [USD Each] and
    copied to [Original Cost]. *)
Definition select (labels : list string) (rows : list (list value)) : result (list record) :=
  match get_loc "Warehouse" labels, get_loc "Code" labels, get_loc "Eng Name" labels,
        get_loc "Quantity" labels, get_loc "Cost" labels with
  | Some w, Some c, Some e, Some q, Some u =>
      Ok ((fun r => {| Warehouse := at_col r w; Code := at_col r c; Eng_Name := at_col r e;
                       Quantity := at_col r q; USD_Each := at_col r u;
                       Original_Cost := at_col r u |}) <$> rows)
  | _, _, _, _, _ => Raise KeyError
  end.

(** How lines 21-45 end. *)
Inductive reconciled :=
  | Stop (found : list string)      (* line 36-37: the message, then st.stop() *)
  | Fail (e : exception)
  | Proceed (table : list record).

Definition reconcile (df : DataFrame) : reconciled :=
  let labels := PyStr.strip <$> columns df in
  let cm := col_map labels in
  if negb (length cm =? length expected_cols) then Stop (dict_values cm)
  else
    match select (rename cm labels) (values df) with
    | Ok table => Proceed table
    | Raise e => Fail e
    end.

(** ** Row corrector (lines 47-89) *)

Definition special_warehouses : list string :=
  ["DONA - RGA Warehouse"; "DONA - Scrap Warehouse"; "NOT FOR SALE"; "INVOICED"].

Definition adjust_codes : list string := ["029813261"; "NA029813261"].

(** The double written [1398.06]. *)
Definition price_029813 : Q := (3074366452657029 # 2199023255552)%Q.

(** The double written [7752.42]. *)
Definition price_91v2 : Q := (4261937966701609 # 549755813888)%Q.

(** [v in xs] and [Series.isin(xs)] for a list of texts: a number is
    equal to no text. *)
Definition py_in (v : value) (xs : list string) : bool :=
  match v with
  | Str s => PyStr.mem s xs
  | Num _ => false
  end.

(** [str(v).strip() == "91V2NU000001"]; the text of a number has no
    letter in common with that code but possibly [N], so only a text
    cell can be equal to it. *)
Definition is_91v2 (v : value) : bool :=
  match v with
  | Str s => String.eqb (PyStr.strip s) "91V2NU000001"
  | Num _ => false
  end.

Definition set_USD_Each (v : value) (row : record) : record :=
  {| Warehouse := Warehouse row; Code := Code row; Eng_Name := Eng_Name row;
     Quantity := Quantity row; USD_Each := v; Original_Cost := Original_Cost row |}.

(** Lines 54-55, the two assignments through [df.loc]. *)
Definition update_cost (table : list record) : list record :=
  let table1 :=
    (fun row => if py_in (Code row) adjust_codes
                then set_USD_Each (Num (Finite price_029813)) row else row) <$> table in
  (fun row => if is_91v2 (Code row)
              then set_USD_Each (Num (Finite price_91v2)) row else row) <$> table1.

Section Handler.

(** [float(s)] for a text [s]: [None] when it raises [ValueError]. *)
Variable py_float : string -> option pyfloat.

(** [float(v)] *)
Definition to_float (v : value) : result pyfloat :=
  match v with
  | Num x => Ok x
  | Str s => match py_float s with Some x => Ok x | None => Raise ValueError end
  end.

(** Line 66. A number goes through [float] as it is; one that is not an
    instance of [float] or [int] (a numpy integer) goes through its
    decimal text and comes back the same. *)
Definition usd_val_of (usd_each : value) : result pyfloat :=
  match usd_each with
  | Num x => Ok x
  | Str s => to_float (Str (PyStr.remove_char "," (PyStr.remove_char "$" s)))
  end.

(** [qty * usd_val] of line 72; the product is not used afterwards, only
    its [TypeError] on a text quantity is observable. *)
Definition total_val_of (qty : value) (usd_val : pyfloat) : result unit :=
  match qty with
  | Num _ => Ok tt
  | Str _ => Raise TypeError
  end.

(** The body of the loop of lines 60-83 for one row: the entries added
    to [total_col] and [notes_col]. *)
Definition row_entries (row : record) : result (string * string) :=
  usd_val <- usd_val_of (USD_Each row) ;;
  total <- (if py_in (Warehouse row) special_warehouses then Ok "$0.00"
            else _ <- total_val_of (Quantity row) usd_val ;; Ok "") ;;
  note <- (if py_in (Code row) adjust_codes then
             x <- to_float (Original_Cost row) ;;
             Ok ("Compiere previously showed " +:+ PyFmt.money x)
           else if is_91v2 (Code row) then
             x <- to_float (Original_Cost row) ;;
             Ok ("Compiere is showing a cost of " +:+ PyFmt.money x +:+ "; See DONA-PO-10001758")
           else Ok "") ;;
  Ok (total, note).

(** The loop of lines 60-83. *)
Fixpoint rows_loop (rows : list record) (notes_col total_col : list string)
    : result (list string * list string) :=
  match rows with
  | [] => Ok (notes_col, total_col)
  | row :: rows' =>
      e <- row_entries row ;;
      rows_loop rows' (notes_col ++ [e.2]) (total_col ++ [e.1])
  end.

(** Lines 85-89: the two new columns joined to the rows. *)
Fixpoint assign_columns (rows : list record) (total_col notes_col : list string)
    : list formatted :=
  match rows, total_col, notes_col with
  | row :: rows', t :: total_col', n :: notes_col' =>
      {| f_Warehouse := Warehouse row; f_Code := Code row; f_Eng_Name := Eng_Name row;
         f_Quantity := Quantity row; f_USD_Each := USD_Each row;
         f_Total_USD_Each := t; f_Notes := n |}
      :: assign_columns rows' total_col' notes_col'
  | _, _, _ => []
  end.

Definition final_columns : list string :=
  ["Warehouse"; "Code"; "Eng Name"; "Quantity"; "USD Each"; "Total USD Each";
   "Notes (Ex. Rate 1.12)"].

(** The row corrector: lines 54-89 on the reconciled table. *)
Definition correct (table : list record) : result (list formatted) :=
  let table' := update_cost table in
  cols <- rows_loop table' [] [] ;;
  Ok (assign_columns table' cols.2 cols.1).

(** ** Report renderer (lines 94-149)

    The worksheet is the table of its cells; a cell records the method
    that wrote it last and what it was given. Formats, the table region
    of line 134 (whose header cells repeat the labels) and the widths
    that lines 141-144 set leave the cell contents as they are and are
    not recorded, nor are the size limits of a sheet. *)

Inductive cell :=
  | CAny (v : value)         (* worksheet.write, also under df.to_excel *)
  | CNumber (q : Q)          (* worksheet.write_number *)
  | CString (s : string)     (* worksheet.write_string *)
  | CFormula (f : string)    (* worksheet.write_formula *)
  | CBlank.                  (* a blank cell, kept for its format *)

(** [worksheet.write(r, c, v, cell_format)], [cell_format] telling
    whether a format is given. The empty text is written as a blank,
    and a blank without format is not stored; a number goes the way of
    [write_number], which refuses NaN and the infinities. *)
Definition write (r c : nat) (v : value) (cell_format : bool) (ws : gmap (nat * nat) cell)
    : result (gmap (nat * nat) cell) :=
  match v with
  | Str "" => Ok (if cell_format then <[(r, c) := CBlank]> ws else ws)
  | Str _ => Ok (<[(r, c) := CAny v]> ws)
  | Num (Finite _) => Ok (<[(r, c) := CAny v]> ws)
  | Num _ => Raise TypeError
  end.

(** [write_number] refuses what is not a finite number. *)
Definition write_number (r c : nat) (v : value) (ws : gmap (nat * nat) cell)
    : result (gmap (nat * nat) cell) :=
  match v with
  | Num (Finite q) => Ok (<[(r, c) := CNumber q]> ws)
  | _ => Raise TypeError
  end.

Definition write_string (r c : nat) (s : string) (ws : gmap (nat * nat) cell)
    : gmap (nat * nat) cell :=
  <[(r, c) := CString s]> ws.

Definition write_formula (r c : nat) (f : string) (ws : gmap (nat * nat) cell)
    : gmap (nat * nat) cell :=
  <[(r, c) := CFormula f]> ws.

(** One row of cells from column [c] on. *)
Fixpoint write_cells (r c : nat) (vs : list value) (cell_format : bool)
    (ws : gmap (nat * nat) cell) : result (gmap (nat * nat) cell) :=
  match vs with
  | [] => Ok ws
  | v :: vs' =>
      ws' <- write r c v cell_format ws ;;
      write_cells r (S c) vs' cell_format ws'
  end.

(** Rows of cells from row [r] on, written without format. *)
Fixpoint write_rows (r : nat) (rows : list (list value)) (ws : gmap (nat * nat) cell)
    : result (gmap (nat * nat) cell) :=
  match rows with
  | [] => Ok ws
  | vs :: rows' =>
      ws' <- write_cells r 0 vs false ws ;;
      write_rows (S r) rows' ws'
  end.

(** What [df.to_excel] makes of a value before it writes it: a missing
    value becomes [na_rep], the empty text, and an infinity [inf_rep],
    the text [inf], with its sign. *)
Definition format_value (v : value) : value :=
  match v with
  | Num Nan => Str ""
  | Num (Inf false) => Str "inf"
  | Num (Inf true) => Str "-inf"
  | _ => v
  end.

(** The values of a row of the final frame, in the order of
    [final_columns]. *)
Definition row_values (row : formatted) : list value :=
  [f_Warehouse row; f_Code row; f_Eng_Name row; f_Quantity row; f_USD_Each row;
   Str (f_Total_USD_Each row); Str (f_Notes row)].

(** [df.to_excel(writer, index=False, startrow=1, header=False)] *)
Definition to_excel (table : list formatted) (startrow : nat) (ws : gmap (nat * nat) cell)
    : result (gmap (nat * nat) cell) :=
  write_rows startrow ((fun row => format_value <$> row_values row) <$> table) ws.

(** Lines 103-104: the labels, written under [header_format]. *)
Definition write_headers (ws : gmap (nat * nat) cell) : result (gmap (nat * nat) cell) :=
  write_cells 0 0 (Str <$> final_columns) true ws.

Definition qty_col : nat := default 0 (get_loc "Quantity" final_columns).
Definition usd_col : nat := default 0 (get_loc "USD Each" final_columns).
Definition total_col_idx : nat := default 0 (get_loc "Total USD Each" final_columns).

(** [chr(ord("A") + col)] *)
Definition col_letter (col : nat) : string := String (ascii_of_nat (65 + col)) "".

(** Line 129. *)
Definition t_formula (excel_row : nat) : string :=
  "=" +:+ col_letter qty_col +:+ PyStr.str_of_nat (excel_row + 1) +:+ "*"
  +:+ col_letter usd_col +:+ PyStr.str_of_nat (excel_row + 1).

(** The loop of lines 116-130, from the row numbered [row_num]. *)
Fixpoint write_table_rows (row_num : nat) (rows : list formatted) (ws : gmap (nat * nat) cell)
    : result (gmap (nat * nat) cell) :=
  match rows with
  | [] => Ok ws
  | row :: rows' =>
      let excel_row := row_num + 1 in
      ws1 <- write_number excel_row qty_col (f_Quantity row) ws ;;
      x <- to_float (f_USD_Each row) ;;
      let ws2 := write_string excel_row usd_col (PyFmt.money x) ws1 in
      let ws3 :=
        if String.eqb (f_Total_USD_Each row) "$0.00"
        then write_string excel_row total_col_idx "$0.00" ws2
        else write_formula excel_row total_col_idx (t_formula excel_row) ws2 in
      write_table_rows (S row_num) rows' ws3
  end.

(** Lines 141-144. The widths are not part of the cell table; what the
    loop can do to the run is fail. For a frame without rows
    [series.map(len).max()] is NaN, [max] keeps it, its first argument,
    and [set_column] cannot turn it into a width: [ValueError]. With a
    row it is a whole number and so is the width. *)
Definition set_column_widths (table : list formatted) : result unit :=
  match table with
  | [] => Raise ValueError
  | _ :: _ => Ok tt
  end.

(** The sheet [Formatted] when the [with] block of line 96 ends. *)
Definition render (table : list formatted) : result (gmap (nat * nat) cell) :=
  ws0 <- to_excel table 1 ∅ ;;
  ws1 <- write_headers ws0 ;;
  ws2 <- write_table_rows 0 table ws1 ;;
  _ <- set_column_widths table ;;
  Ok ws2.

(** ** The handler (lines 13-152) *)

(** What the download button of line 147 offers. *)
Record download := {
  file_name : string;
  mime : string;
  sheets : list (string * gmap (nat * nat) cell)
}.

Inductive outcome :=
  | SchemaMismatch (found : list string)   (* lines 36-37 *)
  | ProcessingError (e : exception)        (* lines 151-152 *)
  | Download (d : download).

Definition handle (df : DataFrame) : outcome :=
  match reconcile df with
  | Stop found => SchemaMismatch found
  | Fail e => ProcessingError e
  | Proceed table =>
      match (rows <- correct table ;; render rows) with
      | Ok ws =>
          Download {| file_name := "formatted_inventory.xlsx";
                      mime := "application/vnd.openxmlformats-officedocument.spreadsheetml.sheet";
                      sheets := [("Formatted", ws)] |}
      | Raise e => ProcessingError e
      end
  end.

End Handler.

(** ** The frames and the readings used below *)

(** The frames the embedding of the selection by label (line 41) covers:
    labels that are distinct once stripped, one value per label in each
    row. *)
Definition well_formed (df : DataFrame) : Prop :=
  NoDup (PyStr.strip <$> columns df) /\
  Forall (fun r => length r = length (columns df)) (values df).

(** A reading of [float] on texts for the examples, whose numbers are all
    number cells: it converts no text. The theorems hold for every
    reading. *)
Definition no_text_float (s : string) : option pyfloat := None.

(** ** The consuming application

    How a spreadsheet application evaluates the formula of line 129, a
    product of two cells: a number cell gives its number, a text cell the
    amount it displays, when it displays one. *)

Module Sheet.

(** The name of the cell at row [r] and column [c], both counted from 0. *)
Definition a1 (r c : nat) : string := col_letter c +:+ PyStr.str_of_nat (r + 1).

Definition digit_value (c : ascii) : option N :=
  let n := N_of_ascii c in
  if (48 <=? n)%N && (n <=? 57)%N then Some (n - 48)%N else None.

(** Digits with group commas, then at most one point and its decimals:
    the digits read as one integer, and the number of decimals. *)
Fixpoint scan_amount (s : string) (acc : N) (decimals : option nat) : option (N * nat) :=
  match s with
  | EmptyString => Some (acc, default 0 decimals)
  | String c s' =>
      match digit_value c with
      | Some d => scan_amount s' (acc * 10 + d) (S <$> decimals)
      | None =>
          if Ascii.eqb c "," then
            match decimals with None => scan_amount s' acc None | Some _ => None end
          else if Ascii.eqb c "." then
            match decimals with None => scan_amount s' acc (Some 0) | Some _ => None end
          else None
      end
  end.

(** The amount a currency text displays: [$], an optional sign, then the
    digits. *)
Definition amount_of_text (s : string) : option Q :=
  match s with
  | String "$" s1 =>
      let '(negative, s2) :=
        match s1 with
        | String "-" s2 => (true, s2)
        | _ => (false, s1)
        end in
      if String.eqb s2 "" then None
      else
        match scan_amount s2 0 None with
        | Some (n, k) =>
            Some ((if negative then -1 else 1) * (Z.of_N n # Z.to_pos (10 ^ Z.of_nat k)))%Q
        | None => None
        end
  | _ => None
  end.

Definition operand (c : option cell) : option Q :=
  match c with
  | Some (CNumber q) => Some q
  | Some (CString s) => amount_of_text s
  | _ => None
  end.

(** The value of the formula ["=" +:+ a1 r c1 +:+ "*" +:+ a1 r c2];
    [None] stands for an error value. *)
Definition product (ws : gmap (nat * nat) cell) (r c1 c2 : nat) : option Q :=
  match operand (ws !! (r, c1)), operand (ws !! (r, c2)) with
  | Some x, Some y => Some (x * y)%Q
  | _, _ => None
  end.

End Sheet.

(** ** Reading the upload (lines 16-17) and the table region (lines 133-134) *)

Module PyPath.

(** [p.rfind(c)] for one character: [None] stands for -1. *)
Fixpoint rfind (c : ascii) (p : list ascii) : option nat :=
  match p with
  | [] => None
  | x :: p' =>
      match rfind c p' with
      | Some i => Some (S i)
      | None => if Ascii.eqb x c then Some 0 else None
      end
  end.

(** The [while] loop of [genericpath._splitext]: [true] when it returns
    from inside, on a character of [p[filenameIndex:dotIndex]] that is
    not the dot; [n] counts the indices left below [dotIndex]. *)
Fixpoint has_name (p : list ascii) (filenameIndex n : nat) : bool :=
  match n with
  | O => false
  | S n' =>
      match p !! filenameIndex with
      | Some c => if Ascii.eqb c "." then has_name p (S filenameIndex) n' else true
      | None => true
      end
  end.

(** [os.path.splitext(p)] of [posixpath]: the separator is [/], the
    extension starts at the last dot of the last component, leading dots
    of that component set aside. *)
Definition splitext (p : string) : string * string :=
  let l := list_ascii_of_string p in
  let filenameIndex := match rfind "/" l with Some sepIndex => S sepIndex | None => 0 end in
  match rfind "." l with
  | Some dotIndex =>
      if (filenameIndex <=? dotIndex) && has_name l filenameIndex (dotIndex - filenameIndex)
      then (string_of_list_ascii (take dotIndex l), string_of_list_ascii (drop dotIndex l))
      else (p, "")
  | None => (p, "")
  end.

End PyPath.

(** Lines 16-17: the engine [pd.read_excel] is given for an uploaded file
    of that name. *)
Definition engine_for (name : string) : string :=
  let ext := (PyPath.splitext name).2 in
  if String.eqb ext ".xls" then "xlrd" else "openpyxl".

(** Line 133, [chr(ord('A') + len(df.columns) - 1)]. *)
Definition last_col : string := col_letter (length final_columns - 1).

(** The range given to [add_table] at line 134 for a frame of [n] rows. *)
Definition table_range (n : nat) : string :=
  "A1:" +:+ last_col +:+ PyStr.str_of_nat (n + 1).

(** ** Notions the properties are stated with *)

(** The labels of the frame as the reconciler sees them (line 21). *)
Definition labels_of (df : DataFrame) : list string := PyStr.strip <$> columns df.

(** The five indices a successful selection uses. *)
Definition located (labels : list string) (w c e q u : nat) : Prop :=
  get_loc "Warehouse" labels = Some w /\ get_loc "Code" labels = Some c /\
  get_loc "Eng Name" labels = Some e /\ get_loc "Quantity" labels = Some q /\
  get_loc "Cost" labels = Some u.

(** The row of the reconciled table read from a row of the frame at
    these indices. *)
Definition record_at (w c e q u : nat) (r : list value) : record :=
  {| Warehouse := at_col r w; Code := at_col r c; Eng_Name := at_col r e;
     Quantity := at_col r q; USD_Each := at_col r u; Original_Cost := at_col r u |}.

(** What lines 54-55 make of one row. *)
Definition updated (row : record) : record :=
  let row1 := if py_in (Code row) adjust_codes
              then set_USD_Each (Num (Finite price_029813)) row else row in
  if is_91v2 (Code row1) then set_USD_Each (Num (Finite price_91v2)) row1 else row1.

(** The row of the final frame for a row and its two entries. *)
Definition formatted_of (row : record) (e : string * string) : formatted :=
  {| f_Warehouse := Warehouse row; f_Code := Code row; f_Eng_Name := Eng_Name row;
     f_Quantity := Quantity row; f_USD_Each := USD_Each row;
     f_Total_USD_Each := e.1; f_Notes := e.2 |}.

(** No two canonical names share a label in the mapping. *)
Definition injective (d : dict) : Prop :=
  forall c1 c2 m, (c1, m) ∈ d -> (c2, m) ∈ d -> c1 = c2.

(** Whether a row is under one of the two rules of lines 54-55. *)
Definition under_rule (row : record) : bool :=
  py_in (Code row) adjust_codes || is_91v2 (Code row).

(** The rows the corrector and the renderer go through: a quantity that
    is a finite number and a cost that is a number or a text [float]
    converts, at line 78 or 120 as it stands and, under no rule, at
    line 66 without its dollar sign and commas. *)
Definition accepted (py_float : string -> option pyfloat) (row : record) : Prop :=
  (exists q, Quantity row = Num (Finite q)) /\
  forall s, USD_Each row = Str s ->
    is_Some (py_float s) /\
    (under_rule row = false ->
     is_Some (py_float (PyStr.remove_char "," (PyStr.remove_char "$" s)))).

(** A row of the final frame the loop of lines 116-130 can write. *)
Definition writable (py_float : string -> option pyfloat) (o : formatted) : Prop :=
  (exists q, f_Quantity o = Num (Finite q)) /\
  exists x, to_float py_float (f_USD_Each o) = Ok x.

(** A text of whitespace only. *)
Definition blank (s : string) : Prop :=
  Forall (fun c => PyStr.isspace c = true) (list_ascii_of_string s).

(** The values [write] takes: texts and finite numbers. *)
Definition token (v : value) : Prop :=
  match v with
  | Str _ | Num (Finite _) => True
  | Num _ => False
  end.

(** The cell a call of [write] stores, if any. *)
Definition stored (v : value) (cell_format : bool) : option cell :=
  match v with
  | Str "" => if cell_format then Some CBlank else None
  | _ => Some (CAny v)
  end.

(** The cell [df.to_excel] leaves for a value of the frame: none for a
    missing value or an empty text. *)
Definition shown (v : value) : option cell := stored (format_value v) false.

(** A cell over what was there before. *)
Definition over (new old : option cell) : option cell :=
  match new with
  | Some x => Some x
  | None => old
  end.

(** ** Frames of the examples *)

(** A frame under the canonical labels. *)
Definition inventory_frame : DataFrame :=
  {| columns := ["Warehouse"; "Code"; "Eng Name"; "Quantity"; "Cost"];
     values :=
       [[Str "Main"; Str "029813261"; Str "Widget"; Num (Finite 3); Num (Finite 500)];
        [Str "NOT FOR SALE"; Str "999999"; Str "Gadget"; Num (Finite 10); Num (Finite 20)];
        [Str "INVOICED"; Str " 91V2NU000001"; Str "Valve"; Num (Finite 2); Num (Finite 640)];
        [Str "Main"; Str "X1"; Str "Bolt"; Num (Finite 8); Num (Finite (1 # 8))]] |}.

(** Its reconciled table, its corrected rows, what the handler offers
    for it, and the sheet offered. *)
Definition inventory_table : list record :=
  match reconcile inventory_frame with
  | Proceed table => table
  | _ => []
  end.

Definition inventory_out : list formatted :=
  match correct no_text_float inventory_table with
  | Ok out => out
  | Raise _ => []
  end.

Definition inventory_download : download :=
  match handle no_text_float inventory_frame with
  | Download d => d
  | _ => {| file_name := ""; mime := ""; sheets := [] |}
  end.

Definition inventory_sheet : gmap (nat * nat) cell :=
  match sheets inventory_download with
  | [(_, ws)] => ws
  | _ => ∅
  end.

(** The first row of that frame under a first label in lower case. *)
Definition lowercase_frame : DataFrame :=
  {| columns := ["warehouse"; "Code"; "Eng Name"; "Quantity"; "Cost"];
     values := [[Str "Main"; Str "029813261"; Str "Widget"; Num (Finite 3); Num (Finite 500)]] |}.

(** A frame with no column for the cost. *)
Definition no_cost_frame : DataFrame :=
  {| columns := ["warehouse"; "Code"; "Eng Name"; "Quantity"];
     values := [[Str "Main"; Str "029813261"; Str "Widget"; Num (Finite 3)]] |}.

(** A frame where one label is the best match of two canonical names. *)
Definition shared_match_frame : DataFrame :=
  {| columns := ["Warehouse"; "Cose"; "Eng Name"; "Quantity"];
     values := [[Str "Main"; Str "029813261"; Str "Widget"; Num (Finite 3)]] |}.

(** A frame whose costs are missing. *)
Definition blank_cost_frame : DataFrame :=
  {| columns := ["Warehouse"; "Code"; "Eng Name"; "Quantity"; "Cost"];
     values := [[Str "Main"; Str "X1"; Str "Bolt"; Num (Finite 8); Num Nan];
                [Str "INVOICED"; Str "X2"; Str "Nut"; Num (Finite 1); Num Nan]] |}.

Definition blank_cost_download : download :=
  match handle no_text_float blank_cost_frame with
  | Download d => d
  | _ => {| file_name := ""; mime := ""; sheets := [] |}
  end.

(** A frame under the canonical labels, without rows. *)
Definition empty_frame : DataFrame :=
  {| columns := ["Warehouse"; "Code"; "Eng Name"; "Quantity"; "Cost"]; values := [] |}.

(** A frame with a quantity written as text. *)
Definition text_quantity_frame : DataFrame :=
  {| columns := ["Warehouse"; "Code"; "Eng Name"; "Quantity"; "Cost"];
     values := [[Str "Main"; Str "X1"; Str "Bolt"; Str "eight"; Num (Finite 2)]] |}.

(** * Proofs *)

(** Closes a decidable closed goal by computation. *)
Ltac by_decide := apply (bool_decide_unpack _); vm_compute; exact I.

(** Closes [l !! i = v] with a hypothesis [l !! i' = v] where [i' = i]. *)
Ltac by_index :=
  match goal with
  | H : ?l !! _ = ?v |- ?l !! _ = ?v => rewrite <- H; f_equal; lia
  end.

(** ** Facts about difflib *)

Import difflib.


Section Matching.

Variables a b : sequence.

(** [k] elements of [a] from [i] are the [k] elements of [b] from [j]. *)
Definition agree (i j k : nat) : Prop :=
  forall t, t < k -> exists c, a !! (i + t) = Some c /\ b !! (j + t) = Some c.

(** A block inside the region. *)
Definition span_ok (alo ahi blo bhi : nat) (s : scan) : Prop :=
  alo <= besti s /\ besti s + bestsize s <= ahi /\
  blo <= bestj s /\ bestj s + bestsize s <= bhi /\
  agree (besti s) (bestj s) (bestsize s).

Lemma indices_from_spec (l : sequence) (elt : ascii) (j0 j : nat) :
  j ∈ indices_from j0 l elt -> j0 <= j /\ l !! (j - j0) = Some elt.
Proof.
  revert j0. induction l as [|c l IH]; intros j0 Hin; simpl in Hin.
  - by apply elem_of_nil in Hin.
  - destruct (Ascii.eqb c elt) eqn:E.
    + apply elem_of_cons in Hin as [->|Hin].
      * apply Ascii.eqb_eq in E. subst. split; [lia|]. by rewrite Nat.sub_diag.
      * apply IH in Hin as [? Hl]. split; [lia|].
        replace (j - j0) with (S (j - S j0)) by lia. done.
    + apply IH in Hin as [? Hl]. split; [lia|].
      replace (j - j0) with (S (j - S j0)) by lia. done.
Qed.

Lemma b2j_spec (elt : ascii) (j : nat) : j ∈ b2j b elt -> b !! j = Some elt.
Proof.
  intros Hin. apply indices_from_spec in Hin as [_ H]. by rewrite Nat.sub_0_r in H.
Qed.

Section Region.

Variables alo ahi blo bhi : nat.

(** The entries of a dictionary are the lengths of the matches that end
    at row [i] of [a], inside the region. *)
Definition row_ok (i : nat) (m : gmap nat nat) : Prop :=
  forall j k, m !! j = Some k ->
    1 <= k /\ alo + k <= i + 1 /\ blo + k <= j + 1 /\ j < bhi /\
    agree (i + 1 - k) (j + 1 - k) k.

(** [j2len] when row [i] starts: the matches that end at row [i - 1]. *)
Definition prev_ok (i : nat) (m : gmap nat nat) : Prop :=
  forall j k, m !! j = Some k -> 1 <= i /\
    1 <= k /\ alo + k <= i /\ blo + k <= j + 1 /\ j < bhi /\
    agree (i - k) (j + 1 - k) k.

Lemma inner_loop_ok (i : nat) (elt : ascii) (j2len : gmap nat nat) (js : list nat)
    (newj2len : gmap nat nat) (best : scan) :
  a !! i = Some elt ->
  (forall j, j ∈ js -> b !! j = Some elt) ->
  alo <= i -> i < ahi ->
  prev_ok i j2len -> row_ok i newj2len -> span_ok alo ahi blo bhi best ->
  row_ok i (inner_loop i blo bhi j2len js newj2len best).1 /\
  span_ok alo ahi blo bhi (inner_loop i blo bhi j2len js newj2len best).2.
Proof.
  intros Ha Hjs Hlo Hhi Hprev. revert newj2len best.
  induction js as [|j js IH]; intros newj2len best Hnew Hbest; simpl; [done|].
  assert (Hjs' : forall j', j' ∈ js -> b !! j' = Some elt)
    by (intros; apply Hjs; by right).
  destruct (j <? blo) eqn:E1; [by apply IH|].
  destruct (bhi <=? j) eqn:E2; [done|].
  apply Nat.ltb_ge in E1. apply Nat.leb_gt in E2.
  assert (Hb : b !! j = Some elt) by (apply Hjs; by left).
  set (k := j2lenget_pred j2len j + 1).
  assert (Hk : 1 <= k /\ alo + k <= i + 1 /\ blo + k <= j + 1 /\
               agree (i + 1 - k) (j + 1 - k) k).
  { subst k. unfold j2lenget_pred. destruct j as [|j'].
    - repeat split; try lia. intros t Ht. exists elt. split; by_index.
    - destruct (j2len !! j') as [k0|] eqn:E; simpl.
      + destruct (Hprev _ _ E) as (Hi & Hk0 & Ha0 & Hb0 & _ & Hag).
        repeat split; try lia. intros t Ht.
        destruct (decide (t < k0)) as [Hlt|Hge].
        * destruct (Hag t Hlt) as (c & Hc1 & Hc2). exists c. split; by_index.
        * exists elt. split; by_index.
      + repeat split; try lia. intros t Ht. exists elt. split; by_index. }
  destruct Hk as (Hk1 & Hk2 & Hk3 & Hk4).
  apply IH; [done| |].
  - intros j1 k1. rewrite lookup_insert. case_decide as Hj.
    + intros [= <-]. subst j1. done.
    + apply Hnew.
  - destruct (bestsize best <? k) eqn:E3; [|done].
    repeat split; simpl; try lia. done.
Qed.

Lemma outer_loop_ok (n i0 : nat) (j2len : gmap nat nat) (best : scan) :
  alo <= i0 -> i0 + n <= ahi ->
  prev_ok i0 j2len -> span_ok alo ahi blo bhi best ->
  span_ok alo ahi blo bhi (outer_loop a b blo bhi (seq i0 n) j2len best).
Proof.
  revert i0 j2len best. induction n as [|n IH]; intros i0 j2len best Hlo Hhi Hprev Hbest;
    simpl; [done|].
  destruct (a !! i0) as [elt|] eqn:Ha.
  - pose proof (inner_loop_ok i0 elt j2len (b2j b elt) ∅ best Ha (b2j_spec elt)
                  Hlo ltac:(lia) Hprev) as H.
    destruct (inner_loop i0 blo bhi j2len (b2j b elt) ∅ best) as [new best'].
    destruct H as [Hnew Hbest']; [by intros j k; rewrite lookup_empty|done|].
    simpl in *. apply IH; [lia|lia| |done].
    intros j k Hjk. destruct (Hnew _ _ Hjk) as (? & ? & ? & ? & Hag).
    repeat split; try lia. intros t Ht. destruct (Hag t Ht) as (c & ? & ?).
    exists c. split; by_index.
  - simpl. apply IH; [lia|lia| |done]. by intros j k; rewrite lookup_empty.
Qed.

Lemma same_elt_true (x y : option ascii) :
  same_elt x y = true -> exists c, x = Some c /\ y = Some c.
Proof.
  destruct x as [c|], y as [d|]; simpl; try done.
  intros ->%Ascii.eqb_eq. by exists d.
Qed.

Lemma extend_left_ok (bi bj bs : nat) :
  span_ok alo ahi blo bhi (Scan bi bj bs) ->
  span_ok alo ahi blo bhi (extend_left a b alo blo bi bj bs).
Proof.
  revert bj bs. induction bi as [|i' IH]; intros bj bs Hok; simpl; [done|].
  destruct bj as [|j']; [done|].
  destruct ((alo <? S i') && (blo <? S j') && same_elt (a !! i') (b !! j')) eqn:E; [|done].
  apply andb_prop in E as [E Hs]. apply andb_prop in E as [E1 E2].
  apply Nat.ltb_lt in E1, E2. apply same_elt_true in Hs as (c & Hc1 & Hc2).
  destruct Hok as (H1 & H2 & H3 & H4 & Hag). simpl in *.
  apply IH. repeat split; simpl; try lia.
  intros t Ht. destruct t as [|t].
  - exists c. split; by_index.
  - destruct (Hag t ltac:(lia)) as (d & Hd1 & Hd2). exists d. split; by_index.
Qed.

Lemma extend_right_ok (n bi bj bs : nat) :
  span_ok alo ahi blo bhi (Scan bi bj bs) ->
  span_ok alo ahi blo bhi (extend_right a b ahi bhi bi bj bs n).
Proof.
  revert bs. induction n as [|n IH]; intros bs Hok; simpl; [done|].
  destruct ((bi + bs <? ahi) && (bj + bs <? bhi)
            && same_elt (a !! (bi + bs)) (b !! (bj + bs))) eqn:E; [|done].
  apply andb_prop in E as [E Hs]. apply andb_prop in E as [E1 E2].
  apply Nat.ltb_lt in E1, E2. apply same_elt_true in Hs as (c & Hc1 & Hc2).
  destruct Hok as (H1 & H2 & H3 & H4 & Hag). simpl in *.
  apply IH. repeat split; simpl; try lia.
  intros t Ht. destruct (decide (t < bs)) as [Hlt|Hge]; [by apply Hag|].
  exists c. split; by_index.
Qed.

(** The second [while] stops on its own test: when the counter is used
    up, no element of [a] is left below [ahi]. *)
Lemma extend_right_counter (n bi bj bs : nat) :
  ahi <= bi + bs + n ->
  let s := extend_right a b ahi bhi bi bj bs n in
  (besti s + bestsize s <? ahi) && (bestj s + bestsize s <? bhi)
  && same_elt (a !! (besti s + bestsize s)) (b !! (bestj s + bestsize s)) = false.
Proof.
  revert bs. induction n as [|n IH]; intros bs Hn; simpl.
  - replace (bi + bs <? ahi) with false; [done|]. symmetry. apply Nat.ltb_ge. lia.
  - destruct ((bi + bs <? ahi) && (bj + bs <? bhi)
              && same_elt (a !! (bi + bs)) (b !! (bj + bs))) eqn:E; [|done].
    apply IH. lia.
Qed.

Lemma find_longest_match_ok :
  alo <= ahi -> blo <= bhi ->
  forall i j k, find_longest_match a b alo ahi blo bhi = (i, j, k) ->
  alo <= i /\ i + k <= ahi /\ blo <= j /\ j + k <= bhi /\ agree i j k.
Proof.
  intros Ha Hb i j k. unfold find_longest_match.
  set (s0 := outer_loop _ _ _ _ _ _ _).
  assert (H0 : span_ok alo ahi blo bhi s0).
  { apply outer_loop_ok; [lia|lia| |].
    - by intros j' k'; rewrite lookup_empty.
    - repeat split; simpl; try lia. intros t Ht. lia. }
  destruct s0 as [i0 j0 k0]. simpl.
  apply extend_left_ok in H0.
  destruct (extend_left a b alo blo i0 j0 k0) as [i1 j1 k1]. simpl.
  apply (extend_right_ok (ahi - (i1 + k1))) in H0.
  destruct (extend_right _ _ _ _ _ _ _ _) as [i2 j2 k2]. simpl.
  intros [= <- <- <-]. exact H0.
Qed.

End Region.

(** *** The loop of [get_matching_blocks] *)

Lemma blocks_loop_step (fuel : nat) (alo ahi blo bhi : nat) (rest : list region)
    (acc : list Match) :
  blocks_loop (S fuel) a b ((alo, ahi, blo, bhi) :: rest) acc =
  let '(i, j, k) := find_longest_match a b alo ahi blo bhi in
  match k with
  | O => blocks_loop fuel a b rest acc
  | S _ =>
      let q1 := if (alo <? i) && (blo <? j) then (alo, i, blo, j) :: rest else rest in
      let q2 := if (i + k <? ahi) && (j + k <? bhi) then (i + k, ahi, j + k, bhi) :: q1 else q1 in
      blocks_loop fuel a b q2 (acc ++ [(i, j, k)])
  end.
Proof. reflexivity. Qed.

Definition wa (r : region) : nat := let '(alo, ahi, _, _) := r in ahi - alo.
Definition wb (r : region) : nat := let '(_, _, blo, bhi) := r in bhi - blo.
Definition wmin (r : region) : nat := Nat.min (wa r) (wb r).
Definition weight (r : region) : nat := 2 * wa r + 1.

Definition region_ok (r : region) : Prop :=
  let '(alo, ahi, blo, bhi) := r in alo <= ahi /\ blo <= bhi.

(** The two sides of the region are the same elements. *)
Definition same_on (r : region) : Prop :=
  let '(alo, ahi, blo, bhi) := r in
  ahi - alo = bhi - blo /\ forall t, t < ahi - alo -> a !! (alo + t) = b !! (blo + t).

Definition total (f : region -> nat) (q : list region) : nat := sum_list_with f q.

Definition sizes (l : list Match) : nat := sum_list_with size_of l.

Lemma sizes_snoc (l : list Match) (x : Match) : sizes (l ++ [x]) = sizes l + size_of x.
Proof. unfold sizes. rewrite sum_list_with_app. simpl. lia. Qed.

Lemma total_cons (f : region -> nat) (r : region) (q : list region) :
  total f (r :: q) = f r + total f q.
Proof. done. Qed.

Lemma total_wmin_wa (q : list region) : total wmin q <= total wa q.
Proof.
  induction q as [|r q IH]; [done|]. rewrite !total_cons.
  assert (wmin r <= wa r) by (unfold wmin; lia). lia.
Qed.

Lemma total_wmin_wb (q : list region) : total wmin q <= total wb q.
Proof.
  induction q as [|r q IH]; [done|]. rewrite !total_cons.
  assert (wmin r <= wb r) by (unfold wmin; lia). lia.
Qed.

Lemma wa_eq (alo ahi blo bhi : nat) : wa (alo, ahi, blo, bhi) = ahi - alo.
Proof. done. Qed.

Lemma wb_eq (alo ahi blo bhi : nat) : wb (alo, ahi, blo, bhi) = bhi - blo.
Proof. done. Qed.

Lemma wmin_eq (alo ahi blo bhi : nat) :
  wmin (alo, ahi, blo, bhi) = Nat.min (ahi - alo) (bhi - blo).
Proof. done. Qed.

Lemma weight_eq (alo ahi blo bhi : nat) :
  weight (alo, ahi, blo, bhi) = 2 * (ahi - alo) + 1.
Proof. done. Qed.

(** The blocks added by the loop lie inside the queued regions, and
    they fill them only when the two sides are the same. *)
Lemma blocks_loop_sum (fuel : nat) (queue : list region) (acc res : list Match) :
  Forall region_ok queue ->
  blocks_loop fuel a b queue acc = Some res ->
  exists gain, sizes res = sizes acc + gain /\ gain <= total wmin queue /\
    (gain = total wa queue -> gain = total wb queue -> Forall same_on queue).
Proof.
  revert queue acc. induction fuel as [|fuel IH]; intros queue acc Hq Hres.
  - destruct queue as [|[[[alo ahi] blo] bhi] rest]; [|done].
    injection Hres as <-. exists 0. split; [lia|]. split; [done|]. done.
  - destruct queue as [|[[[alo ahi] blo] bhi] rest].
    { injection Hres as <-. exists 0. split; [lia|]. split; [done|]. done. }
    apply Forall_cons in Hq as [[Ha Hb] Hrest]. rewrite blocks_loop_step in Hres.
    destruct (find_longest_match a b alo ahi blo bhi) as [[i j] k] eqn:Eflm.
    destruct (find_longest_match_ok alo ahi blo bhi Ha Hb i j k Eflm)
      as (Hi1 & Hi2 & Hj1 & Hj2 & Hag).
    pose proof (total_wmin_wa rest) as Hma. pose proof (total_wmin_wb rest) as Hmb.
    destruct k as [|k'].
    { destruct (IH _ _ Hrest Hres) as (gain & Hs & Hle & Heq).
      exists gain. split; [done|]. rewrite !total_cons, ?wmin_eq, ?wa_eq, ?wb_eq.
      split; [lia|]. intros E1 E2.
      apply Forall_cons. split.
      - split; [lia|]. intros t Ht. lia.
      - apply Heq; lia. }
    set (k := S k') in *.
    set (q1 := if (alo <? i) && (blo <? j) then (alo, i, blo, j) :: rest else rest) in *.
    set (q2 := if (i + k <? ahi) && (j + k <? bhi) then (i + k, ahi, j + k, bhi) :: q1 else q1) in *.
    assert (Hq2 : Forall region_ok q2).
    { subst q2 q1. repeat case_match; repeat (apply Forall_cons; split); try done;
        simpl; lia. }
    destruct (IH _ _ Hq2 Hres) as (gain & Hs & Hle & Heq).
    rewrite sizes_snoc in Hs. unfold size_of in Hs. simpl in Hs.
    exists (k + gain). split; [lia|]. rewrite !total_cons, ?wmin_eq, ?wa_eq, ?wb_eq.
    assert (Hleft : forall t, t < k -> a !! (i + t) = b !! (j + t)).
    { intros t Ht. destruct (Hag t Ht) as (c & -> & ->). done. }
    subst q2 q1.
    destruct ((alo <? i) && (blo <? j)) eqn:EL;
      destruct ((i + k <? ahi) && (j + k <? bhi)) eqn:ER;
      repeat first [rewrite total_cons in Hle | rewrite total_cons in Heq
        | rewrite wmin_eq in Hle | rewrite wa_eq in Heq | rewrite wb_eq in Heq];
      try (rewrite andb_true_iff, !Nat.ltb_lt in EL);
      try (rewrite andb_true_iff, !Nat.ltb_lt in ER);
      try (rewrite andb_false_iff, !Nat.ltb_ge in EL);
      try (rewrite andb_false_iff, !Nat.ltb_ge in ER);
      (split; [lia|]); intros E1 E2.
    + specialize (Heq ltac:(lia) ltac:(lia)). apply Forall_cons in Heq as [HR Hrest'].
      apply Forall_cons in Hrest' as [HL Hrest'].
      apply Forall_cons. split; [|done].
      destruct HR as [HRw HR], HL as [HLw HL]. split; [lia|]. intros t Ht.
      destruct (decide (t < i - alo)) as [H1|H1]; [by apply HL|].
      destruct (decide (t < i - alo + k)) as [H2|H2].
      * replace (alo + t) with (i + (t - (i - alo))) by lia.
        replace (blo + t) with (j + (t - (i - alo))) by lia. apply Hleft. lia.
      * replace (alo + t) with (i + k + (t - (i - alo) - k)) by lia.
        replace (blo + t) with (j + k + (t - (i - alo) - k)) by lia. apply HR. lia.
    + specialize (Heq ltac:(lia) ltac:(lia)). apply Forall_cons in Heq as [HL Hrest'].
      apply Forall_cons. split; [|done].
      destruct HL as [HLw HL]. split; [lia|]. intros t Ht.
      destruct (decide (t < i - alo)) as [H1|H1]; [by apply HL|].
      replace (alo + t) with (i + (t - (i - alo))) by lia.
      replace (blo + t) with (j + (t - (i - alo))) by lia. apply Hleft. lia.
    + specialize (Heq ltac:(lia) ltac:(lia)). apply Forall_cons in Heq as [HR Hrest'].
      apply Forall_cons. split; [|done].
      destruct HR as [HRw HR]. split; [lia|]. intros t Ht.
      destruct (decide (t < k)) as [H2|H2].
      * replace (alo + t) with (i + t) by lia.
        replace (blo + t) with (j + t) by lia. by apply Hleft.
      * replace (alo + t) with (i + k + (t - k)) by lia.
        replace (blo + t) with (j + k + (t - k)) by lia. apply HR. lia.
    + specialize (Heq ltac:(lia) ltac:(lia)).
      apply Forall_cons. split; [|done].
      split; [lia|]. intros t Ht.
      replace (alo + t) with (i + t) by lia.
      replace (blo + t) with (j + t) by lia. apply Hleft. lia.
Qed.

(** The loop empties its queue before the fuel is used up. *)
Lemma blocks_loop_total (fuel : nat) (queue : list region) (acc : list Match) :
  Forall region_ok queue -> total weight queue <= fuel ->
  is_Some (blocks_loop fuel a b queue acc).
Proof.
  revert queue acc. induction fuel as [|fuel IH]; intros queue acc Hq Hfuel.
  - destruct queue as [|[[[alo ahi] blo] bhi] rest]; [done|].
    rewrite total_cons, weight_eq in Hfuel. lia.
  - destruct queue as [|[[[alo ahi] blo] bhi] rest]; [done|].
    apply Forall_cons in Hq as [[Ha Hb] Hrest]. rewrite blocks_loop_step.
    rewrite total_cons, weight_eq in Hfuel.
    destruct (find_longest_match a b alo ahi blo bhi) as [[i j] k] eqn:Eflm.
    destruct (find_longest_match_ok alo ahi blo bhi Ha Hb i j k Eflm)
      as (Hi1 & Hi2 & Hj1 & Hj2 & Hag).
    destruct k as [|k']; [apply IH; [done|lia]|].
    apply IH.
    + repeat case_match; repeat (apply Forall_cons; split); try done; simpl; lia.
    + destruct ((alo <? i) && (blo <? j)) eqn:EL;
        destruct ((i + S k' <? ahi) && (j + S k' <? bhi)) eqn:ER;
        rewrite ?total_cons, ?weight_eq;
        try (rewrite andb_true_iff, !Nat.ltb_lt in EL);
        try (rewrite andb_true_iff, !Nat.ltb_lt in ER); lia.
Qed.

Lemma get_matching_blocks_total : is_Some (get_matching_blocks a b).
Proof.
  apply blocks_loop_total.
  - apply Forall_cons. split; [|done]. simpl. lia.
  - rewrite total_cons, weight_eq. unfold total. simpl. lia.
Qed.

Lemma matches_le : matches a b <= Nat.min (length a) (length b).
Proof.
  unfold matches. destruct get_matching_blocks_total as [res Hres]. rewrite Hres. simpl.
  apply blocks_loop_sum in Hres as (gain & Hs & Hle & _).
  - unfold sizes in Hs. simpl in Hs. rewrite Hs.
    rewrite total_cons, wmin_eq in Hle. unfold total in Hle. simpl in Hle. lia.
  - apply Forall_cons. split; [|done]. simpl. lia.
Qed.

Lemma matches_full : matches a b = length a -> length a = length b -> a = b.
Proof.
  unfold matches. destruct get_matching_blocks_total as [res Hres]. rewrite Hres. simpl.
  intros HM Hlen.
  apply blocks_loop_sum in Hres as (gain & Hs & _ & Heq).
  - unfold sizes in Hs. simpl in Hs.
    rewrite !total_cons, wa_eq, wb_eq in Heq. unfold total in Heq. simpl in Heq.
    specialize (Heq ltac:(lia) ltac:(lia)). apply Forall_cons in Heq as [[_ Hsame] _].
    apply list_eq. intros t. destruct (decide (t < length a)) as [Ht|Ht].
    + apply (Hsame t). lia.
    + rewrite !lookup_ge_None_2; [done|lia|lia].
  - apply Forall_cons. split; [|done]. simpl. lia.
Qed.

End Matching.

(** *** Scores *)

Lemma score_le_1 (word x : string) : (score word x <= 1)%Q.
Proof.
  unfold score, ratio, _calculate_ratio.
  pose proof (matches_le (list_ascii_of_string x) (list_ascii_of_string word)) as HM.
  destruct (length (list_ascii_of_string x) + length (list_ascii_of_string word))
    as [|T] eqn:ET; [apply Qle_refl|].
  unfold Qle. simpl Qnum. simpl Qden. rewrite Z.mul_1_r, Z.mul_1_l.
  rewrite <- Pos.of_nat_succ, Zpos_P_of_succ_nat. lia.
Qed.

Lemma score_eq_1 (word x : string) : (score word x == 1)%Q -> x = word.
Proof.
  unfold score, ratio, _calculate_ratio.
  pose proof (matches_le (list_ascii_of_string x) (list_ascii_of_string word)) as HM.
  pose proof (matches_full (list_ascii_of_string x) (list_ascii_of_string word)) as HF.
  destruct (length (list_ascii_of_string x) + length (list_ascii_of_string word))
    as [|T] eqn:ET.
  - intros _. destruct x, word; simpl in ET; done.
  - unfold Qeq. simpl Qnum. simpl Qden. rewrite Z.mul_1_r, Z.mul_1_l.
    rewrite <- Pos.of_nat_succ, Zpos_P_of_succ_nat. intros E.
    rewrite <- (string_of_list_ascii_of_string x), <- (string_of_list_ascii_of_string word).
    f_equal. apply HF; lia.
Qed.

(** *** The best candidate *)

Lemma ltb_irrefl (s : string) : String.ltb s s = false.
Proof.
  unfold String.ltb. pose proof (String.compare_antisym s s) as H.
  by destruct (String.compare s s).
Qed.

(** An item that no item exceeds and that exceeds every item under
    another name is the one [max] returns. *)
Lemma max_from_top (e0 best : Q * string) (l : list (Q * string)) :
  e0 ∈ best :: l ->
  (forall e, e ∈ best :: l -> e.2 = e0.2 -> e = e0) ->
  (forall e, e ∈ best :: l -> tuple_lt e0 e = false) ->
  (forall e, e ∈ best :: l -> e.2 <> e0.2 -> tuple_lt e e0 = true) ->
  max_from best l = e0.
Proof.
  revert best. induction l as [|item l IH]; intros best Hin Hsame Hno Hall; simpl.
  - apply list_elem_of_singleton in Hin. done.
  - assert (Hsub : forall e, e ∈ (if tuple_lt best item then item else best) :: l ->
                             e ∈ best :: item :: l).
    { intros e He. apply elem_of_cons in He as [->|He].
      - destruct (tuple_lt best item); [right; left|left].
      - by do 2 right. }
    apply IH; try (intros; eauto).
    apply elem_of_cons in Hin as [->|Hin].
    + rewrite Hno; [left|right; left].
    + apply elem_of_cons in Hin as [->|Hin]; [|by right].
      destruct (decide (best.2 = item.2)) as [E|E].
      * rewrite (Hsame best) by (done || left). rewrite Hno by (right; left). left.
      * rewrite Hall by (done || left). left.
Qed.

Lemma elem_of_scored (word : string) (possibilities : list string) (e : Q * string) :
  e ∈ scored word possibilities <->
  e = (score word e.2, e.2) /\ e.2 ∈ possibilities /\ close_enough word e.2 = true.
Proof.
  unfold scored. rewrite list_elem_of_fmap. split.
  - intros (x & -> & Hx). apply list_elem_of_filter in Hx as [? ?]. done.
  - intros (He & Hin & Hc). exists e.2. split; [done|]. by apply list_elem_of_filter.
Qed.

(** What [get_close_matches] returns is a candidate that passes the test. *)
Lemma get_close_matches_elem (word : string) (possibilities : list string) (x : string) :
  x ∈ get_close_matches word possibilities ->
  x ∈ possibilities /\ close_enough word x = true.
Proof.
  unfold get_close_matches, nlargest1.
  destruct (scored word possibilities) as [|item l] eqn:E; simpl.
  - by intros ?%elem_of_nil.
  - intros ->%list_elem_of_singleton.
    assert (H : forall best l', (forall e, e ∈ best :: l' -> e ∈ scored word possibilities) ->
                                max_from best l' ∈ scored word possibilities).
    { intros best l'. revert best. induction l' as [|y l' IH]; intros best Hsub; simpl.
      - apply Hsub. left.
      - apply IH. intros e [->|He]%elem_of_cons.
        + destruct (tuple_lt best y); apply Hsub; [right; left|left].
        + apply Hsub. by do 2 right. }
    specialize (H item l). rewrite E in H. specialize (H ltac:(done)).
    rewrite <- E in H. apply elem_of_scored in H. tauto.
Qed.

(** It returns nothing exactly when no candidate passes the test. *)
Lemma get_close_matches_nil (word : string) (possibilities : list string) :
  get_close_matches word possibilities = [] <->
  forall x, x ∈ possibilities -> close_enough word x = false.
Proof.
  unfold get_close_matches, nlargest1. split.
  - intros H x Hx. destruct (close_enough word x) eqn:Hc; [|done].
    assert (Hin : (score word x, x) ∈ scored word possibilities)
      by (by apply elem_of_scored).
    destruct (scored word possibilities); [by apply elem_of_nil in Hin|done].
  - intros H. destruct (scored word possibilities) as [|item l] eqn:E; [done|].
    assert (Hin : item ∈ scored word possibilities) by (rewrite E; left).
    apply elem_of_scored in Hin as (_ & Hin & Hc). rewrite (H _ Hin) in Hc. done.
Qed.

(** A candidate equal to the word, when it passes the test itself, is
    the one returned. *)
Lemma get_close_matches_self (word : string) (possibilities : list string) :
  close_enough word word = true -> (score word word == 1)%Q ->
  word ∈ possibilities ->
  get_close_matches word possibilities = [word].
Proof.
  intros Hc Hs Hin. unfold get_close_matches, nlargest1.
  set (e0 := (score word word, word)).
  assert (H0 : e0 ∈ scored word possibilities) by (by apply elem_of_scored).
  destruct (scored word possibilities) as [|item l] eqn:E; [by apply elem_of_nil in H0|].
  rewrite (max_from_top e0); [done|done| | |].
  - intros e He Heq. rewrite <- E in He. apply elem_of_scored in He as (-> & _).
    simpl in *. by rewrite Heq.
  - intros e He. rewrite <- E in He. apply elem_of_scored in He as (-> & _).
    unfold tuple_lt. simpl. rewrite Hs.
    pose proof (score_le_1 word e.2) as Hle. apply Qle_alt in Hle.
    rewrite <- Qcompare_antisym.
    destruct (score word e.2 ?= 1)%Q eqn:Ecmp; simpl; try done.
    apply Qeq_alt, score_eq_1 in Ecmp. rewrite Ecmp. apply ltb_irrefl.
  - intros e He Hne. rewrite <- E in He. apply elem_of_scored in He as (-> & _).
    unfold tuple_lt. simpl in *. rewrite Hs.
    pose proof (score_le_1 word e.2) as Hle. apply Qle_alt in Hle.
    destruct (score word e.2 ?= 1)%Q eqn:Ecmp; simpl; try done.
    apply Qeq_alt, score_eq_1 in Ecmp. done.
Qed.


(** ** Column reconciler *)

Section Reconciler.

(** Every canonical name passes the test of [get_close_matches] against
    itself, with score 1. *)
Lemma expected_self (c : string) :
  c ∈ expected_cols -> close_enough c c = true /\ (score c c == 1)%Q.
Proof.
  intros H. repeat (apply elem_of_cons in H as [->|H]; [by vm_compute|]).
  by apply elem_of_nil in H.
Qed.

(** The entry of [col_map] for one canonical name, if any. *)
Definition entry (labels : list string) (col : string) : option (string * string) :=
  match get_close_matches col labels with
  | [] => None
  | match0 :: _ => Some (col, match0)
  end.

Lemma dict_set_fresh (k v : string) (d : dict) :
  k ∉ dict_keys d -> dict_set k v d = d ++ [(k, v)].
Proof.
  intros Hk. unfold dict_set.
  destruct (existsb (fun p => String.eqb p.1 k) d) eqn:E; [|done].
  exfalso. apply Hk. apply existsb_exists in E as (p & Hp & Heq).
  apply String.eqb_eq in Heq. subst k. unfold dict_keys.
  apply list_elem_of_fmap. exists p. split; [done|]. by apply list_elem_of_In.
Qed.

Lemma match_columns_spec (labels cols : list string) (acc : dict) :
  NoDup cols -> (forall c, c ∈ cols -> c ∉ dict_keys acc) ->
  match_columns labels cols acc = acc ++ omap (entry labels) cols.
Proof.
  revert acc. induction cols as [|c cols IH]; intros acc Hnd Hfresh.
  - simpl. by rewrite app_nil_r.
  - apply NoDup_cons in Hnd as [Hc Hnd]. cbn [match_columns].
    change (omap (entry labels) (c :: cols))
      with (match entry labels c with
            | Some y => y :: omap (entry labels) cols
            | None => omap (entry labels) cols
            end).
    unfold entry at 1.
    destruct (get_close_matches c labels) as [|m ?] eqn:E.
    + apply IH; [done|]. intros c' Hc'. apply Hfresh. by right.
    + rewrite dict_set_fresh by (apply Hfresh; left).
      rewrite IH; [by rewrite <- app_assoc|done|].
      intros c' Hc'. unfold dict_keys. rewrite fmap_app, elem_of_app. simpl.
      intros [H|H%list_elem_of_singleton].
      * by apply (Hfresh c'); [right|].
      * by subst c'.
Qed.

Lemma expected_cols_NoDup : NoDup expected_cols.
Proof. by_decide. Qed.

Lemma col_map_spec (labels : list string) :
  col_map labels = omap (entry labels) expected_cols.
Proof.
  unfold col_map. rewrite match_columns_spec; [done|apply expected_cols_NoDup|].
  intros c _ H. by apply elem_of_nil in H.
Qed.

(** An entry pairs a canonical name with a label of the frame that
    passes the test for that name. *)
Lemma col_map_elem (labels : list string) (c m : string) :
  (c, m) ∈ col_map labels <->
  c ∈ expected_cols /\ exists rest, get_close_matches c labels = m :: rest.
Proof.
  rewrite col_map_spec, list_elem_of_omap. unfold entry. split.
  - intros (c' & Hc' & He). destruct (get_close_matches c' labels) as [|m' rest] eqn:E;
      [done|]. injection He as <- <-. eauto.
  - intros (Hc & rest & E). exists c. split; [done|]. by rewrite E.
Qed.

Lemma col_map_elem_close (labels : list string) (c m : string) :
  (c, m) ∈ col_map labels -> c ∈ expected_cols /\ m ∈ labels /\ close_enough c m = true.
Proof.
  intros (Hc & rest & E)%col_map_elem. split; [done|].
  apply get_close_matches_elem. rewrite E. left.
Qed.

Lemma dict_get_Some (d : dict) (k v : string) : dict_get d k = Some v -> (k, v) ∈ d.
Proof.
  unfold dict_get. destruct (find _ d) as [[k' v']|] eqn:E; [|done].
  intros [= <-]. apply find_some in E as [Hin Heq]. simpl in Heq.
  apply String.eqb_eq in Heq. subst k'. by apply list_elem_of_In.
Qed.

Lemma dict_get_None (d : dict) (k : string) : dict_get d k = None -> k ∉ dict_keys d.
Proof.
  unfold dict_get. destruct (find _ d) as [p|] eqn:E; [done|].
  intros _ (p & -> & Hp)%list_elem_of_fmap.
  apply list_elem_of_In in Hp. pose proof (find_none _ _ E p Hp) as H. simpl in H.
  by rewrite String.eqb_refl in H.
Qed.

(** A canonical name that is a label of the frame is matched to itself. *)
Lemma col_map_self (labels : list string) (c m : string) :
  c ∈ labels -> (c, m) ∈ col_map labels -> m = c.
Proof.
  intros Hin (Hc & rest & E)%col_map_elem.
  destruct (expected_self c Hc) as [Hclose Hscore].
  rewrite (get_close_matches_self c labels Hclose Hscore Hin) in E. by injection E.
Qed.

(** The renaming of line 38 maps canonical names to labels of the frame,
    and so changes no label. *)
Lemma rename_col_map (labels : list string) : rename (col_map labels) labels = labels.
Proof.
  unfold rename. rewrite <- (list_fmap_id labels) at 2.
  apply list_fmap_ext. intros i l Hl.
  destruct (dict_get (col_map labels) l) as [m|] eqn:E; [|done]. simpl.
  apply dict_get_Some in E. apply col_map_self in E; [done|].
  by apply list_elem_of_lookup_2 in Hl.
Qed.

Lemma get_loc_Some (label : string) (labels : list string) (i : nat) :
  get_loc label labels = Some i -> labels !! i = Some label.
Proof.
  revert i. induction labels as [|l labels IH]; intros i; simpl; [done|].
  destruct (String.eqb l label) eqn:E.
  - apply String.eqb_eq in E. by intros [= <-]; subst.
  - destruct (get_loc label labels) as [i'|]; [|done]. intros [= <-]. by apply IH.
Qed.

Lemma get_loc_None (label : string) (labels : list string) :
  get_loc label labels = None <-> label ∉ labels.
Proof.
  induction labels as [|l labels IH]; simpl.
  - split; [|done]. intros _ H. by apply elem_of_nil in H.
  - destruct (String.eqb l label) eqn:E.
    + apply String.eqb_eq in E. subst. split; [done|]. intros H. exfalso. apply H. left.
    + apply String.eqb_neq in E. rewrite not_elem_of_cons, <- IH.
      destruct (get_loc label labels); split; try done. by intros [_ ?].
Qed.

Lemma select_Ok (labels : list string) (rows : list (list value)) (table : list record) :
  select labels rows = Ok table <->
  exists w c e q u, located labels w c e q u /\ table = record_at w c e q u <$> rows.
Proof.
  unfold select, located. split.
  - intros H. repeat case_match; try done. injection H as <-. naive_solver.
  - intros (w & c & e & q & u & (-> & -> & -> & -> & ->) & ->). done.
Qed.

Lemma select_Raise (labels : list string) (rows : list (list value)) (e : exception) :
  select labels rows = Raise e <-> e = KeyError /\ exists c, c ∈ expected_cols /\ c ∉ labels.
Proof.
  unfold select. split.
  - intros H.
    destruct (get_loc "Warehouse" labels) eqn:E1;
      [|injection H as <-; split; [done|]; exists "Warehouse";
        split; [by_decide|by apply get_loc_None]].
    destruct (get_loc "Code" labels) eqn:E2;
      [|injection H as <-; split; [done|]; exists "Code";
        split; [by_decide|by apply get_loc_None]].
    destruct (get_loc "Eng Name" labels) eqn:E3;
      [|injection H as <-; split; [done|]; exists "Eng Name";
        split; [by_decide|by apply get_loc_None]].
    destruct (get_loc "Quantity" labels) eqn:E4;
      [|injection H as <-; split; [done|]; exists "Quantity";
        split; [by_decide|by apply get_loc_None]].
    destruct (get_loc "Cost" labels) eqn:E5;
      [done|injection H as <-; split; [done|]; exists "Cost";
        split; [by_decide|by apply get_loc_None]].
  - intros (-> & c & Hc & Hn). apply get_loc_None in Hn.
    repeat (apply elem_of_cons in Hc as [->|Hc]; [rewrite Hn; by repeat case_match|]).
    by apply elem_of_nil in Hc.
Qed.

(** The three ways the reconciler ends. *)
Lemma reconcile_Stop (df : DataFrame) (found : list string) :
  reconcile df = Stop found <->
  length (col_map (labels_of df)) <> length expected_cols /\
  found = dict_values (col_map (labels_of df)).
Proof.
  unfold reconcile. fold (labels_of df). rewrite rename_col_map.
  destruct (length (col_map (labels_of df)) =? length expected_cols) eqn:E; simpl.
  - apply Nat.eqb_eq in E. destruct (select _ _); split; try done; by intros [? _].
  - apply Nat.eqb_neq in E. split; [by intros [= <-]|by intros [_ ->]].
Qed.

Lemma reconcile_Proceed (df : DataFrame) (table : list record) :
  reconcile df = Proceed table <->
  length (col_map (labels_of df)) = length expected_cols /\
  select (labels_of df) (values df) = Ok table.
Proof.
  unfold reconcile. fold (labels_of df). rewrite rename_col_map.
  destruct (length (col_map (labels_of df)) =? length expected_cols) eqn:E; simpl.
  - apply Nat.eqb_eq in E. destruct (select _ _); split; try done.
    + by intros [= <-].
    + by intros [_ [= <-]].
    + by intros [_ ?].
  - apply Nat.eqb_neq in E. split; [done|]. by intros [? _].
Qed.

Lemma reconcile_Fail (df : DataFrame) (e : exception) :
  reconcile df = Fail e <->
  length (col_map (labels_of df)) = length expected_cols /\
  select (labels_of df) (values df) = Raise e.
Proof.
  unfold reconcile. fold (labels_of df). rewrite rename_col_map.
  destruct (length (col_map (labels_of df)) =? length expected_cols) eqn:E; simpl.
  - apply Nat.eqb_eq in E. destruct (select _ _); split; try done.
    + by intros [_ ?].
    + by intros [= <-].
    + by intros [_ [= <-]].
  - apply Nat.eqb_neq in E. split; [done|]. by intros [? _].
Qed.

(** A canonical name that is a label of the frame gets its entry. *)
Lemma col_map_present (labels : list string) :
  (forall c, c ∈ expected_cols -> c ∈ labels) ->
  col_map labels = (fun c => (c, c)) <$> expected_cols.
Proof.
  intros H. rewrite col_map_spec.
  assert (Hall : Forall (fun c => entry labels c = Some (c, c)) expected_cols).
  { apply Forall_forall. intros c Hc. unfold entry.
    destruct (expected_self c Hc) as [Hclose Hscore].
    by rewrite (get_close_matches_self c labels Hclose Hscore (H c Hc)). }
  revert Hall. generalize expected_cols. intros cols Hall.
  induction Hall as [|c cols Hc _ IH]; [done|].
  change (omap (entry labels) (c :: cols))
    with (match entry labels c with
          | Some y => y :: omap (entry labels) cols
          | None => omap (entry labels) cols
          end).
  rewrite Hc, IH. done.
Qed.

End Reconciler.

(** ** Row corrector *)

Section Corrector.

Variable py_float : string -> option pyfloat.

(** One row through the corrector. *)
Definition corrected (row : record) (out : formatted) : Prop :=
  exists e, row_entries py_float (updated row) = Ok e /\ out = formatted_of (updated row) e.

Lemma update_cost_fmap (table : list record) : update_cost table = updated <$> table.
Proof. unfold update_cost. rewrite <- list_fmap_compose. done. Qed.

Lemma rows_loop_Ok (rows : list record) (notes_col total_col notes_col' total_col' : list string) :
  rows_loop py_float rows notes_col total_col = Ok (notes_col', total_col') <->
  exists es, Forall2 (fun row e => row_entries py_float row = Ok e) rows es /\
             notes_col' = notes_col ++ (snd <$> es) /\ total_col' = total_col ++ (fst <$> es).
Proof.
  revert notes_col total_col. induction rows as [|row rows IH]; intros notes_col total_col; simpl.
  - split.
    + intros [= <- <-]. exists []. by rewrite !app_nil_r.
    + intros (es & ->%Forall2_nil_inv_l & -> & ->). by rewrite !app_nil_r.
  - destruct (row_entries py_float row) as [e|err] eqn:E; simpl.
    + rewrite IH. split.
      * intros (es & HF & -> & ->). exists (e :: es).
        split; [by constructor|]. by rewrite <- !app_assoc.
      * intros (es & HF & -> & ->). apply Forall2_cons_inv_l in HF as (e' & es' & He & HF & ->).
        rewrite E in He. injection He as <-. exists es'.
        split; [done|]. by rewrite <- !app_assoc.
    + split; [done|]. intros (es & HF & _).
      apply Forall2_cons_inv_l in HF as (e' & es' & He & _). by rewrite E in He.
Qed.

Lemma assign_columns_entries (rows : list record) (es : list (string * string)) :
  length rows = length es ->
  assign_columns rows (fst <$> es) (snd <$> es) = zip_with formatted_of rows es.
Proof.
  revert es. induction rows as [|row rows IH]; intros [|e es] Hlen; simpl in *; try done.
  rewrite IH by lia. done.
Qed.

(** The corrector succeeds exactly when every row does, and then gives
    one output row per row, in the same order. *)
Lemma correct_Ok (table : list record) (out : list formatted) :
  correct py_float table = Ok out <-> Forall2 corrected table out.
Proof.
  unfold correct. rewrite update_cost_fmap. split.
  - destruct (rows_loop py_float (updated <$> table) [] []) as [[n t]|] eqn:E; [|done].
    simpl. intros [= <-]. apply rows_loop_Ok in E as (es & HF & -> & ->). simpl.
    rewrite assign_columns_entries by (by apply Forall2_length in HF).
    apply Forall2_fmap_l in HF. clear -HF.
    induction HF as [|row e table es He HF IH]; simpl; [constructor|].
    constructor; [by exists e|done].
  - intros HF.
    assert (exists es, Forall2 (fun row e => row_entries py_float row = Ok e) (updated <$> table) es
                       /\ out = zip_with formatted_of (updated <$> table) es)
      as (es & Hes & ->).
    { induction HF as [|row o table out (e & He & ->) HF (es & Hes & ->)].
      - exists []. split; [constructor|done].
      - exists (e :: es). split; [by constructor|done]. }
    assert (E : rows_loop py_float (updated <$> table) [] [] = Ok (snd <$> es, fst <$> es))
      by (apply rows_loop_Ok; by exists es).
    rewrite E. simpl. rewrite assign_columns_entries by (by apply Forall2_length in Hes).
    done.
Qed.

Lemma correct_length (table : list record) (out : list formatted) :
  correct py_float table = Ok out -> length out = length table.
Proof. intros H%correct_Ok. by apply Forall2_length in H. Qed.

Lemma correct_lookup (table : list record) (out : list formatted) (i : nat) (row : record) :
  correct py_float table = Ok out -> table !! i = Some row ->
  exists o, out !! i = Some o /\ corrected row o.
Proof. intros H%correct_Ok Hi. by apply (Forall2_lookup_l _ _ _ _ _ H Hi). Qed.

End Corrector.

(** ** Report renderer *)

Section Renderer.

Variable py_float : string -> option pyfloat.

Lemma write_Ok (r c : nat) (v : value) (cell_format : bool) (ws : gmap (nat * nat) cell) :
  token v ->
  exists ws', write r c v cell_format ws = Ok ws' /\
    forall r' c', ws' !! (r', c') =
      if decide (r' = r /\ c' = c) then over (stored v cell_format) (ws !! (r', c'))
      else ws !! (r', c').
Proof.
  intros Hv. unfold write, stored.
  destruct v as [[|a s]|[q| |]]; try done.
  - destruct cell_format; eexists; (split; [done|]); intros r' c'; case_decide as Hd.
    + destruct Hd as [-> ->]. by rewrite lookup_insert_eq.
    + rewrite lookup_insert_ne; [done|]. intros [= -> ->]. by apply Hd.
    + done.
    + done.
  - eexists. split; [done|]. intros r' c'. case_decide as Hd.
    + destruct Hd as [-> ->]. by rewrite lookup_insert_eq.
    + rewrite lookup_insert_ne; [done|]. intros [= -> ->]. by apply Hd.
  - eexists. split; [done|]. intros r' c'. case_decide as Hd.
    + destruct Hd as [-> ->]. by rewrite lookup_insert_eq.
    + rewrite lookup_insert_ne; [done|]. intros [= -> ->]. by apply Hd.
Qed.

Lemma write_cells_lookup (r c : nat) (vs : list value) (cell_format : bool)
    (ws : gmap (nat * nat) cell) :
  Forall token vs ->
  exists ws', write_cells r c vs cell_format ws = Ok ws' /\
    forall r' c', ws' !! (r', c') =
      if decide (r' = r /\ c <= c' < c + length vs)
      then over (vs !! (c' - c) ≫= fun v => stored v cell_format) (ws !! (r', c'))
      else ws !! (r', c').
Proof.
  intros HF. revert c ws. induction HF as [|v vs Hv _ IH]; intros c ws; simpl.
  - exists ws. split; [done|]. intros r' c'. case_decide; [lia|done].
  - destruct (write_Ok r c v cell_format ws Hv) as (ws1 & -> & H1). simpl.
    destruct (IH (S c) ws1) as (ws' & -> & H'). exists ws'. split; [done|].
    intros r' c'. rewrite H', H1. repeat case_decide; try lia.
    + replace (c' - c) with (S (c' - S c)) by lia. done.
    + destruct_and!. subst. rewrite Nat.sub_diag. done.
    + done.
Qed.

Lemma write_rows_lookup (r : nat) (rows : list (list value)) (ws : gmap (nat * nat) cell) :
  Forall (Forall token) rows ->
  exists ws', write_rows r rows ws = Ok ws' /\
    forall r' c', ws' !! (r', c') =
      over (if decide (r <= r')
            then rows !! (r' - r) ≫= fun vs => vs !! c' ≫= fun v => stored v false
            else None)
           (ws !! (r', c')).
Proof.
  intros HF. revert r ws. induction HF as [|vs rows Hvs _ IH]; intros r ws; simpl.
  - exists ws. split; [done|]. intros r' c'. by case_decide.
  - destruct (write_cells_lookup r 0 vs false ws Hvs) as (ws1 & -> & H1). simpl.
    destruct (IH (S r) ws1) as (ws' & -> & H'). exists ws'. split; [done|].
    intros r' c'. rewrite H', H1. destruct (decide (S r <= r')) as [Hd|Hd].
    + repeat case_decide; try lia.
      replace (r' - r) with (S (r' - S r)) by lia. done.
    + destruct (decide (r <= r')) as [Hd'|Hd'].
      * replace r' with r by lia. rewrite Nat.sub_diag. simpl. rewrite Nat.sub_0_r.
        case_decide as Hc; [done|].
        rewrite (lookup_ge_None_2 vs c') by lia. done.
      * case_decide; [lia|done].
Qed.

Lemma format_value_token (v : value) : token (format_value v).
Proof. by destruct v as [s|[q| |[|]]]. Qed.

Lemma header_stored (c : nat) (label : string) :
  final_columns !! c = Some label -> stored (Str label) true = Some (CAny (Str label)).
Proof.
  intros H. do 7 (destruct c as [|c]; [by injection H as <-|]). done.
Qed.

Lemma qty_col_eq : qty_col = 3.
Proof. reflexivity. Qed.

Lemma usd_col_eq : usd_col = 4.
Proof. reflexivity. Qed.

Lemma total_col_idx_eq : total_col_idx = 5.
Proof. reflexivity. Qed.

(** The total cell of a row. *)
Definition total_cell (excel_row : nat) (row : formatted) : cell :=
  if String.eqb (f_Total_USD_Each row) "$0.00" then CString "$0.00"
  else CFormula (t_formula excel_row).

(** The three cells the loop of lines 116-130 writes for a row. *)
Definition typed_cells (ws : gmap (nat * nat) cell) (excel_row : nat) (row : formatted) : Prop :=
  exists q x, f_Quantity row = Num (Finite q) /\ to_float py_float (f_USD_Each row) = Ok x /\
    ws !! (excel_row, 3) = Some (CNumber q) /\
    ws !! (excel_row, 4) = Some (CString (PyFmt.money x)) /\
    ws !! (excel_row, 5) = Some (total_cell excel_row row).

Lemma write_table_rows_Ok (rows : list formatted) (row_num : nat)
    (ws ws' : gmap (nat * nat) cell) :
  write_table_rows py_float row_num rows ws = Ok ws' ->
  (forall i row, rows !! i = Some row -> typed_cells ws' (row_num + i + 1) row) /\
  (forall r c, r <= row_num \/ row_num + length rows < r \/ (c < 3 \/ 5 < c) ->
               ws' !! (r, c) = ws !! (r, c)).
Proof.
  revert row_num ws. induction rows as [|row rows IH]; intros row_num ws; simpl.
  - intros [= <-]. split; [by intros i row ?|done].
  - unfold write_number. destruct (f_Quantity row) as [|[q| |]] eqn:Eq; try done. simpl.
    destruct (to_float py_float (f_USD_Each row)) as [x|] eqn:Ex; [|done]. simpl.
    intros H. apply IH in H as [Hrows Hframe].
    rewrite qty_col_eq, usd_col_eq, total_col_idx_eq in *. split.
    + intros [|i] row' Hi; simpl in Hi.
      * injection Hi as <-. exists q, x. rewrite Nat.add_0_r.
        rewrite !Hframe by lia. unfold total_cell, write_string, write_formula.
        repeat split; try done.
        -- destruct (String.eqb _ _); rewrite !lookup_insert_ne by (intros [=]; lia);
             by rewrite lookup_insert_eq.
        -- destruct (String.eqb _ _); rewrite lookup_insert_ne by (intros [=]; lia);
             by rewrite lookup_insert_eq.
        -- destruct (String.eqb _ _); by rewrite lookup_insert_eq.
      * replace (row_num + S i + 1) with (S row_num + i + 1) by lia. by apply Hrows.
    + intros r c Hrc. rewrite Hframe by lia.
      unfold write_string, write_formula.
      destruct (String.eqb _ _); rewrite !lookup_insert_ne; try done; intros [=]; lia.
Qed.

(** The sheet after a successful rendering, cell by cell. *)
Lemma render_Ok (rows : list formatted) (ws : gmap (nat * nat) cell) :
  render py_float rows = Ok ws ->
  (forall c label, final_columns !! c = Some label -> ws !! (0, c) = Some (CAny (Str label))) /\
  (forall i row, rows !! i = Some row ->
     ws !! (i + 1, 0) = shown (f_Warehouse row) /\
     ws !! (i + 1, 1) = shown (f_Code row) /\
     ws !! (i + 1, 2) = shown (f_Eng_Name row) /\
     typed_cells ws (i + 1) row /\
     ws !! (i + 1, 6) = shown (Str (f_Notes row))) /\
  (forall r c, length rows < r \/ 7 <= c -> ws !! (r, c) = None).
Proof.
  unfold render, write_headers, to_excel.
  destruct (write_rows_lookup 1 ((fun row => format_value <$> row_values row) <$> rows) ∅)
    as (ws0 & -> & H0).
  { apply Forall_fmap, Forall_forall. intros row _. apply Forall_fmap, Forall_forall.
    intros v _. apply format_value_token. }
  cbn [bind].
  destruct (write_cells_lookup 0 0 (Str <$> final_columns) true ws0) as (ws1 & -> & H1).
  { apply Forall_fmap, Forall_forall. by intros label _. }
  cbn [bind].
  destruct (write_table_rows py_float 0 rows ws1) as [ws2|] eqn:E2; cbn [bind]; [|done].
  destruct (set_column_widths rows); cbn [bind]; [|done]. intros [= <-].
  apply write_table_rows_Ok in E2 as [Hrows Hframe].
  split; [|split].
  - intros c label Hc. rewrite Hframe by lia. rewrite H1.
    pose proof (lookup_lt_Some _ _ _ Hc) as Hlt.
    rewrite decide_True by (rewrite length_fmap; lia).
    rewrite Nat.sub_0_r, list_lookup_fmap, Hc.
    change (over (stored (Str label) true) (ws0 !! (0, c)) = Some (CAny (Str label))).
    by rewrite (header_stored c label Hc).
  - intros i row Hi. specialize (Hrows i row Hi). simpl in Hrows.
    assert (Hcell : forall c, c < 3 \/ 5 < c ->
              ws2 !! (i + 1, c) = row_values row !! c ≫= shown).
    { intros c Hc. rewrite Hframe by lia. rewrite H1.
      rewrite decide_False by lia. rewrite H0.
      rewrite decide_True by lia. replace (i + 1 - 1) with i by lia.
      rewrite list_lookup_fmap, Hi, lookup_empty.
      cbn [fmap option_fmap option_map mbind option_bind].
      rewrite list_lookup_fmap. unfold shown.
      destruct (row_values row !! c) as [v|]; [|done].
      cbn [fmap option_fmap option_map mbind option_bind].
      by destruct (stored (format_value v) false). }
    rewrite !Hcell by lia. done.
  - intros r c Hrc. destruct (decide (1 <= r /\ r <= length rows /\ 3 <= c <= 5)) as [H|H].
    { lia. }
    destruct (decide (r <= 0 \/ 0 + length rows < r \/ (c < 3 \/ 5 < c))) as [H'|H']; [|lia].
    rewrite Hframe by done. rewrite H1. case_decide as Hd.
    + destruct Hd as [-> Hd]. simpl in Hd. lia.
    + rewrite H0, lookup_empty. case_decide as Hd1; [|done].
      rewrite list_lookup_fmap. destruct (rows !! (r - 1)) as [row|] eqn:E; [|done].
      destruct Hrc as [Hr|Hc]; [apply lookup_lt_Some in E; lia|].
      cbn [fmap option_fmap option_map mbind option_bind].
      rewrite list_lookup_fmap, (lookup_ge_None_2 (row_values row) c) by (simpl; lia). done.
Qed.

(** The rendering fails on a frame without rows, at line 144. *)
Lemma render_nonempty (rows : list formatted) (ws : gmap (nat * nat) cell) :
  render py_float rows = Ok ws -> rows <> [].
Proof.
  intros H ->. unfold render in H. simpl in H.
  destruct (write_headers ∅) as [ws1|]; simpl in H; done.
Qed.

(** Past [to_excel] and the headers, which do not fail, the rendering is
    the loop of lines 116-130 and the widths. *)
Lemma render_loop (rows : list formatted) :
  exists ws1,
    render py_float rows =
      (ws2 <- write_table_rows py_float 0 rows ws1 ;;
       _ <- set_column_widths rows ;; Ok ws2).
Proof.
  unfold render, write_headers, to_excel.
  destruct (write_rows_lookup 1 ((fun row => format_value <$> row_values row) <$> rows) ∅)
    as (ws0 & -> & _).
  { apply Forall_fmap, Forall_forall. intros row _. apply Forall_fmap, Forall_forall.
    intros v _. apply format_value_token. }
  cbn [bind].
  destruct (write_cells_lookup 0 0 (Str <$> final_columns) true ws0) as (ws1 & -> & _).
  { apply Forall_fmap, Forall_forall. by intros label _. }
  cbn [bind]. by exists ws1.
Qed.

End Renderer.

(** ** The handler *)

Section Handler_facts.

Variable py_float : string -> option pyfloat.

Lemma handle_Download (df : DataFrame) (d : download) :
  handle py_float df = Download d <->
  exists table out ws,
    reconcile df = Proceed table /\ correct py_float table = Ok out /\
    render py_float out = Ok ws /\
    d = {| file_name := "formatted_inventory.xlsx";
           mime := "application/vnd.openxmlformats-officedocument.spreadsheetml.sheet";
           sheets := [("Formatted", ws)] |}.
Proof.
  unfold handle. split.
  - destruct (reconcile df) as [| |table]; try done.
    destruct (correct py_float table) as [out|] eqn:Ec; simpl; [|done].
    destruct (render py_float out) as [ws|] eqn:Er; [|done].
    intros [= <-]. by exists table, out, ws.
  - intros (table & out & ws & -> & Hc & Hr & ->). rewrite Hc. simpl. by rewrite Hr.
Qed.

Lemma mem_elem_of (s : string) (xs : list string) : PyStr.mem s xs = true <-> s ∈ xs.
Proof.
  unfold PyStr.mem. rewrite existsb_exists. split.
  - intros (x & Hx & ->%String.eqb_eq). by apply list_elem_of_In.
  - intros H. exists s. split; [by apply list_elem_of_In|apply String.eqb_refl].
Qed.

Lemma py_in_true (v : value) (xs : list string) :
  py_in v xs = true <-> exists s, v = Str s /\ s ∈ xs.
Proof.
  destruct v as [s|x]; simpl.
  - rewrite mem_elem_of. split; [by exists s|]. by intros (? & [= <-] & ?).
  - split; [done|]. by intros (? & ? & _).
Qed.

(** The codes of rule A are not the code of rule B, stripped or not. *)
Lemma adjust_not_91v2 (v : value) : py_in v adjust_codes = true -> is_91v2 v = false.
Proof.
  intros (s & -> & Hs)%py_in_true.
  repeat (apply elem_of_cons in Hs as [->|Hs]; [done|]). by apply elem_of_nil in Hs.
Qed.

Lemma adjust_stripped (s : string) : s ∈ adjust_codes -> PyStr.strip s = s.
Proof.
  intros Hs.
  repeat (apply elem_of_cons in Hs as [->|Hs]; [done|]). by apply elem_of_nil in Hs.
Qed.

(** The fields of a row after lines 54-55. *)
Lemma updated_frame (row : record) :
  Warehouse (updated row) = Warehouse row /\ Code (updated row) = Code row /\
  Eng_Name (updated row) = Eng_Name row /\ Quantity (updated row) = Quantity row /\
  Original_Cost (updated row) = Original_Cost row.
Proof. unfold updated. by repeat case_match. Qed.

Lemma updated_USD_Each (row : record) :
  USD_Each (updated row) =
  if py_in (Code row) adjust_codes then Num (Finite price_029813)
  else if is_91v2 (Code row) then Num (Finite price_91v2)
  else USD_Each row.
Proof.
  unfold updated. destruct (py_in (Code row) adjust_codes) eqn:EA; simpl.
  - by rewrite (adjust_not_91v2 _ EA).
  - by destruct (is_91v2 (Code row)).
Qed.

(** The two entries the loop of lines 60-83 adds for a row. *)
Lemma row_entries_Ok (row : record) (e : string * string) :
  row_entries py_float row = Ok e ->
  e.1 = (if py_in (Warehouse row) special_warehouses then "$0.00" else "") /\
  (if py_in (Code row) adjust_codes then
     exists x, to_float py_float (Original_Cost row) = Ok x /\
               e.2 = "Compiere previously showed " +:+ PyFmt.money x
   else if is_91v2 (Code row) then
     exists x, to_float py_float (Original_Cost row) = Ok x /\
               e.2 = "Compiere is showing a cost of " +:+ PyFmt.money x
                     +:+ "; See DONA-PO-10001758"
   else e.2 = "").
Proof.
  unfold row_entries.
  destruct (usd_val_of py_float (USD_Each row)) as [usd_val|]; simpl; [|done].
  destruct (py_in (Warehouse row) special_warehouses); simpl.
  - destruct (py_in (Code row) adjust_codes); [|destruct (is_91v2 (Code row))]; simpl;
      try (destruct (to_float py_float (Original_Cost row)) as [x|]; simpl; [|done]);
      intros [= <-]; eauto.
  - destruct (total_val_of (Quantity row) usd_val); simpl; [|done].
    destruct (py_in (Code row) adjust_codes); [|destruct (is_91v2 (Code row))]; simpl;
      try (destruct (to_float py_float (Original_Cost row)) as [x|]; simpl; [|done]);
      intros [= <-]; eauto.
Qed.

(** A corrected row, field by field. *)
Lemma corrected_fields (row : record) (o : formatted) :
  corrected py_float row o ->
  f_Warehouse o = Warehouse row /\ f_Code o = Code row /\ f_Eng_Name o = Eng_Name row /\
  f_Quantity o = Quantity row /\
  f_USD_Each o = (if py_in (Code row) adjust_codes then Num (Finite price_029813)
                  else if is_91v2 (Code row) then Num (Finite price_91v2)
                  else USD_Each row) /\
  f_Total_USD_Each o = (if py_in (Warehouse row) special_warehouses then "$0.00" else "") /\
  (if py_in (Code row) adjust_codes then
     exists x, to_float py_float (Original_Cost row) = Ok x /\
               f_Notes o = "Compiere previously showed " +:+ PyFmt.money x
   else if is_91v2 (Code row) then
     exists x, to_float py_float (Original_Cost row) = Ok x /\
               f_Notes o = "Compiere is showing a cost of " +:+ PyFmt.money x
                           +:+ "; See DONA-PO-10001758"
   else f_Notes o = "").
Proof.
  intros (e & He & ->). apply row_entries_Ok in He as [Ht Hn].
  destruct (updated_frame row) as (Hw & Hc & Hn' & Hq & Ho).
  rewrite Hw in Ht. rewrite Hc, Ho in Hn. simpl.
  rewrite Hw, Hc, Hn', Hq, updated_USD_Each. done.
Qed.

(** The reconciled table is the frame, row by row, read at the five
    canonical labels; the backup of the cost is the cost. *)
Lemma reconcile_rows (df : DataFrame) (table : list record) :
  reconcile df = Proceed table ->
  exists w c e q u, located (labels_of df) w c e q u /\
                    table = record_at w c e q u <$> values df.
Proof. intros [_ H]%reconcile_Proceed. by apply select_Ok. Qed.

End Handler_facts.

(** ** The properties of the specification *)

Lemma inventory_frame_well_formed : well_formed inventory_frame.
Proof.
  split; [by_decide|]. repeat (constructor; [done|]). constructor.
Qed.

Lemma inventory_frame_handled :
  handle no_text_float inventory_frame = Download inventory_download.
Proof. by vm_compute. Qed.

(** C1 (the code departs from it). Every canonical name has a label of
    [lowercase_frame] that passes the 0.6 test and the mapping has its
    five entries, but the renaming of line 38, keyed by the canonical
    names, changes no label, and the selection of line 41 raises
    [KeyError]: no row is processed. *)
Theorem fuzzy_match_is_not_renamed (py_float : string -> option pyfloat) :
  Forall (fun c => exists x, x ∈ labels_of lowercase_frame /\ difflib.close_enough c x = true)
         expected_cols /\
  col_map (labels_of lowercase_frame) =
    [("Warehouse", "warehouse"); ("Code", "Code"); ("Eng Name", "Eng Name");
     ("Quantity", "Quantity"); ("Cost", "Cost")] /\
  rename (col_map (labels_of lowercase_frame)) (labels_of lowercase_frame) =
    labels_of lowercase_frame /\
  reconcile lowercase_frame = Fail KeyError /\
  handle py_float lowercase_frame = ProcessingError KeyError.
Proof.
  split; [|by vm_compute].
  apply Forall_cons. split; [exists "warehouse"; split; [by_decide|by vm_compute]|].
  apply Forall_cons. split; [exists "Code"; split; [by_decide|by vm_compute]|].
  apply Forall_cons. split; [exists "Eng Name"; split; [by_decide|by vm_compute]|].
  apply Forall_cons. split; [exists "Quantity"; split; [by_decide|by vm_compute]|].
  apply Forall_cons. split; [exists "Cost"; split; [by_decide|by vm_compute]|].
  apply Forall_nil_2.
Qed.

(** For every frame the renaming of line 38 is the identity, so the
    reconciler goes on to the rows only when the five canonical names are
    labels of the frame as they stand. *)
Lemma reconcile_Proceed_present (df : DataFrame) (table : list record) :
  reconcile df = Proceed table -> forall c, c ∈ expected_cols -> c ∈ labels_of df.
Proof.
  intros (w & c' & e & q & u & (Hw & Hc & He & Hq & Hu) & _)%reconcile_rows c Hin.
  repeat (apply elem_of_cons in Hin as [->|Hin];
          [eapply list_elem_of_lookup_2, get_loc_Some; eassumption|]).
  by apply elem_of_nil in Hin.
Qed.

(** C2 (the code departs from it). A code of rule A followed by a space
    is in the set once stripped, but lines 54 and 77 compare it as it
    stands: the cost and the note are left as they were. *)
Theorem padded_code_is_not_overridden (py_float : string -> option pyfloat) :
  PyStr.mem (PyStr.strip "029813261 ") adjust_codes = true /\
  correct py_float
    [{| Warehouse := Str "Main"; Code := Str "029813261 "; Eng_Name := Str "Widget";
        Quantity := Num (Finite 3); USD_Each := Num (Finite 500);
        Original_Cost := Num (Finite 500) |}] =
  Ok [{| f_Warehouse := Str "Main"; f_Code := Str "029813261 "; f_Eng_Name := Str "Widget";
         f_Quantity := Num (Finite 3); f_USD_Each := Num (Finite 500);
         f_Total_USD_Each := ""; f_Notes := "" |}].
Proof. by vm_compute. Qed.

(** Rule A as the code applies it: on a code equal to one of the two
    texts. *)
Lemma exact_code_is_overridden (py_float : string -> option pyfloat)
    (table : list record) (out : list formatted) (i : nat) (row : record) :
  correct py_float table = Ok out -> table !! i = Some row ->
  py_in (Code row) adjust_codes = true ->
  exists o x, out !! i = Some o /\ to_float py_float (Original_Cost row) = Ok x /\
    f_USD_Each o = Num (Finite price_029813) /\
    f_Notes o = "Compiere previously showed " +:+ PyFmt.money x.
Proof.
  intros Hc Hi HA. destruct (correct_lookup _ _ _ _ _ Hc Hi) as (o & Ho & Hco).
  apply corrected_fields in Hco as (_ & _ & _ & _ & Hu & _ & Hn).
  rewrite HA in Hu, Hn. destruct Hn as (x & Hx & Hn). by exists o, x.
Qed.

(** C3. In a download, the total cell of a row whose warehouse is one of
    the four special ones is the text [$0.00], whatever its quantity and
    cost; when a rule overrides its cost, the cell of the cost shows the
    new cost and the note is written beside it. *)
Theorem special_warehouse_total_is_zero_text
    (py_float : string -> option pyfloat) (df : DataFrame) (d : download) :
  well_formed df ->
  handle py_float df = Download d ->
  exists table ws,
    reconcile df = Proceed table /\ sheets d = [("Formatted", ws)] /\
    forall i row w,
      table !! i = Some row -> Warehouse row = Str w -> w ∈ special_warehouses ->
      ws !! (i + 1, total_col_idx) = Some (CString "$0.00") /\
      (py_in (Code row) adjust_codes = true ->
       exists x, to_float py_float (Original_Cost row) = Ok x /\
         ws !! (i + 1, usd_col) = Some (CString "$1,398.06") /\
         ws !! (i + 1, 6) =
           Some (CAny (Str ("Compiere previously showed " +:+ PyFmt.money x)))) /\
      (is_91v2 (Code row) = true ->
       exists x, to_float py_float (Original_Cost row) = Ok x /\
         ws !! (i + 1, usd_col) = Some (CString "$7,752.42") /\
         ws !! (i + 1, 6) =
           Some (CAny (Str ("Compiere is showing a cost of " +:+ PyFmt.money x
                            +:+ "; See DONA-PO-10001758")))).
Proof.
  intros _ (table & out & ws & Hrec & Hcor & Hren & ->)%handle_Download.
  exists table, ws. split; [done|]. split; [done|].
  intros i row w Hi Hw Hspecial.
  destruct (correct_lookup _ _ _ _ _ Hcor Hi) as (o & Ho & Hco).
  apply corrected_fields in Hco as (_ & _ & _ & _ & Hu & Ht & Hn).
  assert (Hin : py_in (Warehouse row) special_warehouses = true)
    by (apply py_in_true; by exists w).
  rewrite Hin in Ht.
  apply render_Ok in Hren as (_ & Hrows & _).
  destruct (Hrows i o Ho) as (_ & _ & _ & (q & x & _ & Hx & _ & H4 & H5) & H6).
  rewrite total_col_idx_eq, usd_col_eq. split; [|split].
  - rewrite H5. unfold total_cell. by rewrite Ht.
  - intros HA. rewrite HA in Hu, Hn. destruct Hn as (x' & Hx' & Hn). exists x'.
    rewrite Hu in Hx. injection Hx as <-. rewrite H4, H6, Hn. done.
  - intros HB. destruct (py_in (Code row) adjust_codes) eqn:HA;
      [by rewrite (adjust_not_91v2 _ HA) in HB|].
    rewrite HB in Hu, Hn. destruct Hn as (x' & Hx' & Hn). exists x'.
    rewrite Hu in Hx. injection Hx as <-. rewrite H4, H6, Hn. done.
Qed.

Lemma special_warehouse_total_is_zero_text_witness :
  well_formed inventory_frame /\
  handle no_text_float inventory_frame = Download inventory_download /\
  exists table ws,
    reconcile inventory_frame = Proceed table /\
    sheets inventory_download = [("Formatted", ws)] /\
    forall i row w,
      table !! i = Some row -> Warehouse row = Str w -> w ∈ special_warehouses ->
      ws !! (i + 1, total_col_idx) = Some (CString "$0.00") /\
      (py_in (Code row) adjust_codes = true ->
       exists x, to_float no_text_float (Original_Cost row) = Ok x /\
         ws !! (i + 1, usd_col) = Some (CString "$1,398.06") /\
         ws !! (i + 1, 6) =
           Some (CAny (Str ("Compiere previously showed " +:+ PyFmt.money x)))) /\
      (is_91v2 (Code row) = true ->
       exists x, to_float no_text_float (Original_Cost row) = Ok x /\
         ws !! (i + 1, usd_col) = Some (CString "$7,752.42") /\
         ws !! (i + 1, 6) =
           Some (CAny (Str ("Compiere is showing a cost of " +:+ PyFmt.money x
                            +:+ "; See DONA-PO-10001758")))).
Proof.
  split; [exact inventory_frame_well_formed|].
  split; [exact inventory_frame_handled|].
  exact (special_warehouse_total_is_zero_text no_text_float inventory_frame
           inventory_download inventory_frame_well_formed inventory_frame_handled).
Defined.

(** The row of [inventory_frame] in a special warehouse with the code of
    rule B: total [$0.00], cost overridden, note written. *)
Example special_warehouse_with_override :
  inventory_sheet !! (3, 5) = Some (CString "$0.00") /\
  inventory_sheet !! (3, 4) = Some (CString "$7,752.42") /\
  inventory_sheet !! (3, 6) =
    Some (CAny (Str "Compiere is showing a cost of $640.00; See DONA-PO-10001758")).
Proof. by vm_compute. Qed.

(** The labels the message of line 36 lists: for each canonical name, in
    order, its best match when it has one. *)
Lemma dict_values_col_map (labels : list string) :
  dict_values (col_map labels) =
  omap (fun c => head (difflib.get_close_matches c labels)) expected_cols.
Proof.
  rewrite col_map_spec. unfold dict_values. generalize expected_cols.
  induction l as [|c l IH]; [done|].
  change (omap (entry labels) (c :: l))
    with (match entry labels c with
          | Some y => y :: omap (entry labels) l
          | None => omap (entry labels) l
          end).
  change (omap (fun c => head (get_close_matches c labels)) (c :: l))
    with (match head (get_close_matches c labels) with
          | Some y => y :: omap (fun c => head (get_close_matches c labels)) l
          | None => omap (fun c => head (get_close_matches c labels)) l
          end).
  unfold entry at 1. destruct (get_close_matches c labels); simpl; by rewrite <- IH.
Qed.

Lemma omap_length_le {A B} (f : A -> option B) (l : list A) : length (omap f l) <= length l.
Proof.
  induction l as [|x l IH]; [done|].
  change (omap f (x :: l)) with (match f x with Some y => y :: omap f l | None => omap f l end).
  destruct (f x); simpl; lia.
Qed.

Lemma omap_length_lt {A B} (f : A -> option B) (l : list A) (x : A) :
  x ∈ l -> f x = None -> length (omap f l) < length l.
Proof.
  induction l as [|y l IH]; intros Hin Hx; [by apply elem_of_nil in Hin|].
  change (omap f (y :: l)) with (match f y with Some z => z :: omap f l | None => omap f l end).
  apply elem_of_cons in Hin as [<-|Hin].
  - rewrite Hx. pose proof (omap_length_le f l). simpl. lia.
  - specialize (IH Hin Hx). destruct (f y); simpl; lia.
Qed.

(** C4, as amended. When some canonical name has no label that passes
    the 0.6 test, the handler stops with the mismatch message; the
    message lists the labels of the frame that were matched (for each
    resolved canonical name, in order, its best match), fewer than five;
    the rows play no part and nothing is offered for download. *)
Theorem schema_mismatch_lists_matched_labels
    (py_float : string -> option pyfloat) (df : DataFrame) (c : string) :
  c ∈ expected_cols ->
  (forall x, x ∈ labels_of df -> difflib.close_enough c x = false) ->
  handle py_float df =
    SchemaMismatch
      (omap (fun c => head (difflib.get_close_matches c (labels_of df))) expected_cols) /\
  length (omap (fun c => head (difflib.get_close_matches c (labels_of df))) expected_cols) < 5 /\
  (forall c' m, (c', m) ∈ col_map (labels_of df) ->
     c' ∈ expected_cols /\ m ∈ labels_of df /\ difflib.close_enough c' m = true) /\
  (forall rows, handle py_float {| columns := columns df; values := rows |} =
                handle py_float df).
Proof.
  intros Hc Hnone.
  assert (Hlen : length (col_map (labels_of df)) < 5).
  { rewrite col_map_spec. apply (omap_length_lt _ _ c Hc). unfold entry.
    by rewrite (proj2 (get_close_matches_nil c (labels_of df)) Hnone). }
  assert (Hstop : forall rows,
            reconcile {| columns := columns df; values := rows |} =
            Stop (dict_values (col_map (labels_of df)))).
  { intros rows. apply reconcile_Stop. unfold labels_of. simpl. split; [|done].
    fold (labels_of df). change (length expected_cols) with 5. lia. }
  assert (Hdf : reconcile df = Stop (dict_values (col_map (labels_of df)))).
  { destruct df as [cols rows]. apply Hstop. }
  split; [|split; [|split]].
  - unfold handle. by rewrite Hdf, dict_values_col_map.
  - rewrite <- dict_values_col_map. unfold dict_values. by rewrite length_fmap.
  - apply col_map_elem_close.
  - intros rows. unfold handle. by rewrite Hstop, Hdf.
Qed.

Lemma schema_mismatch_lists_matched_labels_witness :
  "Cost" ∈ expected_cols /\
  (forall x, x ∈ labels_of no_cost_frame -> difflib.close_enough "Cost" x = false) /\
  handle no_text_float no_cost_frame =
    SchemaMismatch ["warehouse"; "Code"; "Eng Name"; "Quantity"].
Proof.
  assert (H1 : "Cost" ∈ expected_cols) by by_decide.
  assert (H2 : forall x, x ∈ labels_of no_cost_frame -> difflib.close_enough "Cost" x = false).
  { intros x Hx. repeat (apply elem_of_cons in Hx as [->|Hx]; [by vm_compute|]).
    by apply elem_of_nil in Hx. }
  split; [exact H1|]. split; [exact H2|].
  exact (proj1 (schema_mismatch_lists_matched_labels no_text_float no_cost_frame "Cost" H1 H2)).
Defined.

(** C4 as stated fails: for [no_cost_frame] the canonical names resolved
    are [Warehouse], [Code], [Eng Name] and [Quantity], and the message
    lists the labels of the frame matched to them, [warehouse] first. *)
Lemma schema_mismatch_does_not_list_canonical_names :
  handle no_text_float no_cost_frame =
    SchemaMismatch ["warehouse"; "Code"; "Eng Name"; "Quantity"] /\
  dict_keys (col_map (labels_of no_cost_frame)) =
    ["Warehouse"; "Code"; "Eng Name"; "Quantity"] /\
  ["warehouse"; "Code"; "Eng Name"; "Quantity"] <>
    dict_keys (col_map (labels_of no_cost_frame)).
Proof. split; [by vm_compute|]. split; [by vm_compute|]. by vm_compute. Qed.

(** C5, as amended. A download is a file named [formatted_inventory.xlsx]
    with the single sheet [Formatted], whose first row holds the seven
    labels of the final frame and nothing else; the seventh label is
    [Notes (Ex. Rate 1.12)]. *)
Theorem download_has_one_sheet_with_headers
    (py_float : string -> option pyfloat) (df : DataFrame) (d : download) :
  well_formed df ->
  handle py_float df = Download d ->
  file_name d = "formatted_inventory.xlsx" /\
  exists ws, sheets d = [("Formatted", ws)] /\
    forall c, ws !! (0, c) =
      (fun label => CAny (Str label)) <$>
        ["Warehouse"; "Code"; "Eng Name"; "Quantity"; "USD Each"; "Total USD Each";
         "Notes (Ex. Rate 1.12)"] !! c.
Proof.
  intros _ (table & out & ws & Hrec & Hcor & Hren & ->)%handle_Download.
  split; [done|]. exists ws. split; [done|].
  apply render_Ok in Hren as (Hhead & _ & Hnone). intros c.
  change ["Warehouse"; "Code"; "Eng Name"; "Quantity"; "USD Each"; "Total USD Each";
          "Notes (Ex. Rate 1.12)"] with final_columns.
  destruct (final_columns !! c) as [label|] eqn:E.
  - by rewrite (Hhead c label E).
  - apply lookup_ge_None in E. simpl in *. apply Hnone. right. exact E.
Qed.

Lemma download_has_one_sheet_with_headers_witness :
  well_formed inventory_frame /\
  handle no_text_float inventory_frame = Download inventory_download /\
  file_name inventory_download = "formatted_inventory.xlsx" /\
  exists ws, sheets inventory_download = [("Formatted", ws)] /\
    forall c, ws !! (0, c) =
      (fun label => CAny (Str label)) <$>
        ["Warehouse"; "Code"; "Eng Name"; "Quantity"; "USD Each"; "Total USD Each";
         "Notes (Ex. Rate 1.12)"] !! c.
Proof.
  split; [exact inventory_frame_well_formed|].
  split; [exact inventory_frame_handled|].
  exact (download_has_one_sheet_with_headers no_text_float inventory_frame
           inventory_download inventory_frame_well_formed inventory_frame_handled).
Defined.

(** C5 as stated fails: the seventh header of the sheet made for
    [inventory_frame] is not the label [Notes]. *)
Lemma seventh_header_is_not_Notes :
  handle no_text_float inventory_frame = Download inventory_download /\
  sheets inventory_download = [("Formatted", inventory_sheet)] /\
  inventory_sheet !! (0, 6) = Some (CAny (Str "Notes (Ex. Rate 1.12)")) /\
  inventory_sheet !! (0, 6) <> Some (CAny (Str "Notes")).
Proof.
  split; [exact inventory_frame_handled|]. split; [by vm_compute|].
  split; [by vm_compute|]. by vm_compute.
Qed.

Lemma inventory_frame_reconciled : reconcile inventory_frame = Proceed inventory_table.
Proof. by vm_compute. Qed.

Lemma inventory_table_corrected : correct no_text_float inventory_table = Ok inventory_out.
Proof. by vm_compute. Qed.

(** C7. A row whose code, stripped, is [91V2NU000001] gets the cost
    7752.42 (the double, shown as [$7,752.42]) and the note built from
    its original cost. Such a code is not one of rule A. *)
Theorem rule_B_sets_cost_and_note
    (py_float : string -> option pyfloat) (table : list record) (out : list formatted)
    (i : nat) (row : record) (s : string) :
  correct py_float table = Ok out ->
  table !! i = Some row ->
  Code row = Str s ->
  PyStr.strip s = "91V2NU000001" ->
  py_in (Code row) adjust_codes = false /\
  exists o x,
    out !! i = Some o /\ to_float py_float (Original_Cost row) = Ok x /\
    f_USD_Each o = Num (Finite price_91v2) /\
    PyFmt.money (Finite price_91v2) = "$7,752.42" /\
    f_Notes o = "Compiere is showing a cost of " +:+ PyFmt.money x
                +:+ "; See DONA-PO-10001758".
Proof.
  intros Hc Hi Hs Hstrip.
  assert (HB : is_91v2 (Code row) = true).
  { rewrite Hs. simpl. rewrite Hstrip. done. }
  assert (HA : py_in (Code row) adjust_codes = false).
  { destruct (py_in (Code row) adjust_codes) eqn:E; [|done].
    by rewrite (adjust_not_91v2 _ E) in HB. }
  split; [done|].
  destruct (correct_lookup _ _ _ _ _ Hc Hi) as (o & Ho & Hco).
  apply corrected_fields in Hco as (_ & _ & _ & _ & Hu & _ & Hn).
  rewrite HA, HB in Hu, Hn. destruct Hn as (x & Hx & Hn). by exists o, x.
Qed.

Lemma rule_B_sets_cost_and_note_witness :
  correct no_text_float inventory_table = Ok inventory_out /\
  inventory_table !! 2 =
    Some {| Warehouse := Str "INVOICED"; Code := Str " 91V2NU000001"; Eng_Name := Str "Valve";
            Quantity := Num (Finite 2); USD_Each := Num (Finite 640);
            Original_Cost := Num (Finite 640) |} /\
  PyStr.strip " 91V2NU000001" = "91V2NU000001" /\
  exists o x,
    inventory_out !! 2 = Some o /\ to_float no_text_float (Num (Finite 640)) = Ok x /\
    f_USD_Each o = Num (Finite price_91v2) /\
    PyFmt.money (Finite price_91v2) = "$7,752.42" /\
    f_Notes o = "Compiere is showing a cost of " +:+ PyFmt.money x
                +:+ "; See DONA-PO-10001758".
Proof.
  assert (H2 : inventory_table !! 2 =
    Some {| Warehouse := Str "INVOICED"; Code := Str " 91V2NU000001"; Eng_Name := Str "Valve";
            Quantity := Num (Finite 2); USD_Each := Num (Finite 640);
            Original_Cost := Num (Finite 640) |}) by reflexivity.
  split; [exact inventory_table_corrected|]. split; [exact H2|]. split; [reflexivity|].
  exact (proj2 (rule_B_sets_cost_and_note no_text_float inventory_table inventory_out 2 _
                  " 91V2NU000001" inventory_table_corrected H2 eq_refl eq_refl)).
Defined.

(** C8. When the reconciler goes on to the rows, the five canonical
    names are labels of the frame, each is mapped to itself, and so no
    two of them share a label; a frame whose mapping is not injective is
    turned down, by the mismatch message or by the [KeyError] of the
    selection, with no row processed and nothing to download. *)
Theorem rows_processed_only_with_unique_resolution (df : DataFrame) :
  (forall table, reconcile df = Proceed table ->
     (forall c, c ∈ expected_cols -> c ∈ labels_of df) /\
     col_map (labels_of df) = (fun c => (c, c)) <$> expected_cols /\
     injective (col_map (labels_of df))) /\
  (~ injective (col_map (labels_of df)) ->
     ((exists found, reconcile df = Stop found) \/ reconcile df = Fail KeyError) /\
     forall py_float,
       (exists found, handle py_float df = SchemaMismatch found) \/
       handle py_float df = ProcessingError KeyError).
Proof.
  assert (H1 : forall table, reconcile df = Proceed table ->
     (forall c, c ∈ expected_cols -> c ∈ labels_of df) /\
     col_map (labels_of df) = (fun c => (c, c)) <$> expected_cols /\
     injective (col_map (labels_of df))).
  { intros table Hrec.
    pose proof (reconcile_Proceed_present df table Hrec) as Hpresent.
    split; [done|]. rewrite (col_map_present _ Hpresent). split; [done|].
    intros c1 c2 m (x1 & [= -> ->] & _)%list_elem_of_fmap (x2 & [= -> E] & _)%list_elem_of_fmap.
    done. }
  split; [exact H1|]. intros Hni.
  assert (Hcases : (exists found, reconcile df = Stop found) \/ reconcile df = Fail KeyError).
  { destruct (reconcile df) as [found|e|table] eqn:E.
    - left. by exists found.
    - right. apply reconcile_Fail in E as [_ [-> _]%select_Raise]. done.
    - exfalso. apply Hni. by apply (H1 table). }
  split; [done|]. intros py. unfold handle.
  destruct Hcases as [[found ->]| ->]; [left; by exists found|by right].
Qed.

Lemma rows_processed_only_with_unique_resolution_witness :
  reconcile inventory_frame = Proceed inventory_table /\
  injective (col_map (labels_of inventory_frame)) /\
  ~ injective (col_map (labels_of shared_match_frame)) /\
  reconcile shared_match_frame = Fail KeyError /\
  handle no_text_float shared_match_frame = ProcessingError KeyError.
Proof.
  split; [exact inventory_frame_reconciled|].
  split; [exact (proj2 (proj2 (proj1 (rows_processed_only_with_unique_resolution
                   inventory_frame) inventory_table inventory_frame_reconciled)))|].
  split; [|split; reflexivity].
  intros Hinj.
  assert (E : col_map (labels_of shared_match_frame) =
    [("Warehouse", "Warehouse"); ("Code", "Cose"); ("Eng Name", "Eng Name");
     ("Quantity", "Quantity"); ("Cost", "Cose")]) by reflexivity.
  rewrite E in Hinj. specialize (Hinj "Code" "Cost" "Cose").
  assert ("Code" = "Cost") as [=]. apply Hinj.
  - right. left.
  - do 4 right. left.
Defined.

(** C9. In the reconciled table the backup of the cost is the cost read
    from the frame, and lines 54-55 leave it as it is; the name goes to
    the output unchanged; a row whose code, stripped, is under neither
    rule keeps its cost and gets the empty note. *)
Theorem unmatched_row_keeps_cost_and_name
    (py_float : string -> option pyfloat) (df : DataFrame) (table : list record)
    (out : list formatted) (i : nat) (row : record) :
  reconcile df = Proceed table ->
  correct py_float table = Ok out ->
  table !! i = Some row ->
  Original_Cost row = USD_Each row /\
  Original_Cost (updated row) = Original_Cost row /\
  exists o,
    out !! i = Some o /\
    f_Eng_Name o = Eng_Name row /\
    ((forall s, Code row = Str s ->
        (PyStr.strip s ∉ adjust_codes) /\ PyStr.strip s <> "91V2NU000001") ->
     f_USD_Each o = Original_Cost row /\ f_Notes o = "").
Proof.
  intros Hrec Hcor Hi.
  assert (Hbackup : Original_Cost row = USD_Each row).
  { apply reconcile_rows in Hrec as (w & c & e & q & u & _ & ->).
    rewrite list_lookup_fmap in Hi. destruct (values df !! i); [|done].
    by injection Hi as <-. }
  split; [done|]. split; [apply updated_frame|].
  destruct (correct_lookup _ _ _ _ _ Hcor Hi) as (o & Ho & Hco).
  apply corrected_fields in Hco as (_ & _ & Hname & _ & Hu & _ & Hn).
  exists o. split; [done|]. split; [done|]. intros Hneither.
  assert (HA : py_in (Code row) adjust_codes = false).
  { destruct (py_in (Code row) adjust_codes) eqn:E; [|done].
    apply py_in_true in E as (s & Hs & Hin). destruct (Hneither s Hs) as [Hno _].
    by rewrite (adjust_stripped s Hin) in Hno. }
  assert (HB : is_91v2 (Code row) = false).
  { destruct (Code row) as [s|x] eqn:E; [|done]. simpl.
    apply String.eqb_neq. by apply (Hneither s). }
  rewrite HA, HB in Hu, Hn. by rewrite Hbackup.
Qed.

Lemma unmatched_row_keeps_cost_and_name_witness :
  reconcile inventory_frame = Proceed inventory_table /\
  correct no_text_float inventory_table = Ok inventory_out /\
  inventory_table !! 3 =
    Some {| Warehouse := Str "Main"; Code := Str "X1"; Eng_Name := Str "Bolt";
            Quantity := Num (Finite 8); USD_Each := Num (Finite (1 # 8));
            Original_Cost := Num (Finite (1 # 8)) |} /\
  exists o,
    inventory_out !! 3 = Some o /\
    f_Eng_Name o = Str "Bolt" /\
    ((forall s, Str "X1" = Str s ->
        (PyStr.strip s ∉ adjust_codes) /\ PyStr.strip s <> "91V2NU000001") ->
     f_USD_Each o = Num (Finite (1 # 8)) /\ f_Notes o = "").
Proof.
  assert (H3 : inventory_table !! 3 =
    Some {| Warehouse := Str "Main"; Code := Str "X1"; Eng_Name := Str "Bolt";
            Quantity := Num (Finite 8); USD_Each := Num (Finite (1 # 8));
            Original_Cost := Num (Finite (1 # 8)) |}) by reflexivity.
  split; [exact inventory_frame_reconciled|].
  split; [exact inventory_table_corrected|]. split; [exact H3|].
  exact (proj2 (proj2 (unmatched_row_keeps_cost_and_name no_text_float inventory_frame
                         inventory_table inventory_out 3 _ inventory_frame_reconciled
                         inventory_table_corrected H3))).
Defined.

(** The premise of C9 holds of the row [X1] of [inventory_frame], which
    keeps its cost and has no note. *)
Example unmatched_row_of_inventory :
  (forall s, Str "X1" = Str s ->
     (PyStr.strip s ∉ adjust_codes) /\ PyStr.strip s <> "91V2NU000001") /\
  inventory_out !! 3 =
    Some {| f_Warehouse := Str "Main"; f_Code := Str "X1"; f_Eng_Name := Str "Bolt";
            f_Quantity := Num (Finite 8); f_USD_Each := Num (Finite (1 # 8));
            f_Total_USD_Each := ""; f_Notes := "" |}.
Proof.
  split; [|reflexivity]. intros s [= <-]. split; [|done].
  intros H. repeat (apply elem_of_cons in H as [[=]|H]). by apply elem_of_nil in H.
Qed.

(** C10. In a download, the reconciled table, the corrected table and
    the data rows of the sheet have one row per row of the frame, in the
    order of the frame: row [i] of the frame is row [i] of both tables and
    row [i + 1] of the sheet, which holds its quantity, a finite number,
    and, for its warehouse, code and name, the cell [df.to_excel] leaves
    for each ([shown]: none for a missing value or an empty text); the
    sheet has no row after the last. *)
Theorem one_output_row_per_input_row
    (py_float : string -> option pyfloat) (df : DataFrame) (d : download) :
  well_formed df ->
  handle py_float df = Download d ->
  exists table out ws w c e q u,
    reconcile df = Proceed table /\ correct py_float table = Ok out /\
    sheets d = [("Formatted", ws)] /\
    located (labels_of df) w c e q u /\
    length table = length (values df) /\ length out = length (values df) /\
    (forall i r, values df !! i = Some r ->
       exists o n,
         table !! i = Some (record_at w c e q u r) /\ out !! i = Some o /\
         f_Warehouse o = at_col r w /\ f_Code o = at_col r c /\
         f_Eng_Name o = at_col r e /\ f_Quantity o = at_col r q /\
         at_col r q = Num (Finite n) /\
         ws !! (i + 1, 0) = shown (at_col r w) /\
         ws !! (i + 1, 1) = shown (at_col r c) /\
         ws !! (i + 1, 2) = shown (at_col r e) /\
         ws !! (i + 1, 3) = Some (CNumber n)) /\
    (forall r c', length (values df) < r -> ws !! (r, c') = None).
Proof.
  intros _ (table & out & ws & Hrec & Hcor & Hren & ->)%handle_Download.
  destruct (reconcile_rows df table Hrec) as (w & c & e & q & u & Hloc & Htable).
  exists table, out, ws, w, c, e, q, u.
  pose proof (correct_length _ _ _ Hcor) as Hlen.
  assert (Hlt : length table = length (values df)) by (by rewrite Htable, length_fmap).
  apply render_Ok in Hren as (_ & Hrows & Hnone).
  repeat (split; [done || lia|]). split.
  - intros i r Hi.
    assert (Ht : table !! i = Some (record_at w c e q u r))
      by (by rewrite Htable, list_lookup_fmap, Hi).
    destruct (correct_lookup _ _ _ _ _ Hcor Ht) as (o & Ho & Hco).
    apply corrected_fields in Hco as (Hfw & Hfc & Hfe & Hfq & _).
    destruct (Hrows i o Ho) as (H0 & H1 & H2 & (n & x & Hq & _ & H3 & _) & _).
    simpl in *. exists o, n. rewrite <- Hfw, <- Hfc, <- Hfe, <- Hfq. by repeat split.
  - intros r c' Hr. apply Hnone. left. lia.
Qed.

Lemma one_output_row_per_input_row_witness :
  well_formed inventory_frame /\
  handle no_text_float inventory_frame = Download inventory_download /\
  exists table out ws w c e q u,
    reconcile inventory_frame = Proceed table /\ correct no_text_float table = Ok out /\
    sheets inventory_download = [("Formatted", ws)] /\
    located (labels_of inventory_frame) w c e q u /\
    length table = length (values inventory_frame) /\
    length out = length (values inventory_frame) /\
    (forall i r, values inventory_frame !! i = Some r ->
       exists o n,
         table !! i = Some (record_at w c e q u r) /\ out !! i = Some o /\
         f_Warehouse o = at_col r w /\ f_Code o = at_col r c /\
         f_Eng_Name o = at_col r e /\ f_Quantity o = at_col r q /\
         at_col r q = Num (Finite n) /\
         ws !! (i + 1, 0) = shown (at_col r w) /\
         ws !! (i + 1, 1) = shown (at_col r c) /\
         ws !! (i + 1, 2) = shown (at_col r e) /\
         ws !! (i + 1, 3) = Some (CNumber n)) /\
    (forall r c', length (values inventory_frame) < r -> ws !! (r, c') = None).
Proof.
  split; [exact inventory_frame_well_formed|].
  split; [exact inventory_frame_handled|].
  exact (one_output_row_per_input_row no_text_float inventory_frame inventory_download
           inventory_frame_well_formed inventory_frame_handled).
Defined.

(** ** The amount a rendered cost displays *)

Section Amounts.

Import Sheet.

Lemma digit_value_digit (n : N) :
  digit_value (ascii_of_N (48 + n mod 10)) = Some (n mod 10)%N.
Proof.
  assert (H : (n mod 10 < 10)%N) by (apply N.mod_lt; lia).
  generalize dependent (n mod 10)%N. intros k H.
  assert (E : (k = 0 \/ k = 1 \/ k = 2 \/ k = 3 \/ k = 4 \/ k = 5 \/ k = 6 \/ k = 7 \/
               k = 8 \/ k = 9)%N) by lia.
  repeat (destruct E as [->|E]; [reflexivity|]). by rewrite E.
Qed.

Lemma scan_digit (n acc : N) (decimals : option nat) (s : string) :
  scan_amount (String (ascii_of_N (48 + n mod 10)) s) acc decimals =
  scan_amount s (acc * 10 + n mod 10) (S <$> decimals).
Proof. cbn [scan_amount]. by rewrite digit_value_digit. Qed.

Lemma digits_fuel_app (fuel : nat) (n : N) (s t : string) :
  PyStr.digits_fuel fuel n s +:+ t = PyStr.digits_fuel fuel n (s +:+ t).
Proof.
  revert n s. induction fuel as [|fuel IH]; intros n s; simpl; [done|].
  destruct (n <? 10)%N; [done|]. by rewrite IH.
Qed.

Lemma scan_digits_fuel (fuel : nat) (n : N) (s : string) :
  (n < 2 ^ N.of_nat fuel)%N ->
  scan_amount (PyStr.digits_fuel fuel n s) 0 None = scan_amount s n None.
Proof.
  revert n s. induction fuel as [|fuel IH]; intros n s Hn.
  - simpl in *. by replace n with 0%N by lia.
  - cbn [PyStr.digits_fuel]. destruct (n <? 10)%N eqn:E.
    + apply N.ltb_lt in E. rewrite scan_digit. simpl.
      by rewrite N.mod_small by done.
    + apply N.ltb_ge in E. rewrite IH.
      * rewrite scan_digit. simpl. f_equal.
        pose proof (N.div_mod n 10 ltac:(lia)). lia.
      * rewrite Nat2N.inj_succ, N.pow_succ_r' in Hn.
        assert (n / 10 <= n / 2)%N.
        { apply N.div_le_compat_l. lia. }
        assert (n / 2 < 2 ^ N.of_nat fuel)%N by (apply N.Div0.div_lt_upper_bound; lia).
        lia.
Qed.

Lemma scan_str_of_N (n : N) (t : string) :
  scan_amount (PyStr.str_of_N n +:+ t) 0 None = scan_amount t n None.
Proof.
  unfold PyStr.str_of_N. rewrite digits_fuel_app. apply scan_digits_fuel.
  rewrite Nat2N.inj_succ, N2Nat.id.
  destruct (decide (n = 0%N)) as [->|Hn]; [done|].
  apply N.log2_spec. lia.
Qed.

Lemma append_nil_l (s : string) : "" +:+ s = s.
Proof. reflexivity. Qed.

Lemma append_cons (c : ascii) (a s : string) : String c a +:+ s = String c (a +:+ s).
Proof. reflexivity. Qed.

Lemma append_assoc (a b c : string) : (a +:+ b) +:+ c = a +:+ (b +:+ c).
Proof.
  induction a as [|x a IH]; [by rewrite !append_nil_l|]. by rewrite !append_cons, IH.
Qed.

Lemma scan_three_digits (m acc : N) (t : string) :
  (m < 1000)%N ->
  scan_amount (PyFmt.three_digits m +:+ t) acc None = scan_amount t (acc * 1000 + m) None.
Proof.
  intros Hm. unfold PyFmt.three_digits, PyFmt.two_digits, PyFmt.digit.
  rewrite !append_cons, append_nil_l, !scan_digit. simpl. f_equal.
  pose proof (N.div_mod m 100 ltac:(lia)). pose proof (N.div_mod m 10 ltac:(lia)).
  pose proof (N.div_mod (m / 10) 10 ltac:(lia)).
  assert (m / 100 < 10)%N by (apply N.Div0.div_lt_upper_bound; lia).
  assert (m / 10 / 10 = m / 100)%N by (rewrite N.Div0.div_div; done).
  rewrite (N.mod_small (m / 100) 10) by done. lia.
Qed.

Lemma scan_grouped (fuel : nat) (n : N) (t : string) :
  scan_amount (PyFmt.grouped fuel n +:+ t) 0 None = scan_amount t n None.
Proof.
  revert n t. induction fuel as [|fuel IH]; intros n t; cbn [PyFmt.grouped].
  - apply scan_str_of_N.
  - destruct (n <? 1000)%N; [apply scan_str_of_N|].
    rewrite append_assoc, IH, append_assoc, append_cons, append_nil_l.
    change (scan_amount (String "," ?s) ?a None) with (scan_amount s a None).
    rewrite scan_three_digits by (apply N.mod_lt; lia). f_equal.
    pose proof (N.div_mod n 1000 ltac:(lia)). lia.
Qed.

Lemma scan_decimals (m n : N) :
  (m < 100)%N ->
  scan_amount ("." +:+ PyFmt.two_digits m) n None = Some ((n * 100 + m)%N, 2).
Proof.
  intros Hm. unfold PyFmt.two_digits, PyFmt.digit. rewrite append_cons, append_nil_l.
  change (scan_amount (String "." ?s) ?a None) with (scan_amount s a (Some 0)).
  rewrite !scan_digit. simpl. f_equal. f_equal.
  pose proof (N.div_mod m 10 ltac:(lia)).
  assert (m / 10 < 10)%N by (apply N.Div0.div_lt_upper_bound; lia).
  rewrite (N.mod_small (m / 10) 10) by done. lia.
Qed.

(** The text starts with a digit. *)
Definition head_digit (s : string) : Prop :=
  exists k s', (k < 10)%N /\ s = String (ascii_of_N (48 + k)) s'.

Lemma digits_fuel_head (fuel : nat) (n : N) (s : string) :
  0 < fuel \/ head_digit s -> head_digit (PyStr.digits_fuel fuel n s).
Proof.
  revert n s. induction fuel as [|fuel IH]; intros n s H; simpl.
  - by destruct H as [?|?]; [lia|].
  - assert (Hd : head_digit (String (ascii_of_N (48 + n mod 10)) s)).
    { exists (n mod 10)%N, s. split; [apply N.mod_lt; lia|done]. }
    destruct (n <? 10)%N; [done|]. apply IH. by right.
Qed.

Lemma grouped_head (fuel : nat) (n : N) (t : string) :
  head_digit (PyFmt.grouped fuel n +:+ t).
Proof.
  revert n t. induction fuel as [|fuel IH]; intros n t; cbn [PyFmt.grouped].
  - unfold PyStr.str_of_N. rewrite digits_fuel_app. apply digits_fuel_head. left. lia.
  - destruct (n <? 1000)%N.
    + unfold PyStr.str_of_N. rewrite digits_fuel_app. apply digits_fuel_head. left. lia.
    + rewrite append_assoc. apply IH.
Qed.

(** A text that starts with a digit is read without a sign. *)
Lemma amount_of_unsigned (s : string) :
  head_digit s ->
  amount_of_text (String "$" s) =
  match scan_amount s 0 None with
  | Some (n, k) => Some (1 * (Z.of_N n # Z.to_pos (10 ^ Z.of_nat k)))%Q
  | None => None
  end.
Proof.
  intros (k & s' & Hk & ->).
  assert (E : (k = 0 \/ k = 1 \/ k = 2 \/ k = 3 \/ k = 4 \/ k = 5 \/ k = 6 \/ k = 7 \/
               k = 8 \/ k = 9)%N) by lia.
  repeat (destruct E as [->|E]; [reflexivity|]). by rewrite E.
Qed.

Lemma amount_of_signed (s : string) :
  head_digit s ->
  amount_of_text (String "$" (String "-" s)) =
  match scan_amount s 0 None with
  | Some (n, k) => Some (-1 * (Z.of_N n # Z.to_pos (10 ^ Z.of_nat k)))%Q
  | None => None
  end.
Proof.
  intros (k & s' & Hk & ->).
  assert (E : (k = 0 \/ k = 1 \/ k = 2 \/ k = 3 \/ k = 4 \/ k = 5 \/ k = 6 \/ k = 7 \/
               k = 8 \/ k = 9)%N) by lia.
  repeat (destruct E as [->|E]; [reflexivity|]). by rewrite E.
Qed.

(** The text of a finite cost is read back as the cost rounded to
    hundredths. *)
Lemma amount_of_money (q : Q) :
  amount_of_text (PyFmt.money (Finite q)) = Some (PyFmt.rounded q).
Proof.
  unfold PyFmt.money, PyFmt.comma_2f, PyFmt.rounded.
  set (c := PyFmt.cents q).
  assert (Hscan : scan_amount
            (PyFmt.grouped (N.to_nat (N.log2 c)) (c / 100) +:+ "."
             +:+ PyFmt.two_digits (c mod 100)) 0 None = Some (c, 2)).
  { rewrite scan_grouped, scan_decimals by (apply N.mod_lt; lia). f_equal. f_equal.
    pose proof (N.div_mod c 100 ltac:(lia)). lia. }
  pose proof (grouped_head (N.to_nat (N.log2 c)) (c / 100)
                ("." +:+ PyFmt.two_digits (c mod 100))) as Hhead.
  destruct (Qnum q <? 0)%Z.
  - etransitivity; [exact (amount_of_signed _ Hhead)|]. by rewrite Hscan.
  - etransitivity; [exact (amount_of_unsigned _ Hhead)|]. by rewrite Hscan.
Qed.

End Amounts.

(** The formula of line 129 names the two cells of its row. *)
Lemma t_formula_a1 (excel_row : nat) :
  t_formula excel_row =
  "=" +:+ Sheet.a1 excel_row qty_col +:+ "*" +:+ Sheet.a1 excel_row usd_col.
Proof. reflexivity. Qed.

(** C6, as amended. In a download, the total cell of a row whose
    warehouse is not special is a formula, the product of the cells of
    the quantity and of the cost of that row; the first is a number
    cell holding the quantity, the second a text cell showing the cost
    with two decimals; evaluated, with the text read as the amount it
    shows, the formula gives the quantity times the cost rounded to
    hundredths. *)
Theorem total_formula_multiplies_displayed_cost
    (py_float : string -> option pyfloat) (df : DataFrame) (d : download) :
  well_formed df ->
  handle py_float df = Download d ->
  exists table out ws,
    reconcile df = Proceed table /\ correct py_float table = Ok out /\
    sheets d = [("Formatted", ws)] /\
    forall i row o,
      table !! i = Some row -> out !! i = Some o ->
      (forall w, Warehouse row = Str w -> w ∉ special_warehouses) ->
      exists q x,
        f_Quantity o = Num (Finite q) /\ to_float py_float (f_USD_Each o) = Ok x /\
        ws !! (i + 1, total_col_idx) =
          Some (CFormula ("=" +:+ Sheet.a1 (i + 1) qty_col +:+ "*"
                          +:+ Sheet.a1 (i + 1) usd_col)) /\
        ws !! (i + 1, qty_col) = Some (CNumber q) /\
        ws !! (i + 1, usd_col) = Some (CString (PyFmt.money x)) /\
        (forall u, x = Finite u ->
           Sheet.product ws (i + 1) qty_col usd_col = Some (q * PyFmt.rounded u)%Q).
Proof.
  intros _ (table & out & ws & Hrec & Hcor & Hren & ->)%handle_Download.
  exists table, out, ws. repeat (split; [done|]).
  intros i row o Hi Ho Hplain.
  destruct (correct_lookup _ _ _ _ _ Hcor Hi) as (o' & Ho' & Hco).
  rewrite Ho in Ho'. injection Ho' as <-.
  apply corrected_fields in Hco as (_ & _ & _ & _ & _ & Ht & _).
  assert (Hin : py_in (Warehouse row) special_warehouses = false).
  { destruct (py_in (Warehouse row) special_warehouses) eqn:E; [|done].
    apply py_in_true in E as (w & Hw & Hin). by destruct (Hplain w Hw). }
  rewrite Hin in Ht.
  apply render_Ok in Hren as (_ & Hrows & _).
  destruct (Hrows i o Ho) as (_ & _ & _ & (q & x & Hq & Hx & H3 & H4 & H5) & _).
  exists q, x. rewrite total_col_idx_eq, usd_col_eq, qty_col_eq.
  repeat (split; [done|]). split; [|split; [done|split; [done|]]].
  - rewrite H5. unfold total_cell. rewrite Ht. simpl. by rewrite t_formula_a1.
  - intros u ->. unfold Sheet.product. rewrite H3, H4.
    change (Sheet.operand (Some (CNumber q))) with (Some q).
    change (Sheet.operand (Some (CString (PyFmt.money (Finite u)))))
      with (Sheet.amount_of_text (PyFmt.money (Finite u))).
    by rewrite amount_of_money.
Qed.

Lemma total_formula_multiplies_displayed_cost_witness :
  well_formed inventory_frame /\
  handle no_text_float inventory_frame = Download inventory_download /\
  exists table out ws,
    reconcile inventory_frame = Proceed table /\ correct no_text_float table = Ok out /\
    sheets inventory_download = [("Formatted", ws)] /\
    forall i row o,
      table !! i = Some row -> out !! i = Some o ->
      (forall w, Warehouse row = Str w -> w ∉ special_warehouses) ->
      exists q x,
        f_Quantity o = Num (Finite q) /\ to_float no_text_float (f_USD_Each o) = Ok x /\
        ws !! (i + 1, total_col_idx) =
          Some (CFormula ("=" +:+ Sheet.a1 (i + 1) qty_col +:+ "*"
                          +:+ Sheet.a1 (i + 1) usd_col)) /\
        ws !! (i + 1, qty_col) = Some (CNumber q) /\
        ws !! (i + 1, usd_col) = Some (CString (PyFmt.money x)) /\
        (forall u, x = Finite u ->
           Sheet.product ws (i + 1) qty_col usd_col = Some (q * PyFmt.rounded u)%Q).
Proof.
  split; [exact inventory_frame_well_formed|].
  split; [exact inventory_frame_handled|].
  exact (total_formula_multiplies_displayed_cost no_text_float inventory_frame
           inventory_download inventory_frame_well_formed inventory_frame_handled).
Defined.

(** C6 as stated fails: the row [X1] of [inventory_frame], in the
    warehouse [Main], has quantity 8 and cost 0.125; its total cell is
    the formula [=D5*E5], the cell [E5] is the text [$0.12], and the
    product is 0.96, not 8 * 0.125. *)
Lemma total_formula_is_not_quantity_times_cost :
  handle no_text_float inventory_frame = Download inventory_download /\
  sheets inventory_download = [("Formatted", inventory_sheet)] /\
  inventory_out !! 3 =
    Some {| f_Warehouse := Str "Main"; f_Code := Str "X1"; f_Eng_Name := Str "Bolt";
            f_Quantity := Num (Finite 8); f_USD_Each := Num (Finite (1 # 8));
            f_Total_USD_Each := ""; f_Notes := "" |} /\
  inventory_sheet !! (4, 5) = Some (CFormula "=D5*E5") /\
  inventory_sheet !! (4, 3) = Some (CNumber 8) /\
  inventory_sheet !! (4, 4) = Some (CString "$0.12") /\
  exists v, Sheet.product inventory_sheet 4 3 4 = Some v /\
            (v == 96 # 100)%Q /\ ~ (v == 8 * (1 # 8))%Q.
Proof.
  split; [exact inventory_frame_handled|]. repeat (split; [by vm_compute|]).
  eexists. split; [by vm_compute|]. split; [by vm_compute|].
  intros H. by vm_compute in H.
Qed.

(** * Further properties of the code *)

(** ** The reconciler, for every frame *)

Lemma lowercase_frame_well_formed : well_formed lowercase_frame.
Proof. split; [by_decide|]. repeat (constructor; [done|]). constructor. Qed.

Lemma get_loc_elem (label : string) (labels : list string) :
  label ∈ labels -> exists i, get_loc label labels = Some i.
Proof.
  intros Hin. destruct (get_loc label labels) as [i|] eqn:E; [by exists i|].
  by apply get_loc_None in E.
Qed.

Lemma omap_length_all {A B} (f : A -> option B) (l : list A) :
  (forall x, x ∈ l -> is_Some (f x)) -> length (omap f l) = length l.
Proof.
  induction l as [|y l IH]; intros H; [done|].
  change (omap f (y :: l)) with (match f y with Some z => z :: omap f l | None => omap f l end).
  destruct (H y) as [z ->]; [left|]. simpl. rewrite IH; [done|].
  intros x Hx. apply H. by right.
Qed.

(** The mapping has its five entries exactly when every canonical name
    has a label that passes the test. *)
Lemma col_map_complete (labels : list string) :
  length (col_map labels) = length expected_cols <->
  forall c, c ∈ expected_cols -> exists x, x ∈ labels /\ close_enough c x = true.
Proof.
  rewrite col_map_spec. split.
  - intros Hlen c Hc.
    destruct (get_close_matches c labels) as [|m rest] eqn:E.
    + pose proof (omap_length_lt (entry labels) expected_cols c Hc) as Hlt.
      unfold entry at 1 in Hlt. rewrite E in Hlt. specialize (Hlt eq_refl). lia.
    + exists m. apply get_close_matches_elem. rewrite E. left.
  - intros Hall. apply omap_length_all. intros c Hc. unfold entry.
    destruct (get_close_matches c labels) as [|m rest] eqn:E; [|done].
    destruct (Hall c Hc) as (x & Hx & Hclose).
    by rewrite (proj1 (get_close_matches_nil c labels) E x Hx) in Hclose.
Qed.

Lemma close_enough_dec (labels : list string) (c : string) :
  (exists x, x ∈ labels /\ close_enough c x = true) \/
  (forall x, x ∈ labels -> close_enough c x = false).
Proof.
  destruct (get_close_matches c labels) as [|m rest] eqn:E.
  - right. by apply get_close_matches_nil.
  - left. exists m. apply get_close_matches_elem. rewrite E. left.
Qed.

(** [max] returns an item whose score no item exceeds. *)
Lemma max_from_score (best : Q * string) (l : list (Q * string)) (e : Q * string) :
  e ∈ best :: l -> (e.1 <= (max_from best l).1)%Q.
Proof.
  revert best e. induction l as [|item l IH]; intros best e Hin; simpl.
  - apply list_elem_of_singleton in Hin. subst. apply Qle_refl.
  - assert (Hb : (best.1 <= (if tuple_lt best item then item else best).1)%Q /\
                 (item.1 <= (if tuple_lt best item then item else best).1)%Q).
    { unfold tuple_lt. destruct (best.1 ?= item.1)%Q eqn:E.
      - apply Qeq_alt in E. destruct (String.ltb best.2 item.2); rewrite E; split; apply Qle_refl.
      - apply Qlt_alt in E. split; [by apply Qlt_le_weak|apply Qle_refl].
      - apply Qgt_alt in E. split; [apply Qle_refl|by apply Qlt_le_weak]. }
    destruct Hb as [Hb Hi].
    apply elem_of_cons in Hin as [->|Hin];
      [eapply Qle_trans; [exact Hb|apply IH; left]|].
    apply elem_of_cons in Hin as [->|Hin];
      [eapply Qle_trans; [exact Hi|apply IH; left]|].
    apply IH. by right.
Qed.

Lemma max_from_elem (word : string) (possibilities : list string)
    (best : Q * string) (l : list (Q * string)) :
  (forall e, e ∈ best :: l -> e ∈ scored word possibilities) ->
  max_from best l ∈ scored word possibilities.
Proof.
  revert best. induction l as [|y l IH]; intros best Hsub; simpl.
  - apply Hsub. left.
  - apply IH. intros e [->|He]%elem_of_cons.
    + destruct (tuple_lt best y); apply Hsub; [right; left|left].
    + apply Hsub. by do 2 right.
Qed.

(** Lines 31-38. Whatever the labels, the renaming keyed by the canonical
    names leaves every label as it is. *)
Theorem renaming_changes_no_label (labels : list string) :
  rename (col_map labels) labels = labels.
Proof. apply rename_col_map. Qed.

(** Lines 27-41. The handler goes on to the rows exactly when the five
    canonical names are labels of the frame, once stripped. *)
Theorem rows_reached_iff_names_are_labels (df : DataFrame) :
  well_formed df ->
  ((exists table, reconcile df = Proceed table) <->
   (forall c, c ∈ expected_cols -> c ∈ labels_of df)).
Proof.
  intros _. split.
  - intros [table H]. by apply (reconcile_Proceed_present df table).
  - intros Hall.
    destruct (get_loc_elem "Warehouse" (labels_of df)) as [w Hw]; [apply Hall; by_decide|].
    destruct (get_loc_elem "Code" (labels_of df)) as [c Hc]; [apply Hall; by_decide|].
    destruct (get_loc_elem "Eng Name" (labels_of df)) as [e He]; [apply Hall; by_decide|].
    destruct (get_loc_elem "Quantity" (labels_of df)) as [q Hq]; [apply Hall; by_decide|].
    destruct (get_loc_elem "Cost" (labels_of df)) as [u Hu]; [apply Hall; by_decide|].
    exists (record_at w c e q u <$> values df). apply reconcile_Proceed. split.
    + by rewrite (col_map_present _ Hall).
    + apply select_Ok. by exists w, c, e, q, u.
Qed.

Lemma rows_reached_iff_names_are_labels_witness :
  well_formed inventory_frame /\
  ((exists table, reconcile inventory_frame = Proceed table) <->
   (forall c, c ∈ expected_cols -> c ∈ labels_of inventory_frame)).
Proof.
  split; [exact inventory_frame_well_formed|].
  exact (rows_reached_iff_names_are_labels inventory_frame inventory_frame_well_formed).
Defined.

(** Lines 31-37. The handler stops with the mismatch message exactly when
    some canonical name has no label of the frame passing the 0.6 test. *)
Theorem schema_mismatch_iff_a_name_has_no_close_label (df : DataFrame) :
  (exists found, reconcile df = Stop found) <->
  (exists c, c ∈ expected_cols /\
             forall x, x ∈ labels_of df -> close_enough c x = false).
Proof.
  split.
  - intros (found & [Hlen _]%reconcile_Stop).
    assert (Hcols : forall cols : list string,
              (forall c, c ∈ cols -> exists x, x ∈ labels_of df /\ close_enough c x = true) \/
              (exists c, c ∈ cols /\ forall x, x ∈ labels_of df -> close_enough c x = false)).
    { induction cols as [|c cols [IH|(c' & Hc' & IH)]].
      - left. by intros c ?%elem_of_nil.
      - destruct (close_enough_dec (labels_of df) c) as [H|H].
        + left. intros c' [->|Hc']%elem_of_cons; [done|by apply IH].
        + right. exists c. split; [left|done].
      - right. exists c'. split; [by right|done]. }
    destruct (Hcols expected_cols) as [Hall|Hex]; [|done].
    by apply col_map_complete in Hall.
  - intros (c & Hc & Hnone). exists (dict_values (col_map (labels_of df))).
    apply reconcile_Stop. split; [|done]. intros Hlen.
    destruct (proj1 (col_map_complete (labels_of df)) Hlen c Hc) as (x & Hx & Hclose).
    by rewrite (Hnone x Hx) in Hclose.
Qed.

(** Lines 31-41. The selection raises [KeyError] exactly when every
    canonical name has a label passing the 0.6 test while some canonical
    name is itself no label of the frame; it raises nothing else. *)
Theorem key_error_iff_matched_name_is_no_label (df : DataFrame) (e : exception) :
  well_formed df ->
  (reconcile df = Fail e <->
   e = KeyError /\
   (forall c, c ∈ expected_cols -> exists x, x ∈ labels_of df /\ close_enough c x = true) /\
   (exists c, c ∈ expected_cols /\ c ∉ labels_of df)).
Proof.
  intros _. rewrite reconcile_Fail, col_map_complete, select_Raise. tauto.
Qed.

Lemma key_error_iff_matched_name_is_no_label_witness :
  well_formed lowercase_frame /\
  (reconcile lowercase_frame = Fail KeyError <->
   KeyError = KeyError /\
   (forall c, c ∈ expected_cols ->
              exists x, x ∈ labels_of lowercase_frame /\ close_enough c x = true) /\
   (exists c, c ∈ expected_cols /\ c ∉ labels_of lowercase_frame)).
Proof.
  split; [exact lowercase_frame_well_formed|].
  exact (key_error_iff_matched_name_is_no_label lowercase_frame KeyError
           lowercase_frame_well_formed).
Defined.

(** Lines 31-34. A canonical name that is itself a label of the frame is
    mapped to that label and to no other, whatever the other labels. *)
Theorem exact_label_is_its_own_match (labels : list string) (c : string) :
  c ∈ expected_cols -> c ∈ labels ->
  (c, c) ∈ col_map labels /\ forall m, (c, m) ∈ col_map labels -> m = c.
Proof.
  intros Hc Hin. split; [|intros m; by apply col_map_self].
  apply col_map_elem. split; [done|]. exists [].
  destruct (expected_self c Hc) as [Hclose Hscore].
  by apply get_close_matches_self.
Qed.

Lemma exact_label_is_its_own_match_witness :
  "Cost" ∈ expected_cols /\ "Cost" ∈ ["Costs"; "Cose"; "Cost"; "cost"] /\
  ("Cost", "Cost") ∈ col_map ["Costs"; "Cose"; "Cost"; "cost"] /\
  forall m, ("Cost", m) ∈ col_map ["Costs"; "Cose"; "Cost"; "cost"] -> m = "Cost".
Proof.
  assert (H1 : "Cost" ∈ expected_cols) by by_decide.
  assert (H2 : "Cost" ∈ ["Costs"; "Cose"; "Cost"; "cost"]) by by_decide.
  split; [exact H1|]. split; [exact H2|].
  exact (exact_label_is_its_own_match ["Costs"; "Cose"; "Cost"; "cost"] "Cost" H1 H2).
Defined.

(** Lines 31-34. The label a canonical name is mapped to is a label of
    the frame whose similarity to the name reaches 0.6, and no label that
    passes the test scores higher. *)
Theorem mapped_label_is_a_best_match (labels : list string) (c m : string) :
  (c, m) ∈ col_map labels ->
  m ∈ labels /\ (cutoff <= score c m)%Q /\
  forall x, x ∈ labels -> close_enough c x = true -> (score c x <= score c m)%Q.
Proof.
  intros Hcm. pose proof Hcm as (_ & Hm & Hclose)%col_map_elem_close.
  split; [done|]. split.
  { unfold close_enough in Hclose. apply andb_prop in Hclose as [_ H].
    by apply Qle_bool_iff in H. }
  intros x Hx Hcx. apply col_map_elem in Hcm as (_ & rest & E).
  unfold get_close_matches, nlargest1 in E.
  assert (Hin : (score c x, x) ∈ scored c labels) by (by apply elem_of_scored).
  destruct (scored c labels) as [|item l] eqn:Es; [by apply elem_of_nil in Hin|].
  assert (Hmax : max_from item l ∈ scored c labels)
    by (apply max_from_elem; by rewrite Es).
  apply elem_of_scored in Hmax as (Hmax & _).
  simpl in E. injection E as E _.
  pose proof (max_from_score item l _ Hin) as Hle. rewrite Hmax, E in Hle. exact Hle.
Qed.

Lemma mapped_label_is_a_best_match_witness :
  ("Cost", "Cose") ∈ col_map (labels_of shared_match_frame) /\
  "Cose" ∈ labels_of shared_match_frame /\ (cutoff <= score "Cost" "Cose")%Q /\
  forall x, x ∈ labels_of shared_match_frame -> close_enough "Cost" x = true ->
            (score "Cost" x <= score "Cost" "Cose")%Q.
Proof.
  assert (H : ("Cost", "Cose") ∈ col_map (labels_of shared_match_frame)).
  { replace (col_map (labels_of shared_match_frame)) with
      [("Warehouse", "Warehouse"); ("Code", "Cose"); ("Eng Name", "Eng Name");
       ("Quantity", "Quantity"); ("Cost", "Cose")] by (by vm_compute). do 4 right. left. }
  split; [exact H|].
  exact (mapped_label_is_a_best_match (labels_of shared_match_frame) "Cost" "Cose" H).
Defined.

(** Line 32. The similarity of a label to a name is at most 1, and a
    label that scores 1 is the name itself. *)
Theorem similarity_is_one_only_for_the_name (word x : string) :
  (score word x <= 1)%Q /\ ((score word x == 1)%Q -> x = word).
Proof. split; [apply score_le_1|apply score_eq_1]. Qed.

(** *** Padding around the labels *)

Lemma lstrip_blank (l s : string) : blank l -> PyStr.lstrip (l +:+ s) = PyStr.lstrip s.
Proof.
  unfold blank. induction l as [|c l IH]; simpl; [done|].
  intros [Hc Hl]%Forall_cons. rewrite Hc. by apply IH.
Qed.

Lemma rstrip_blank (s r : string) : blank r -> PyStr.rstrip (s +:+ r) = PyStr.rstrip s.
Proof.
  intros Hr. induction s as [|c s IH].
  - change ("" +:+ r) with r. unfold blank in Hr. simpl.
    induction r as [|c r IH]; simpl; [done|].
    simpl in Hr. apply Forall_cons in Hr as [Hc Hr]. rewrite (IH Hr). by rewrite Hc.
  - change (String c s +:+ r) with (String c (s +:+ r)). simpl. by rewrite IH.
Qed.

Lemma append_nil_r (s : string) : s +:+ "" = s.
Proof.
  induction s as [|c s IH]; [done|].
  change (String c s +:+ "") with (String c (s +:+ "")). by rewrite IH.
Qed.

Lemma strip_blank (l s r : string) :
  blank l -> blank r -> PyStr.strip (l +:+ s +:+ r) = PyStr.strip s.
Proof.
  intros Hl Hr. unfold PyStr.strip. rewrite (lstrip_blank l (s +:+ r) Hl).
  induction s as [|c s IH].
  - change ("" +:+ r) with r. rewrite <- (append_nil_r r) at 1.
    by rewrite (lstrip_blank r "" Hr).
  - change (String c s +:+ r) with (String c (s +:+ r)). cbn [PyStr.lstrip].
    destruct (PyStr.isspace c); [done|].
    change (String c (s +:+ r)) with (String c s +:+ r). by apply rstrip_blank.
Qed.

(** Line 21. Whitespace around the labels of the sheet makes no
    difference to what the handler does. *)
Theorem padding_of_labels_is_ignored
    (py_float : string -> option pyfloat) (df : DataFrame) (padded : list string) :
  Forall2 (fun label p => exists l r, blank l /\ blank r /\ p = l +:+ label +:+ r)
          (columns df) padded ->
  handle py_float {| columns := padded; values := values df |} = handle py_float df.
Proof.
  intros HF.
  assert (E : PyStr.strip <$> padded = PyStr.strip <$> columns df).
  { induction HF as [|label p cols ps (l & r & Hl & Hr & ->) _ IH]; [done|].
    rewrite !fmap_cons, IH. f_equal. by apply strip_blank. }
  unfold handle, reconcile. simpl. by rewrite E.
Qed.

Lemma padding_of_labels_is_ignored_witness :
  Forall2 (fun label p => exists l r, blank l /\ blank r /\ p = l +:+ label +:+ r)
          (columns inventory_frame)
          [" Warehouse"; "Code  "; "Eng Name"; " Quantity "; "Cost "] /\
  handle no_text_float
    {| columns := [" Warehouse"; "Code  "; "Eng Name"; " Quantity "; "Cost "];
       values := values inventory_frame |} = handle no_text_float inventory_frame.
Proof.
  assert (HF : Forall2 (fun label p => exists l r, blank l /\ blank r /\ p = l +:+ label +:+ r)
                 (columns inventory_frame)
                 [" Warehouse"; "Code  "; "Eng Name"; " Quantity "; "Cost "]).
  { repeat first [ apply Forall2_nil_2 | apply Forall2_cons; split ].
    - exists " ", "". repeat split; [by repeat constructor|by constructor].
    - exists "", "  ". repeat split; [by constructor|by repeat constructor].
    - exists "", "". repeat split; by constructor.
    - exists " ", " ". repeat split; by repeat constructor.
    - exists "", " ". repeat split; [by constructor|by repeat constructor]. }
  split; [exact HF|].
  exact (padding_of_labels_is_ignored no_text_float inventory_frame
           [" Warehouse"; "Code  "; "Eng Name"; " Quantity "; "Cost "] HF).
Defined.

(** ** The rows: what fails and what goes through *)

Section Failures.

Variable py_float : string -> option pyfloat.

Lemma rows_loop_Raise (rows : list record) (notes_col total_col : list string) (e : exception) :
  rows_loop py_float rows notes_col total_col = Raise e <->
  exists i row, rows !! i = Some row /\ row_entries py_float row = Raise e /\
    forall j row', j < i -> rows !! j = Some row' ->
                   exists e', row_entries py_float row' = Ok e'.
Proof.
  revert notes_col total_col. induction rows as [|row rows IH]; intros notes_col total_col; simpl.
  - split; [done|]. by intros (i & row & Hi & _).
  - destruct (row_entries py_float row) as [e0|err] eqn:E; simpl.
    + rewrite IH. split.
      * intros (i & row' & Hi & Hr & Hbefore). exists (S i), row'. split; [done|].
        split; [done|]. intros [|j] row'' Hj Hrow''; simpl in Hrow''.
        -- injection Hrow'' as <-. by exists e0.
        -- apply (Hbefore j); [lia|done].
      * intros ([|i] & row' & Hi & Hr & Hbefore); simpl in Hi.
        -- injection Hi as <-. by rewrite E in Hr.
        -- exists i, row'. split; [done|]. split; [done|].
           intros j row'' Hj Hrow''. apply (Hbefore (S j)); [lia|done].
    + split.
      * intros [= <-]. exists 0, row. split; [done|]. split; [done|]. intros j ? Hj. lia.
      * intros ([|i] & row' & Hi & Hr & Hbefore); simpl in Hi.
        -- injection Hi as <-. rewrite E in Hr. by injection Hr as <-.
        -- destruct (Hbefore 0 row) as [e' He']; [lia|done|]. by rewrite E in He'.
Qed.

(** What makes the entries of a row fail. *)
Lemma row_entries_Raise (row : record) (e : exception) :
  row_entries py_float row = Raise e ->
  (e = TypeError /\ py_in (Warehouse row) special_warehouses = false /\
   exists s, Quantity row = Str s) \/
  (e = ValueError /\
   exists s, (USD_Each row = Str s /\
              py_float (PyStr.remove_char "," (PyStr.remove_char "$" s)) = None) \/
             (Original_Cost row = Str s /\ py_float s = None /\
              (py_in (Code row) adjust_codes = true \/ is_91v2 (Code row) = true))).
Proof.
  unfold row_entries.
  destruct (USD_Each row) as [s|x] eqn:Eu; simpl.
  { destruct (py_float (PyStr.remove_char "," (PyStr.remove_char "$" s))) as [x|] eqn:Ep; simpl.
    2:{ intros [= <-]. right. split; [done|]. exists s. by left. }
    destruct (py_in (Warehouse row) special_warehouses) eqn:Ew; simpl.
    - destruct (py_in (Code row) adjust_codes) eqn:EA; [|destruct (is_91v2 (Code row)) eqn:EB];
        simpl; try done;
        (destruct (Original_Cost row) as [t|y] eqn:Eo; simpl; [|done];
         destruct (py_float t) eqn:Et; simpl; [done|];
         intros [= <-]; right; split; [done|]; exists t; right; auto).
    - destruct (Quantity row) as [t|y] eqn:Eq; simpl.
      { intros [= <-]. left. split; [done|]. split; [done|]. by exists t. }
      destruct (py_in (Code row) adjust_codes) eqn:EA; [|destruct (is_91v2 (Code row)) eqn:EB];
        simpl; try done;
        (destruct (Original_Cost row) as [t|y'] eqn:Eo; simpl; [|done];
         destruct (py_float t) eqn:Et; simpl; [done|];
         intros [= <-]; right; split; [done|]; exists t; right; auto). }
  destruct (py_in (Warehouse row) special_warehouses) eqn:Ew; simpl.
  - destruct (py_in (Code row) adjust_codes) eqn:EA; [|destruct (is_91v2 (Code row)) eqn:EB];
      simpl; try done;
      (destruct (Original_Cost row) as [t|y] eqn:Eo; simpl; [|done];
       destruct (py_float t) eqn:Et; simpl; [done|];
       intros [= <-]; right; split; [done|]; exists t; right; auto).
  - destruct (Quantity row) as [t|y] eqn:Eq; simpl.
    { intros [= <-]. left. split; [done|]. split; [done|]. by exists t. }
    destruct (py_in (Code row) adjust_codes) eqn:EA; [|destruct (is_91v2 (Code row)) eqn:EB];
      simpl; try done;
      (destruct (Original_Cost row) as [t|y'] eqn:Eo; simpl; [|done];
       destruct (py_float t) eqn:Et; simpl; [done|];
       intros [= <-]; right; split; [done|]; exists t; right; auto).
Qed.

Lemma to_float_Raise (v : value) (e : exception) :
  to_float py_float v = Raise e -> e = ValueError.
Proof. destruct v as [s|x]; simpl; [|done]. destruct (py_float s); [done|]. by intros [= <-]. Qed.

Lemma correct_Raise_kind (table : list record) (e : exception) :
  correct py_float table = Raise e -> e = TypeError \/ e = ValueError.
Proof.
  unfold correct.
  destruct (rows_loop py_float (update_cost table) [] []) as [cols|err] eqn:E; simpl; [done|].
  intros [= <-]. apply rows_loop_Raise in E as (i & row & _ & Hr & _).
  apply row_entries_Raise in Hr as [(-> & _)|(-> & _)]; [by left|by right].
Qed.

Lemma write_table_rows_Raise_kind (rows : list formatted) (row_num : nat)
    (ws : gmap (nat * nat) cell) (e : exception) :
  write_table_rows py_float row_num rows ws = Raise e -> e = TypeError \/ e = ValueError.
Proof.
  revert row_num ws. induction rows as [|o rows IH]; intros row_num ws; simpl; [done|].
  unfold write_number. destruct (f_Quantity o) as [|[q| |]]; simpl;
    try (intros [= <-]; by left).
  destruct (to_float py_float (f_USD_Each o)) eqn:Ex; simpl; [apply IH|].
  intros [= <-]. right. by apply to_float_Raise in Ex.
Qed.

Lemma render_Raise_kind (rows : list formatted) (e : exception) :
  render py_float rows = Raise e -> e = TypeError \/ e = ValueError.
Proof.
  destruct (render_loop py_float rows) as [ws1 ->].
  destruct (write_table_rows py_float 0 rows ws1) as [ws2|e'] eqn:E; cbn [bind].
  - destruct rows; cbn [set_column_widths bind]; [|done]. intros [= <-]. by right.
  - intros [= <-]. by apply write_table_rows_Raise_kind in E.
Qed.

(** Past the reconciler the handler ends in a download or in a
    [TypeError] or [ValueError]. *)
Lemma handle_after_Proceed (df : DataFrame) (table : list record) :
  reconcile df = Proceed table ->
  (exists d, handle py_float df = Download d) \/
  (exists e, handle py_float df = ProcessingError e /\ (e = TypeError \/ e = ValueError)).
Proof.
  intros Hrec. unfold handle. rewrite Hrec.
  destruct (correct py_float table) as [out|e] eqn:Ec; simpl.
  - destruct (render py_float out) as [ws|e] eqn:Er; [left; eauto|].
    right. exists e. split; [done|]. by apply render_Raise_kind in Er.
  - right. exists e. split; [done|]. by apply correct_Raise_kind in Ec.
Qed.

Lemma write_table_rows_total (rows : list formatted) (row_num : nat)
    (ws : gmap (nat * nat) cell) :
  Forall (writable py_float) rows ->
  exists ws', write_table_rows py_float row_num rows ws = Ok ws'.
Proof.
  intros HF. revert row_num ws.
  induction HF as [|o rows [[q Hq] [x Hx]] _ IH]; intros row_num ws; simpl.
  - by exists ws.
  - rewrite Hq. simpl. rewrite Hx. simpl. apply IH.
Qed.

Lemma render_writable (rows : list formatted) :
  (exists ws, render py_float rows = Ok ws) <->
  rows <> [] /\ Forall (writable py_float) rows.
Proof.
  split.
  - intros [ws Hren]. split; [by apply (render_nonempty py_float rows ws)|].
    apply render_Ok in Hren as (_ & Hrows & _). apply Forall_lookup. intros i o Hi.
    destruct (Hrows i o Hi) as (_ & _ & _ & (q & x & Hq & Hx & _) & _).
    split; [by exists q|by exists x].
  - intros [Hne HF]. destruct (render_loop py_float rows) as [ws1 ->].
    destruct (write_table_rows_total rows 0 ws1 HF) as [ws2 ->]. cbn [bind].
    destruct rows; [done|]. by exists ws2.
Qed.

Lemma under_rule_false (row : record) :
  under_rule row = false <->
  py_in (Code row) adjust_codes = false /\ is_91v2 (Code row) = false.
Proof. unfold under_rule. apply orb_false_iff. Qed.

Lemma row_entries_usd_val (row : record) (e : string * string) :
  row_entries py_float row = Ok e -> exists v, usd_val_of py_float (USD_Each row) = Ok v.
Proof.
  unfold row_entries. destruct (usd_val_of py_float (USD_Each row)) as [v|]; [|done].
  by exists v.
Qed.

(** A row that goes through the corrector and the renderer is accepted. *)
Lemma corrected_writable_accepted (row : record) (o : formatted) :
  Original_Cost row = USD_Each row -> corrected py_float row o -> writable py_float o ->
  accepted py_float row.
Proof.
  intros Hbackup Hco [[q Hq] [x Hx]].
  pose proof Hco as (e & He & _). apply row_entries_usd_val in He as [v Hv].
  rewrite updated_USD_Each in Hv.
  apply corrected_fields in Hco as (_ & _ & _ & Hfq & Hu & _ & Hn).
  split; [exists q; by rewrite <- Hfq|].
  intros s Hs. rewrite Hu in Hx. rewrite Hbackup, Hs in Hn. rewrite Hs in Hx, Hv.
  unfold under_rule.
  destruct (py_in (Code row) adjust_codes); [|destruct (is_91v2 (Code row))]; simpl in *.
  - destruct Hn as (y & Hy & _). destruct (py_float s); [|done]. split; [done|]. done.
  - destruct Hn as (y & Hy & _). destruct (py_float s); [|done]. split; [done|]. done.
  - destruct (py_float s); [|done]. split; [done|]. intros _.
    by destruct (py_float (PyStr.remove_char "," (PyStr.remove_char "$" s))).
Qed.

(** An accepted row goes through both. *)
Lemma accepted_corrected_writable (row : record) :
  Original_Cost row = USD_Each row -> accepted py_float row ->
  exists o, corrected py_float row o /\ writable py_float o.
Proof.
  intros Hbackup [[q Hq] Hcost].
  assert (He : exists e, row_entries py_float (updated row) = Ok e).
  { unfold row_entries. destruct (updated_frame row) as (-> & -> & _ & -> & ->).
    rewrite updated_USD_Each, Hbackup, Hq.
    destruct (USD_Each row) as [s|x] eqn:Es.
    - destruct (Hcost s eq_refl) as [[y Hy] Hclean]. unfold under_rule in Hclean.
      destruct (py_in (Code row) adjust_codes); [|destruct (is_91v2 (Code row))]; simpl.
      + rewrite Hy. simpl. destruct (py_in (Warehouse row) special_warehouses); simpl; eauto.
      + rewrite Hy. simpl. destruct (py_in (Warehouse row) special_warehouses); simpl; eauto.
      + destruct (Hclean eq_refl) as [z ->]. simpl.
        destruct (py_in (Warehouse row) special_warehouses); simpl; eauto.
    - destruct (py_in (Code row) adjust_codes); [|destruct (is_91v2 (Code row))]; simpl;
        destruct (py_in (Warehouse row) special_warehouses); simpl; eauto. }
  destruct He as [e He]. exists (formatted_of (updated row) e). split; [by exists e|].
  split; simpl.
  - exists q. destruct (updated_frame row) as (_ & _ & _ & -> & _). done.
  - rewrite updated_USD_Each.
    destruct (py_in (Code row) adjust_codes); [|destruct (is_91v2 (Code row))]; simpl; eauto.
    destruct (USD_Each row) as [s|x] eqn:Es; simpl; eauto.
    destruct (Hcost s eq_refl) as [[y ->] _]. eauto.
Qed.

Lemma reconciled_backup (df : DataFrame) (table : list record) (i : nat) (row : record) :
  reconcile df = Proceed table -> table !! i = Some row -> Original_Cost row = USD_Each row.
Proof.
  intros (w & c & e & q & u & _ & ->)%reconcile_rows Hi.
  rewrite list_lookup_fmap in Hi. destruct (values df !! i); [|done]. by injection Hi as <-.
Qed.

Lemma download_accepted (df : DataFrame) :
  (exists d, handle py_float df = Download d) <->
  exists table, reconcile df = Proceed table /\ table <> [] /\
                Forall (accepted py_float) table.
Proof.
  split.
  - intros [d (table & out & ws & Hrec & Hcor & Hren & _)%handle_Download].
    assert (Hw : out <> [] /\ Forall (writable py_float) out)
      by (apply render_writable; by exists ws).
    destruct Hw as [Hne HF].
    exists table. split; [done|]. split.
    { intros ->. apply correct_length in Hcor. by destruct out. }
    apply Forall_lookup. intros i row Hi.
    destruct (correct_lookup _ _ _ _ _ Hcor Hi) as (o & Ho & Hco).
    apply (corrected_writable_accepted row o); [by apply (reconciled_backup df table i)|done|].
    by apply (Forall_lookup_1 _ _ _ _ HF Ho).
  - intros (table & Hrec & Hne & HF).
    assert (Hout : exists out, Forall2 (corrected py_float) table out /\
                               Forall (writable py_float) out).
    { assert (Hb : forall i row, table !! i = Some row -> Original_Cost row = USD_Each row)
        by (intros i row; apply (reconciled_backup df table i row Hrec)).
      clear Hrec Hne. induction HF as [|row table Hrow _ IH].
      - exists []. split; constructor.
      - destruct IH as (out & H2 & Hw); [intros i r Hi; by apply (Hb (S i))|].
        destruct (accepted_corrected_writable row (Hb 0 row eq_refl) Hrow) as (o & Hco & Hwo).
        exists (o :: out). split; by constructor. }
    destruct Hout as (out & Hcor & Hw).
    assert (Hren : exists ws, render py_float out = Ok ws).
    { apply render_writable. split; [|done]. intros ->.
      apply Forall2_length in Hcor. by destruct table. }
    destruct Hren as [ws Hren]. apply correct_Ok in Hcor.
    eexists. apply handle_Download. by exists table, out, ws.
Qed.

End Failures.

(** Lines 60-83. The corrector fails with the exception of the first row
    whose entries cannot be computed: every row before it is gone
    through, no row after it is looked at. *)
Theorem corrector_fails_at_first_bad_row
    (py_float : string -> option pyfloat) (table : list record) (e : exception) :
  correct py_float table = Raise e <->
  exists i row, table !! i = Some row /\ row_entries py_float (updated row) = Raise e /\
    forall j row', j < i -> table !! j = Some row' ->
                   exists e', row_entries py_float (updated row') = Ok e'.
Proof.
  unfold correct. rewrite update_cost_fmap.
  destruct (rows_loop py_float (updated <$> table) [] []) as [cols|err] eqn:E; simpl.
  - split; [done|]. intros (i & row & Hi & Hr & _).
    assert (H : rows_loop py_float (updated <$> table) [] [] = Raise e).
    { apply rows_loop_Raise. exists i, (updated row). rewrite list_lookup_fmap, Hi.
      split; [done|]. split; [done|]. intros j row' Hj Hrow'. clear -E Hrow'.
      destruct cols as [n t]. apply rows_loop_Ok in E as (es & HF & _).
      destruct (Forall2_lookup_l _ _ _ _ _ HF Hrow') as (e' & _ & He'). by exists e'. }
    by rewrite E in H.
  - split.
    + intros [= <-]. apply rows_loop_Raise in E as (i & row & Hi & Hr & Hbefore).
      rewrite list_lookup_fmap in Hi. destruct (table !! i) as [row0|] eqn:Ei; [|done].
      injection Hi as <-. exists i, row0. split; [done|]. split; [done|].
      intros j row' Hj Hrow'. apply (Hbefore j); [done|]. by rewrite list_lookup_fmap, Hrow'.
    + intros (i & row & Hi & Hr & Hbefore).
      assert (H : rows_loop py_float (updated <$> table) [] [] = Raise e).
      { apply rows_loop_Raise. exists i, (updated row). rewrite list_lookup_fmap, Hi.
        split; [done|]. split; [done|]. intros j row' Hj Hrow'.
        rewrite list_lookup_fmap in Hrow'. destruct (table !! j) as [row0|] eqn:Ej; [|done].
        injection Hrow' as <-. by apply (Hbefore j). }
      rewrite E in H. by injection H as ->.
Qed.

(** Lines 66-80. The entries of a row fail on a text quantity outside the
    special warehouses, with [TypeError], or on a text that [float]
    rejects, with [ValueError]: the cost without its dollar sign and
    commas or, under a rule, the original cost as it stands. *)
Theorem row_failure_is_a_text_quantity_or_cost
    (py_float : string -> option pyfloat) (row : record) (e : exception) :
  row_entries py_float row = Raise e ->
  (e = TypeError /\ py_in (Warehouse row) special_warehouses = false /\
   exists s, Quantity row = Str s) \/
  (e = ValueError /\
   exists s, (USD_Each row = Str s /\
              py_float (PyStr.remove_char "," (PyStr.remove_char "$" s)) = None) \/
             (Original_Cost row = Str s /\ py_float s = None /\
              (py_in (Code row) adjust_codes = true \/ is_91v2 (Code row) = true))).
Proof. apply row_entries_Raise. Qed.

Lemma row_failure_is_a_text_quantity_or_cost_witness :
  row_entries no_text_float
    {| Warehouse := Str "Main"; Code := Str "029813261"; Eng_Name := Str "Widget";
       Quantity := Num (Finite 3); USD_Each := Num (Finite price_029813);
       Original_Cost := Str "$500.00" |} = Raise ValueError /\
  exists s, Str "$500.00" = Str s /\ no_text_float s = None.
Proof.
  assert (H : row_entries no_text_float
    {| Warehouse := Str "Main"; Code := Str "029813261"; Eng_Name := Str "Widget";
       Quantity := Num (Finite 3); USD_Each := Num (Finite price_029813);
       Original_Cost := Str "$500.00" |} = Raise ValueError) by reflexivity.
  split; [exact H|].
  destruct (row_failure_is_a_text_quantity_or_cost no_text_float _ _ H)
    as [(Hk & _)|(_ & s & [(Hs & _)|(Hs & Hn & _)])].
  - discriminate Hk.
  - discriminate Hs.
  - exists s. split; [exact Hs|exact Hn].
Defined.

(** Lines 96-144. The renderer writes the sheet exactly when the final
    frame has a row and every row has a quantity that is a finite number
    and a cost [float] converts; without rows it fails at line 144, with
    [ValueError]. *)
Theorem renderer_succeeds_iff_rows_are_writable
    (py_float : string -> option pyfloat) (rows : list formatted) :
  ((exists ws, render py_float rows = Ok ws) <->
   rows <> [] /\ Forall (writable py_float) rows) /\
  render py_float [] = Raise ValueError.
Proof. split; [apply render_writable|reflexivity]. Qed.

(** Lines 41-149. A download is offered exactly when the five canonical
    names are labels of the frame, the frame has a row and every row is
    accepted. *)
Theorem download_iff_every_row_is_accepted
    (py_float : string -> option pyfloat) (df : DataFrame) :
  well_formed df ->
  ((exists d, handle py_float df = Download d) <->
   exists table, reconcile df = Proceed table /\ table <> [] /\
                 Forall (accepted py_float) table).
Proof. intros _. apply download_accepted. Qed.

Lemma download_iff_every_row_is_accepted_witness :
  well_formed inventory_frame /\
  ((exists d, handle no_text_float inventory_frame = Download d) <->
   exists table, reconcile inventory_frame = Proceed table /\ table <> [] /\
                 Forall (accepted no_text_float) table).
Proof.
  split; [exact inventory_frame_well_formed|].
  exact (download_iff_every_row_is_accepted no_text_float inventory_frame
           inventory_frame_well_formed).
Defined.

(** Lines 60-130 and 151. When the reconciler goes on to the rows, a row
    that is not accepted makes the whole run end in a processing error, a
    [TypeError] or a [ValueError], and nothing is offered. *)
Theorem rejected_row_is_a_type_or_value_error
    (py_float : string -> option pyfloat) (df : DataFrame) (table : list record)
    (i : nat) (row : record) :
  well_formed df ->
  reconcile df = Proceed table -> table !! i = Some row -> ~ accepted py_float row ->
  exists e, handle py_float df = ProcessingError e /\ (e = TypeError \/ e = ValueError).
Proof.
  intros _ Hrec Hi Hno.
  destruct (handle_after_Proceed py_float df table Hrec) as [Hd|He]; [|done].
  apply download_accepted in Hd as (table' & Hrec' & _ & HF). rewrite Hrec in Hrec'.
  injection Hrec' as <-. destruct Hno. by apply (Forall_lookup_1 _ _ _ _ HF Hi).
Qed.

Lemma text_quantity_frame_well_formed : well_formed text_quantity_frame.
Proof. split; [by_decide|]. repeat (constructor; [done|]). constructor. Qed.

Lemma rejected_row_is_a_type_or_value_error_witness :
  well_formed text_quantity_frame /\
  reconcile text_quantity_frame =
    Proceed [{| Warehouse := Str "Main"; Code := Str "X1"; Eng_Name := Str "Bolt";
                Quantity := Str "eight"; USD_Each := Num (Finite 2);
                Original_Cost := Num (Finite 2) |}] /\
  handle no_text_float text_quantity_frame = ProcessingError TypeError /\
  exists e, handle no_text_float text_quantity_frame = ProcessingError e /\
            (e = TypeError \/ e = ValueError).
Proof.
  assert (Hrec : reconcile text_quantity_frame =
    Proceed [{| Warehouse := Str "Main"; Code := Str "X1"; Eng_Name := Str "Bolt";
                Quantity := Str "eight"; USD_Each := Num (Finite 2);
                Original_Cost := Num (Finite 2) |}]) by reflexivity.
  split; [exact text_quantity_frame_well_formed|]. split; [exact Hrec|].
  split; [reflexivity|].
  apply (rejected_row_is_a_type_or_value_error no_text_float text_quantity_frame _ 0 _
           text_quantity_frame_well_formed Hrec eq_refl).
  intros [[q Hq] _]. discriminate Hq.
Defined.

(** Lines 41 and 151. The processing error is a [KeyError] exactly when
    the selection by label fails: the rows never raise one. *)
Theorem key_error_comes_from_the_selection
    (py_float : string -> option pyfloat) (df : DataFrame) :
  well_formed df ->
  (handle py_float df = ProcessingError KeyError <-> reconcile df = Fail KeyError).
Proof.
  intros _. split.
  - intros H. destruct (reconcile df) as [found|e|table] eqn:Hrec.
    + unfold handle in H. by rewrite Hrec in H.
    + unfold handle in H. rewrite Hrec in H. by injection H as ->.
    + destruct (handle_after_Proceed py_float df table Hrec) as [[d Hd]|(e & He & Hk)].
      * by rewrite Hd in H.
      * rewrite He in H. injection H as ->. by destruct Hk.
  - intros Hrec. unfold handle. by rewrite Hrec.
Qed.

Lemma key_error_comes_from_the_selection_witness :
  well_formed lowercase_frame /\
  (handle no_text_float lowercase_frame = ProcessingError KeyError <->
   reconcile lowercase_frame = Fail KeyError).
Proof.
  split; [exact lowercase_frame_well_formed|].
  exact (key_error_comes_from_the_selection no_text_float lowercase_frame
           lowercase_frame_well_formed).
Defined.

(** ** The sheet *)

Lemma blank_cost_frame_well_formed : well_formed blank_cost_frame.
Proof. split; [by_decide|]. repeat (constructor; [done|]). constructor. Qed.

Lemma blank_cost_frame_handled :
  handle no_text_float blank_cost_frame = Download blank_cost_download.
Proof. by vm_compute. Qed.

(** Lines 66, 72 and 120. A cost that is missing, read as NaN, is not
    turned down: in a download the row of such a cost, under no rule,
    shows the text [$nan] as its cost, beside the total its warehouse
    gives it. *)
Theorem missing_cost_is_shown_as_nan
    (py_float : string -> option pyfloat) (df : DataFrame) (d : download) :
  well_formed df ->
  handle py_float df = Download d ->
  exists table ws,
    reconcile df = Proceed table /\ sheets d = [("Formatted", ws)] /\
    forall i row,
      table !! i = Some row -> USD_Each row = Num Nan -> under_rule row = false ->
      ws !! (i + 1, usd_col) = Some (CString "$nan") /\
      ws !! (i + 1, total_col_idx) =
        Some (if py_in (Warehouse row) special_warehouses then CString "$0.00"
              else CFormula (t_formula (i + 1))).
Proof.
  intros _ (table & out & ws & Hrec & Hcor & Hren & ->)%handle_Download.
  exists table, ws. split; [done|]. split; [done|].
  intros i row Hi Hnan [HA HB]%under_rule_false.
  destruct (correct_lookup _ _ _ _ _ Hcor Hi) as (o & Ho & Hco).
  apply corrected_fields in Hco as (_ & _ & _ & _ & Hu & Ht & _).
  rewrite HA, HB, Hnan in Hu.
  apply render_Ok in Hren as (_ & Hrows & _).
  destruct (Hrows i o Ho) as (_ & _ & _ & (q & x & _ & Hx & _ & H4 & H5) & _).
  rewrite Hu in Hx. injection Hx as <-. rewrite usd_col_eq, total_col_idx_eq, H4, H5.
  split; [done|]. unfold total_cell. rewrite Ht.
  by destruct (py_in (Warehouse row) special_warehouses).
Qed.

Lemma missing_cost_is_shown_as_nan_witness :
  well_formed blank_cost_frame /\
  handle no_text_float blank_cost_frame = Download blank_cost_download /\
  exists table ws,
    reconcile blank_cost_frame = Proceed table /\
    sheets blank_cost_download = [("Formatted", ws)] /\
    forall i row,
      table !! i = Some row -> USD_Each row = Num Nan -> under_rule row = false ->
      ws !! (i + 1, usd_col) = Some (CString "$nan") /\
      ws !! (i + 1, total_col_idx) =
        Some (if py_in (Warehouse row) special_warehouses then CString "$0.00"
              else CFormula (t_formula (i + 1))).
Proof.
  split; [exact blank_cost_frame_well_formed|].
  split; [exact blank_cost_frame_handled|].
  exact (missing_cost_is_shown_as_nan no_text_float blank_cost_frame blank_cost_download
           blank_cost_frame_well_formed blank_cost_frame_handled).
Defined.

(** Lines 54, 77-79 and 120. In a download, a row whose code is one of
    the two texts of rule A as it stands shows the cost [$1,398.06],
    whatever its warehouse, and its note quotes the cost read from the
    sheet. *)
Theorem exact_code_shows_the_new_cost
    (py_float : string -> option pyfloat) (df : DataFrame) (d : download) :
  well_formed df ->
  handle py_float df = Download d ->
  exists table ws,
    reconcile df = Proceed table /\ sheets d = [("Formatted", ws)] /\
    forall i row s,
      table !! i = Some row -> Code row = Str s -> s ∈ adjust_codes ->
      exists x, to_float py_float (USD_Each row) = Ok x /\
        ws !! (i + 1, usd_col) = Some (CString "$1,398.06") /\
        ws !! (i + 1, 6) =
          Some (CAny (Str ("Compiere previously showed " +:+ PyFmt.money x))).
Proof.
  intros _ (table & out & ws & Hrec & Hcor & Hren & ->)%handle_Download.
  exists table, ws. split; [done|]. split; [done|].
  intros i row s Hi Hs Hin.
  assert (HA : py_in (Code row) adjust_codes = true) by (apply py_in_true; by exists s).
  destruct (correct_lookup _ _ _ _ _ Hcor Hi) as (o & Ho & Hco).
  apply corrected_fields in Hco as (_ & _ & _ & _ & Hu & _ & Hn).
  rewrite HA in Hu, Hn. destruct Hn as (x & Hx & Hn).
  rewrite (reconciled_backup df table i row Hrec Hi) in Hx. exists x. split; [done|].
  apply render_Ok in Hren as (_ & Hrows & _).
  destruct (Hrows i o Ho) as (_ & _ & _ & (q & y & _ & Hy & _ & H4 & _) & H6).
  rewrite Hu in Hy. injection Hy as <-. rewrite usd_col_eq, H4, H6, Hn. done.
Qed.

Lemma exact_code_shows_the_new_cost_witness :
  well_formed inventory_frame /\
  handle no_text_float inventory_frame = Download inventory_download /\
  exists table ws,
    reconcile inventory_frame = Proceed table /\
    sheets inventory_download = [("Formatted", ws)] /\
    forall i row s,
      table !! i = Some row -> Code row = Str s -> s ∈ adjust_codes ->
      exists x, to_float no_text_float (USD_Each row) = Ok x /\
        ws !! (i + 1, usd_col) = Some (CString "$1,398.06") /\
        ws !! (i + 1, 6) =
          Some (CAny (Str ("Compiere previously showed " +:+ PyFmt.money x))).
Proof.
  split; [exact inventory_frame_well_formed|].
  split; [exact inventory_frame_handled|].
  exact (exact_code_shows_the_new_cost no_text_float inventory_frame inventory_download
           inventory_frame_well_formed inventory_frame_handled).
Defined.

(** Lines 97-134. The cells of the sheet of a download lie in the rows
    0 to the number of rows of the final frame, which is that of the
    frame read, and in the columns 0 to 6: the range given to
    [add_table], from [A1] to the cell of the last row in column [G].
    In that range the seven headers and, in every row, the quantity, the
    cost and the total are there; the warehouse, the code and the name
    have the cell [df.to_excel] leaves for them, none for a missing value
    or an empty text, and the note has a cell exactly when it is not
    empty. *)
Theorem sheet_lies_in_the_table_region
    (py_float : string -> option pyfloat) (df : DataFrame) (d : download) :
  well_formed df ->
  handle py_float df = Download d ->
  exists table out ws,
    reconcile df = Proceed table /\ correct py_float table = Ok out /\
    sheets d = [("Formatted", ws)] /\ length out = length (values df) /\
    (forall r c, is_Some (ws !! (r, c)) -> r <= length out /\ c < 7) /\
    (forall c, c < 7 -> is_Some (ws !! (0, c))) /\
    (forall i o, out !! i = Some o ->
       (forall c, 3 <= c <= 5 -> is_Some (ws !! (i + 1, c))) /\
       ws !! (i + 1, 0) = shown (f_Warehouse o) /\
       ws !! (i + 1, 1) = shown (f_Code o) /\
       ws !! (i + 1, 2) = shown (f_Eng_Name o) /\
       (is_Some (ws !! (i + 1, 6)) <-> f_Notes o <> "")) /\
    table_range (length out) = "A1:" +:+ Sheet.a1 (length out) 6.
Proof.
  intros _ (table & out & ws & Hrec & Hcor & Hren & ->)%handle_Download.
  exists table, out, ws. split; [done|]. split; [done|]. split; [done|]. split.
  { rewrite (correct_length _ _ _ Hcor).
    apply reconcile_rows in Hrec as (w & c & e & q & u & _ & ->). by rewrite length_fmap. }
  apply render_Ok in Hren as (Hhead & Hrows & Hnone).
  split; [|split; [|split; [|reflexivity]]].
  - intros r c Hsome. destruct (decide (length out < r \/ 7 <= c)) as [H|H]; [|lia].
    rewrite (Hnone r c H) in Hsome. by destruct Hsome.
  - intros c Hc. destruct (lookup_lt_is_Some_2 final_columns c) as [label Hl]; [simpl; lia|].
    by rewrite (Hhead c label Hl).
  - intros i o Ho.
    destruct (Hrows i o Ho) as (H0 & H1 & H2 & (q & x & _ & _ & H3 & H4 & H5) & H6).
    split; [|split; [done|split; [done|split; [done|]]]].
    + intros c Hc. assert (Hcases : c = 3 \/ c = 4 \/ c = 5) by lia.
      destruct Hcases as [->|[->| ->]]; by eexists.
    + rewrite H6. unfold shown. simpl. destruct (f_Notes o) as [|a t].
      * split; [by intros [? ?]|done].
      * split; [done|by eexists].
Qed.

Lemma sheet_lies_in_the_table_region_witness :
  well_formed inventory_frame /\
  handle no_text_float inventory_frame = Download inventory_download /\
  exists table out ws,
    reconcile inventory_frame = Proceed table /\ correct no_text_float table = Ok out /\
    sheets inventory_download = [("Formatted", ws)] /\
    length out = length (values inventory_frame) /\
    (forall r c, is_Some (ws !! (r, c)) -> r <= length out /\ c < 7) /\
    (forall c, c < 7 -> is_Some (ws !! (0, c))) /\
    (forall i o, out !! i = Some o ->
       (forall c, 3 <= c <= 5 -> is_Some (ws !! (i + 1, c))) /\
       ws !! (i + 1, 0) = shown (f_Warehouse o) /\
       ws !! (i + 1, 1) = shown (f_Code o) /\
       ws !! (i + 1, 2) = shown (f_Eng_Name o) /\
       (is_Some (ws !! (i + 1, 6)) <-> f_Notes o <> "")) /\
    table_range (length out) = "A1:" +:+ Sheet.a1 (length out) 6.
Proof.
  split; [exact inventory_frame_well_formed|].
  split; [exact inventory_frame_handled|].
  exact (sheet_lies_in_the_table_region no_text_float inventory_frame inventory_download
           inventory_frame_well_formed inventory_frame_handled).
Defined.

Lemma empty_frame_well_formed : well_formed empty_frame.
Proof. split; [by_decide|constructor]. Qed.

(** Lines 141-144 and 151. A frame under the five canonical names that
    has no row gets no download: the reconciler and the two loops go
    through, and the widths end the run in a [ValueError]. *)
Theorem frame_without_rows_is_a_value_error
    (py_float : string -> option pyfloat) (df : DataFrame) :
  well_formed df ->
  values df = [] ->
  (forall c, c ∈ expected_cols -> c ∈ labels_of df) ->
  reconcile df = Proceed [] /\ correct py_float [] = Ok [] /\
  handle py_float df = ProcessingError ValueError.
Proof.
  intros _ Hnil Hall.
  assert (Hrec : reconcile df = Proceed []).
  { destruct (get_loc_elem "Warehouse" (labels_of df)) as [w Hw]; [apply Hall; by_decide|].
    destruct (get_loc_elem "Code" (labels_of df)) as [c Hc]; [apply Hall; by_decide|].
    destruct (get_loc_elem "Eng Name" (labels_of df)) as [e He]; [apply Hall; by_decide|].
    destruct (get_loc_elem "Quantity" (labels_of df)) as [q Hq]; [apply Hall; by_decide|].
    destruct (get_loc_elem "Cost" (labels_of df)) as [u Hu]; [apply Hall; by_decide|].
    apply reconcile_Proceed. split; [by rewrite (col_map_present _ Hall)|].
    apply select_Ok. exists w, c, e, q, u. split; [done|]. by rewrite Hnil. }
  split; [done|]. split; [done|]. unfold handle. by rewrite Hrec.
Qed.

Lemma frame_without_rows_is_a_value_error_witness :
  well_formed empty_frame /\ values empty_frame = [] /\
  (forall c, c ∈ expected_cols -> c ∈ labels_of empty_frame) /\
  handle no_text_float empty_frame = ProcessingError ValueError.
Proof.
  assert (Hall : forall c, c ∈ expected_cols -> c ∈ labels_of empty_frame) by (by intros c Hc).
  split; [exact empty_frame_well_formed|]. split; [reflexivity|]. split; [exact Hall|].
  exact (proj2 (proj2 (frame_without_rows_is_a_value_error no_text_float empty_frame
                         empty_frame_well_formed eq_refl Hall))).
Defined.

(** ** Reading the upload *)

Lemma rfind_None (c : ascii) (p : list ascii) : PyPath.rfind c p = None <-> c ∉ p.
Proof.
  induction p as [|x p IH]; simpl.
  - split; [|done]. intros _ H. by apply elem_of_nil in H.
  - rewrite not_elem_of_cons. destruct (PyPath.rfind c p) as [i|].
    + split; [done|]. intros [_ H]. by apply IH in H.
    + destruct (Ascii.eqb x c) eqn:E.
      * apply Ascii.eqb_eq in E. subst. split; [done|]. by intros [? _].
      * apply Ascii.eqb_neq in E. split; [|done]. intros _. split; [congruence|by apply IH].
Qed.

Lemma rfind_Some (c : ascii) (p : list ascii) (i : nat) :
  PyPath.rfind c p = Some i -> i < length p.
Proof.
  revert i. induction p as [|x p IH]; intros i; simpl; [done|].
  destruct (PyPath.rfind c p) as [j|].
  - intros [= <-]. specialize (IH j eq_refl). lia.
  - destruct (Ascii.eqb x c); [|done]. intros [= <-]. lia.
Qed.

Lemma rfind_last (c : ascii) (p t : list ascii) :
  c ∉ t -> PyPath.rfind c (p ++ c :: t) = Some (length p).
Proof.
  intros Ht. induction p as [|x p IH]; simpl.
  - rewrite (proj2 (rfind_None c t) Ht). by rewrite Ascii.eqb_refl.
  - by rewrite IH.
Qed.

Lemma has_name_pos (p : list ascii) (filenameIndex n : nat) :
  PyPath.has_name p filenameIndex n = true -> 0 < n.
Proof. destruct n; [done|lia]. Qed.

(** The loop ends inside exactly when the component has a character
    other than the dot before [dotIndex]. *)
Lemma has_name_spec (p t : list ascii) (filenameIndex n : nat) :
  filenameIndex + n = length p ->
  PyPath.has_name (p ++ t) filenameIndex n = true <->
  exists c, c ∈ drop filenameIndex p /\ c <> "."%char.
Proof.
  revert filenameIndex. induction n as [|n IH]; intros k Hk; simpl.
  - rewrite drop_ge by lia. split; [done|]. intros (c & Hc & _). by apply elem_of_nil in Hc.
  - destruct (lookup_lt_is_Some_2 p k) as [c Hc]; [lia|].
    rewrite (lookup_app_l_Some _ _ _ _ Hc). rewrite (drop_S _ _ _ Hc).
    destruct (Ascii.eqb c ".") eqn:E.
    + apply Ascii.eqb_eq in E. subst c. rewrite IH by lia. split.
      * intros (c & Hin & Hne). exists c. split; [by right|done].
      * intros (c & [->|Hin]%elem_of_cons & Hne); [done|]. by exists c.
    + apply Ascii.eqb_neq in E. split; [|done]. intros _. exists c. split; [left|done].
Qed.

Lemma string_of_list_ascii_app (a b : list ascii) :
  string_of_list_ascii (a ++ b) = string_of_list_ascii a +:+ string_of_list_ascii b.
Proof.
  induction a as [|x a IH]; [done|]. simpl.
  change (String x (string_of_list_ascii a) +:+ string_of_list_ascii b)
    with (String x (string_of_list_ascii a +:+ string_of_list_ascii b)).
  by rewrite IH.
Qed.

Lemma list_ascii_of_string_app (a b : string) :
  list_ascii_of_string (a +:+ b) = list_ascii_of_string a ++ list_ascii_of_string b.
Proof.
  induction a as [|x a IH]; [done|].
  change (String x a +:+ b) with (String x (a +:+ b)). simpl. by rewrite IH.
Qed.

(** What [splitext] returns, put together, is the name. *)
Lemma splitext_join (p : string) :
  (PyPath.splitext p).1 +:+ (PyPath.splitext p).2 = p.
Proof.
  unfold PyPath.splitext.
  destruct (PyPath.rfind "." (list_ascii_of_string p)) as [dotIndex|];
    [|apply append_nil_r].
  destruct (_ && _); [|apply append_nil_r]. simpl.
  by rewrite <- string_of_list_ascii_app, take_drop, string_of_list_ascii_of_string.
Qed.

(** An extension that is not empty leaves a root that is not empty. *)
Lemma splitext_root (p : string) :
  (PyPath.splitext p).2 <> "" -> (PyPath.splitext p).1 <> "".
Proof.
  unfold PyPath.splitext.
  destruct (PyPath.rfind "." (list_ascii_of_string p)) as [dotIndex|] eqn:Ed; [|done].
  destruct (_ <=? _) eqn:Ele; simpl; [|done].
  destruct (PyPath.has_name _ _ _) eqn:Eh; simpl; [|done].
  intros _. apply has_name_pos in Eh. apply rfind_Some in Ed.
  destruct (list_ascii_of_string p) as [|c l]; [simpl in Ed; lia|].
  destruct dotIndex; [lia|]. done.
Qed.

Lemma splitext_xls (root : string) :
  ("/"%char ∉ list_ascii_of_string root) ->
  PyPath.splitext (root +:+ ".xls") =
  if PyPath.has_name (list_ascii_of_string root ++ list_ascii_of_string ".xls") 0
       (length (list_ascii_of_string root))
  then (root, ".xls") else (root +:+ ".xls", "").
Proof.
  intros Hsep. unfold PyPath.splitext. rewrite list_ascii_of_string_app.
  set (l := list_ascii_of_string root) in *.
  change (list_ascii_of_string ".xls") with ("."%char :: list_ascii_of_string "xls").
  rewrite (proj2 (rfind_None "/" (l ++ "."%char :: list_ascii_of_string "xls"))).
  2:{ rewrite not_elem_of_app. split; [done|]. by_decide. }
  rewrite rfind_last by by_decide. simpl. rewrite Nat.sub_0_r.
  destruct (PyPath.has_name _ 0 (length l)) eqn:Eh; [|done].
  rewrite take_app_length, drop_app_length. subst l.
  by rewrite string_of_list_ascii_of_string.
Qed.

(** Lines 16-17. The engine [xlrd] is chosen only for a name that ends
    in [.xls], in lower case, after a root that is not empty. *)
Theorem xlrd_only_for_names_ending_in_dot_xls (name : string) :
  engine_for name = "xlrd" -> exists root, root <> "" /\ name = root +:+ ".xls".
Proof.
  unfold engine_for. destruct (String.eqb _ ".xls") eqn:E; [|done]. intros _.
  apply String.eqb_eq in E. exists (PyPath.splitext name).1. split.
  - apply splitext_root. by rewrite E.
  - by rewrite <- E, splitext_join.
Qed.

Lemma xlrd_only_for_names_ending_in_dot_xls_witness :
  engine_for "stock/2024.inventory.xls" = "xlrd" /\
  exists root, root <> "" /\ "stock/2024.inventory.xls" = root +:+ ".xls".
Proof.
  assert (H : engine_for "stock/2024.inventory.xls" = "xlrd") by reflexivity.
  split; [exact H|].
  exact (xlrd_only_for_names_ending_in_dot_xls "stock/2024.inventory.xls" H).
Defined.

(** Lines 16-17. For a name without directory that ends in [.xls], the
    engine is [xlrd] exactly when a character other than the dot comes
    before the extension: a name made of dots and [.xls] only, [.xls]
    itself among them, has no extension and gets [openpyxl]. *)
Theorem dot_xls_name_is_read_by_xlrd (root : string) :
  ("/"%char ∉ list_ascii_of_string root) ->
  (engine_for (root +:+ ".xls") = "xlrd" <->
   exists c, c ∈ list_ascii_of_string root /\ c <> "."%char).
Proof.
  intros Hsep. unfold engine_for. rewrite (splitext_xls root Hsep).
  pose proof (has_name_spec (list_ascii_of_string root) (list_ascii_of_string ".xls") 0
                (length (list_ascii_of_string root)) eq_refl) as H.
  rewrite drop_0 in H. rewrite <- H.
  by destruct (PyPath.has_name _ 0 _).
Qed.

Lemma dot_xls_name_is_read_by_xlrd_witness :
  ("/"%char ∉ list_ascii_of_string "inventory") /\
  engine_for "inventory.xls" = "xlrd" /\ engine_for "..xls" = "openpyxl".
Proof.
  assert (H : "/"%char ∉ list_ascii_of_string "inventory") by by_decide.
  split; [exact H|]. split; [|reflexivity].
  apply (proj2 (dot_xls_name_is_read_by_xlrd "inventory" H)).
  exists "i"%char. split; [left|done].
Defined.
